(** * CareerCompass: quiz scoring, catalog filtering and tracker state

    A shallow embedding of the pure logic inside the React components of
    the CareerCompass client (AptitudeQuiz, ScholarshipsTrackerSection,
    CareerRecommendationsSection and their sibling components), followed
    by the properties the specification states about it and by further
    properties of the same components.

    Conventions of the embedding:
    - a JavaScript string is the list of its UTF-16 code units;
    - a JavaScript number is kept by its exact value (a rational, or one
      of the two infinities, or NaN); rounding to binary64 is not modelled;
    - a value that arrives from [res.json()] is a [JsVal]: the declared
      TypeScript type of a catalog entry is not checked at run time;
    - code that can raise runs in the [result] monad;
    - host built-ins whose behaviour is not fixed by the repository
      (case mapping, date parsing, the local time zone, collation, number
      printing) are the fields of the class [Host]. *)

From Stdlib Require Import ZArith QArith Qabs List Bool Lia Ascii String Sorted Permutation.
From stdpp Require Import base option list gmap sets.

Set Warnings "-register-all".
Close Scope Q_scope.
Open Scope Z_scope.

(** ** Strings as sequences of UTF-16 code units *)

Abbreviation jsstring := (list N).

(** A literal whose characters are all in the Basic Latin block. *)
Definition js (s : string) : jsstring :=
  List.map N_of_ascii (list_ascii_of_string s).

(** U+20B9 INDIAN RUPEE SIGN, one code unit. *)
Definition rupee : N := 8377%N.

(** [String.prototype.startsWith] with the pattern first. *)
Fixpoint startsWith (p s : jsstring) : bool :=
  match p, s with
  | [], _ => true
  | _ :: _, [] => false
  | a :: p', b :: s' => N.eqb a b && startsWith p' s'
  end.

(** [s.includes(q)]: [q] occurs in [s] as a contiguous run. *)
Fixpoint includes (s q : jsstring) : bool :=
  startsWith q s ||
  match s with
  | [] => false
  | _ :: s' => includes s' q
  end.

(** [s.endsWith(suf)]. *)
Definition endsWith (s suf : jsstring) : bool :=
  startsWith (List.rev suf) (List.rev s).

(** [s.slice(0, -1)]. *)
Definition dropLast (s : jsstring) : jsstring := List.removelast s.

(** The characters matched by [\s] in a regular expression, which are
    also the ones [trim] removes (WhiteSpace and LineTerminator). *)
Definition isWhiteSpace (c : N) : bool :=
  ((9 <=? c) && (c <=? 13) || (c =? 32) || (c =? 160) || (c =? 5760)
   || (8192 <=? c) && (c <=? 8202) || (c =? 8232) || (c =? 8233)
   || (c =? 8239) || (c =? 8287) || (c =? 12288) || (c =? 65279))%N.

Fixpoint trimStart (s : jsstring) : jsstring :=
  match s with
  | c :: s' => if isWhiteSpace c then trimStart s' else s
  | [] => []
  end.

(** [s.trim()]. *)
Definition trim (s : jsstring) : jsstring :=
  List.rev (trimStart (List.rev (trimStart s))).

(** [s.replace(/c/g, rep)] for a pattern that is one literal character. *)
Definition replaceChar (c : N) (rep : jsstring) (s : jsstring) : jsstring :=
  List.flat_map (fun x => if N.eqb x c then rep else [x]) s.

(** [s.replace(/[...]/g, empty)] for a character class [cls]: every match
    is deleted. *)
Definition removeClass (cls : N -> bool) (s : jsstring) : jsstring :=
  List.filter (fun x => negb (cls x)) s.

(** [xs.join(sep)] on strings. *)
Fixpoint join (sep : jsstring) (xs : list jsstring) : jsstring :=
  match xs with
  | [] => []
  | [x] => x
  | x :: rest => x ++ sep ++ join sep rest
  end.

Definition isDigit (c : N) : bool := ((48 <=? c) && (c <=? 57))%N.

(** Value of a run of decimal digits, most significant first. *)
Definition digitsValue (ds : jsstring) : Z :=
  List.fold_left (fun acc c => 10 * acc + (Z.of_N c - 48)) ds 0.

(** Longest prefix satisfying [p], and the rest. *)
Fixpoint span (p : N -> bool) (s : jsstring) : jsstring * jsstring :=
  match s with
  | c :: s' =>
      if p c then let '(a, b) := span p s' in (c :: a, b) else ([], s)
  | [] => ([], [])
  end.

(** ** The Basic Latin letters *)

Definition isLatinLetter (c : N) : bool :=
  ((65 <=? c) && (c <=? 90) || (97 <=? c) && (c <=? 122))%N.

(** The lower-case form of a Basic Latin letter; other code units are
    left alone. *)
Definition lowerUnit (c : N) : N :=
  if ((65 <=? c) && (c <=? 90))%N then (c + 32)%N else c.

(** Comparison of two strings code unit by code unit. *)
Fixpoint compareUnits (a b : jsstring) : comparison :=
  match a, b with
  | [], [] => Eq
  | [], _ :: _ => Lt
  | _ :: _, [] => Gt
  | x :: a', y :: b' =>
      match N.compare x y with
      | Eq => compareUnits a' b'
      | c => c
      end
  end.

(** ** Numbers *)

Inductive number : Type :=
  | NaN
  | PInf
  | NInf
  | Fin (q : Q).

Definition ofZ (z : Z) : number := Fin (inject_Z z).

Definition isNaN (n : number) : bool :=
  match n with NaN => true | _ => false end.

(** [a - b]. *)
Definition nsub (a b : number) : number :=
  match a, b with
  | NaN, _ | _, NaN => NaN
  | PInf, PInf | NInf, NInf => NaN
  | PInf, _ | _, NInf => PInf
  | NInf, _ | _, PInf => NInf
  | Fin x, Fin y => Fin (Qred (x - y))
  end.

(** [a * b]. *)
Definition nmul (a b : number) : number :=
  match a, b with
  | NaN, _ | _, NaN => NaN
  | Fin x, Fin y => Fin (Qred (x * y))
  | Fin x, PInf | PInf, Fin x =>
      match Qcompare x 0 with Eq => NaN | Gt => PInf | Lt => NInf end
  | Fin x, NInf | NInf, Fin x =>
      match Qcompare x 0 with Eq => NaN | Gt => NInf | Lt => PInf end
  | PInf, PInf | NInf, NInf => PInf
  | PInf, NInf | NInf, PInf => NInf
  end.

(** The sign a comparator result has for [Array.prototype.sort]:
    NaN counts as zero. *)
Definition nsign (n : number) : comparison :=
  match n with
  | NaN => Eq
  | PInf => Gt
  | NInf => Lt
  | Fin q => Qcompare q 0
  end.

(** [a >= b] on numbers: false as soon as one side is NaN. *)
Definition nge (a b : number) : bool :=
  match nsub a b with
  | NaN => match a, b with PInf, PInf | NInf, NInf => true | _, _ => false end
  | n => match nsign n with Lt => false | _ => true end
  end.

(** [x || y] when both are numbers: the first unless it is 0 or NaN. *)
Definition norElse (x y : number) : number :=
  match x with
  | NaN => y
  | Fin q => if Qeq_bool q 0 then y else x
  | _ => x
  end.

Definition pow10 (e : Z) : Q :=
  if 0 <=? e then inject_Z (10 ^ e) else Qmake 1 (Z.to_pos (10 ^ (- e))).

(** The exponent part of a decimal literal, 0 when there is none:
    [e] or [E], an optional sign, at least one digit. *)
Definition parseExponent (s : jsstring) : Z :=
  match s with
  | c :: r =>
      if ((c =? 101) || (c =? 69))%N then
        let '(neg, r1) :=
          match r with
          | d :: r' =>
              if (d =? 43)%N then (false, r')
              else if (d =? 45)%N then (true, r') else (false, r)
          | [] => (false, r)
          end in
        match fst (span isDigit r1) with
        | [] => 0
        | ds => if neg then - digitsValue ds else digitsValue ds
        end
      else 0
  | [] => 0
  end.

(** [parseFloat(s)]: the value of the longest prefix of the trimmed
    string that is a decimal literal, NaN when there is none. *)
Definition parseFloat (s : jsstring) : number :=
  let t := trimStart s in
  let '(neg, u) :=
    match t with
    | c :: r =>
        if (c =? 43)%N then (false, r)
        else if (c =? 45)%N then (true, r) else (false, t)
    | [] => (false, t)
    end in
  if startsWith (js "Infinity") u then (if neg then NInf else PInf)
  else
    let '(ip, r1) := span isDigit u in
    let '(fp, r2) :=
      match r1 with
      | c :: r => if (c =? 46)%N then span isDigit r else ([], r1)
      | [] => ([], r1)
      end in
    match ip ++ fp with
    | [] => NaN
    | ds =>
        let m := digitsValue ds in
        let e := parseExponent r2 - Z.of_nat (length fp) in
        Fin (Qred (inject_Z (if neg then - m else m) * pow10 e))
    end.

(** [s.split(re)] for a pattern [re] that matches one character of [p]. *)
Fixpoint splitOn (p : N -> bool) (s : jsstring) : list jsstring :=
  match s with
  | [] => [[]]
  | c :: r =>
      if p c then [] :: splitOn p r
      else match splitOn p r with
           | h :: t => (c :: h) :: t
           | [] => [[c]]
           end
  end.

(** ** Values decoded from JSON, and exceptions *)

Inductive JsVal : Type :=
  | VUndefined
  | VNull
  | VBool (b : bool)
  | VNum (n : number)
  | VStr (s : jsstring)
  | VArr (items : list JsVal)
  | VObj (props : list (jsstring * JsVal)).

(** ToBoolean. *)
Definition truthy (v : JsVal) : bool :=
  match v with
  | VUndefined | VNull => false
  | VBool b => b
  | VNum NaN => false
  | VNum (Fin q) => negb (Qeq_bool q 0)
  | VNum _ => true
  | VStr s => match s with [] => false | _ => true end
  | VArr _ | VObj _ => true
  end.

(** [a || b]. *)
Definition orElse (a b : JsVal) : JsVal := if truthy a then a else b.

(** [a ?? b]. *)
Definition nullish (a b : JsVal) : JsVal :=
  match a with VUndefined | VNull => b | _ => a end.

Fixpoint lookupProp (k : jsstring) (props : list (jsstring * JsVal)) : JsVal :=
  match props with
  | [] => VUndefined
  | (k', v) :: rest => if decide (k' = k) then v else lookupProp k rest
  end.

(** [v.k] for the property names of a catalog entry: an own property of
    an object. The names [id] and [name] exist on no primitive, array or
    prototype of a decoded value, so every other value gives [undefined];
    the remaining names are only read on entries whose [id] and [name]
    are truthy, which are objects. ([null.k] and [undefined.k] raise; the
    callers guard against them.) *)
Definition getProp (v : JsVal) (k : jsstring) : JsVal :=
  match v with
  | VObj props => lookupProp k props
  | _ => VUndefined
  end.

Inductive error : Type :=
  | TypeError
  | RangeError
  | OtherError.

Inductive result (A : Type) : Type :=
  | Ok (a : A)
  | Throw (e : error).
Arguments Ok {A} a.
Arguments Throw {A} e.

#[global] Instance result_ret : MRet result := fun _ a => Ok a.
#[global] Instance result_bind : MBind result := fun _ _ f m =>
  match m with
  | Ok a => f a
  | Throw e => Throw e
  end.

(** [xs.filter(p)] when [p] can raise: the first exception escapes. *)
Fixpoint filterE {A} (p : A -> result bool) (l : list A) : result (list A) :=
  match l with
  | [] => Ok []
  | x :: rest =>
      b ← p x;
      rest' ← filterE p rest;
      Ok (if b : bool then x :: rest' else rest')
  end.

(** ** The host *)

Class Host : Type := {
  (** [String.prototype.toLowerCase] *)
  toLowerCase : jsstring -> jsstring;
  (** [Date.parse]: the time value in milliseconds, [None] for NaN *)
  dateParse : jsstring -> option Z;
  (** LocalTZA(t, isUTC): offset of local time in milliseconds *)
  localTZA : Z -> bool -> Z;
  (** [a.localeCompare(b)] in the default locale *)
  localeCompare : jsstring -> jsstring -> Z;
  (** Number::toString *)
  numberToString : number -> jsstring
}.

(** ToPrimitive and ToString return on a decoded value unless they come
    upon an object with a property [toString] of its own: such a
    property is never a function, the inherited [valueOf] gives the
    object back, and the conversion raises a TypeError. An array is
    converted through its elements. *)
Fixpoint convertible (v : JsVal) : bool :=
  match v with
  | VObj props =>
      negb (List.existsb (fun p => bool_decide (fst p = js "toString")) props)
  | VArr items => List.forallb convertible items
  | _ => true
  end.

(** ToString, for a value that is [convertible]. *)
Fixpoint ToString `{Host} (v : JsVal) : jsstring :=
  match v with
  | VUndefined => js "undefined"
  | VNull => js "null"
  | VBool true => js "true"
  | VBool false => js "false"
  | VNum n => numberToString n
  | VStr s => s
  | VArr items =>
      join (js ",")
        (List.map (fun x => match x with
                            | VUndefined | VNull => []
                            | _ => ToString x
                            end) items)
  | VObj _ => js "[object Object]"
  end.

(** ** More arithmetic on numbers *)

(** [a + b]. *)
Definition nadd (a b : number) : number :=
  match a, b with
  | NaN, _ | _, NaN => NaN
  | PInf, NInf | NInf, PInf => NaN
  | PInf, _ | _, PInf => PInf
  | NInf, _ | _, NInf => NInf
  | Fin x, Fin y => Fin (Qred (x + y))
  end.

(** [a > b] on numbers: false as soon as one side is NaN. *)
Definition ngt (a b : number) : bool :=
  match a, b with
  | NaN, _ | _, NaN => false
  | PInf, PInf | NInf, NInf => false
  | _, _ => match nsign (nsub a b) with Gt => true | _ => false end
  end.

(** [a <= b] on numbers: false as soon as one side is NaN. *)
Definition nleb (a b : number) : bool := nge b a.

(** ** Integers in decimal, sets of strings *)

(** The decimal digits of [n], more significant ones being pushed in
    front of [acc]; [fuel] bounds their number. *)
Fixpoint decimalDigits (fuel : nat) (n : Z) (acc : jsstring) : jsstring :=
  match fuel with
  | O => acc
  | S fuel' =>
      let acc' := Z.to_N (48 + n `mod` 10) :: acc in
      if n `div` 10 =? 0 then acc' else decimalDigits fuel' (n `div` 10) acc'
  end.

(** The decimal numeral of a natural number. *)
Definition decimal (n : Z) : jsstring :=
  decimalDigits (Z.to_nat (Z.log2 n) + 1) n [].

(** Number::toString on an integer: the decimal numeral below 10^21,
    the host's exponent form from there on. *)
Definition intToString `{Host} (n : Z) : jsstring :=
  if Z.abs n <? 10 ^ 21
  then (if n <? 0 then js "-" ++ decimal (- n) else decimal n)
  else numberToString (ofZ n).

(** [s.padStart(n, fill)] for a one-character [fill]. *)
Definition padStart (n : nat) (fill : N) (s : jsstring) : jsstring :=
  List.repeat fill (n - length s) ++ s.

(** The names every object inherits from [Object.prototype]: reading
    one of them from an object that has no such key of its own gives a
    function or an object, never [undefined]. *)
Definition prototypeMembers : list jsstring :=
  List.map js
    [ "constructor"; "toString"; "toLocaleString"; "valueOf";
      "hasOwnProperty"; "isPrototypeOf"; "propertyIsEnumerable";
      "__proto__"; "__defineGetter__"; "__defineSetter__";
      "__lookupGetter__"; "__lookupSetter__" ]%string.

(** A [Set] of strings: its elements in insertion order, each once. *)
Abbreviation StringSet := (list jsstring).

(** [set.has(x)] *)
Definition setHas (x : jsstring) (set : StringSet) : bool :=
  List.existsb (fun y => bool_decide (y = x)) set.

(** [set.add(x)]: a new element goes last, a present one stays put. *)
Definition setAdd (x : jsstring) (set : StringSet) : StringSet :=
  if setHas x set then set else set ++ [x].

(** [set.delete(x)] *)
Definition setDelete (x : jsstring) (set : StringSet) : StringSet :=
  List.filter (fun y => negb (bool_decide (y = x))) set.

(** [new Set(xs)]: the elements of [xs] in order of first occurrence. *)
Definition setOf (xs : list jsstring) : StringSet :=
  List.fold_left (fun set x => setAdd x set) xs [].

(** The comparison [sort()] makes without a comparator, on strings:
    by code units. *)
Definition unitsOrder (a b : jsstring) : number :=
  match compareUnits a b with
  | Lt => ofZ (-1)
  | Eq => ofZ 0
  | Gt => ofZ 1
  end.

(** ** Dates *)

(** A [Date] is its time value: milliseconds since the epoch, or [None]
    for an invalid date (time value NaN). *)
Abbreviation Date := (option Z).

Definition msPerDay : Z := 1000 * 60 * 60 * 24.
Definition msPerHour : Z := 1000 * 60 * 60.
Definition maxTime : Z := 8640000000000000.

(** TimeClip. *)
Definition timeClip (t : Z) : Date :=
  if Z.abs t <=? maxTime then Some t else None.

(** Truncation of a rational toward zero. *)
Definition Qtrunc (q : Q) : Z := Z.quot (Qnum q) (Zpos (Qden q)).

(** TimeClip of a number that need not be an integer: the range is
    tested first, then the fraction is dropped. *)
Definition timeClipQ (q : Q) : Date :=
  if Qle_bool (Qabs q) (inject_Z maxTime) then Some (Qtrunc q) else None.

(** [new Date(s)] for a string [s]. *)
Definition parseDate `{Host} (s : jsstring) : Date := dateParse s ≫= timeClip.

(** [new Date(v)] for a value [v]: a string is parsed, anything else is
    converted to a number; arrays and objects go through their string,
    and the constructor raises when that conversion does. *)
Definition newDate `{Host} (v : JsVal) : result Date :=
  match v with
  | VStr s => Ok (parseDate s)
  | VArr _ | VObj _ =>
      if convertible v then Ok (parseDate (ToString v)) else Throw TypeError
  | VUndefined => Ok None
  | VNull => Ok (timeClip 0)
  | VBool b => Ok (timeClip (if b then 1 else 0))
  | VNum (Fin q) => Ok (timeClipQ q)
  | VNum _ => Ok None
  end.

(** [x.setDate(x.getDate() + k)]: the local calendar day moves by [k]
    and the local time of day is kept (MakeDay with a day of the month
    out of range carries into the neighbouring months). *)
Definition addLocalDays `{Host} (k : Z) (x : Date) : Date :=
  t ← x;
  let loc := t + localTZA t true in
  let loc' := loc + k * msPerDay in
  timeClip (loc' - localTZA loc' false).

(** [x.setHours(h, 0, 0, 0)]. *)
Definition setLocalHour `{Host} (h : Z) (x : Date) : Date :=
  t ← x;
  let loc := t + localTZA t true in
  let loc' := (loc `div` msPerDay) * msPerDay + h * msPerHour in
  timeClip (loc' - localTZA loc' false).

(** [a < b] on dates: false when one of them is invalid. *)
Definition dateLt (a b : Date) : bool :=
  match a, b with
  | Some x, Some y => x <? y
  | _, _ => false
  end.

(** [x.toISOString()]. The string is represented by the time value it
    spells out; an invalid date raises a RangeError. *)
Definition toISOString (x : Date) : result Z :=
  match x with
  | Some t => Ok t
  | None => Throw RangeError
  end.

(** [Math.ceil(ms / (1000 * 60 * 60 * 24))] for an integer [ms]. *)
Definition ceilDays (ms : Z) : Z := - ((- ms) `div` msPerDay).

(** [a.getTime() - b.getTime()]: NaN when one of the dates is invalid. *)
Definition timeDiff (a b : Date) : number :=
  match a, b with
  | Some x, Some y => ofZ (x - y)
  | _, _ => NaN
  end.

(** The civil year and the month (0 for January) of day number [day],
    day 0 being 1970-01-01: YearFromTime and MonthFromTime. *)
Definition yearMonthOfDay (day : Z) : Z * Z :=
  let z := day + 719468 in
  let era := z `div` 146097 in
  let doe := z - era * 146097 in
  let yoe := (doe - doe `div` 1460 + doe `div` 36524 - doe `div` 146096) `div` 365 in
  let doy := doe - (365 * yoe + yoe `div` 4 - yoe `div` 100) in
  let mp := (5 * doy + 2) `div` 153 in
  let m := if mp <? 10 then mp + 3 else mp - 9 in
  (yoe + era * 400 + (if m <=? 2 then 1 else 0), m - 1).

(** [(x.getFullYear(), x.getMonth())], in local time; [None] when the
    date is invalid (both are NaN). *)
Definition localYearMonth `{Host} (x : Date) : option (Z * Z) :=
  t ← x;
  Some (yearMonthOfDay ((t + localTZA t true) `div` msPerDay)).

(** ** [Array.prototype.sort] with a comparator

    The sort is stable; it is modelled by insertion from the right, which
    yields the one stable sorted arrangement whenever the comparator is
    consistent. A comparator result is read through its sign. *)

Section Sort.
Context {A : Type}.

Fixpoint insertBy (cmp : A -> A -> number) (x : A) (l : list A) : list A :=
  match l with
  | [] => [x]
  | y :: rest =>
      match nsign (cmp x y) with
      | Gt => y :: insertBy cmp x rest
      | _ => x :: l
      end
  end.

Definition sortBy (cmp : A -> A -> number) (l : list A) : list A :=
  List.fold_right (insertBy cmp) [] l.

Fixpoint insertByE (cmp : A -> A -> result number) (x : A) (l : list A)
  : result (list A) :=
  match l with
  | [] => Ok [x]
  | y :: rest =>
      c ← cmp x y;
      match nsign c with
      | Gt => rest' ← insertByE cmp x rest; Ok (y :: rest')
      | _ => Ok (x :: l)
      end
  end.

(** The same sort for a comparator that can raise. *)
Fixpoint sortByE (cmp : A -> A -> result number) (l : list A)
  : result (list A) :=
  match l with
  | [] => Ok []
  | x :: rest => rest' ← sortByE cmp rest; insertByE cmp x rest'
  end.
End Sort.

(** ** AptitudeQuiz.tsx *)

Module AptitudeQuiz.

Inductive Stream : Type :=
  | Arts
  | Science
  | Commerce
  | Vocational.

#[global] Instance Stream_eq_dec : EqDecision Stream.
Proof. solve_decision. Defined.

Definition streamName (k : Stream) : jsstring :=
  match k with
  | Arts => js "Arts"
  | Science => js "Science"
  | Commerce => js "Commerce"
  | Vocational => js "Vocational"
  end.

(** The object [buckets]: its properties in creation order. *)
Abbreviation Buckets := (list (Stream * Z)).

Definition initialBuckets : Buckets :=
  [(Arts, 0); (Science, 0); (Commerce, 0); (Vocational, 0)].

(** [buckets[k]] *)
Fixpoint score (b : Buckets) (k : Stream) : Z :=
  match b with
  | [] => 0
  | (k', v) :: rest => if decide (k' = k) then v else score rest k
  end.

(** [buckets.k += d] *)
Definition bump (k : Stream) (d : Z) (b : Buckets) : Buckets :=
  List.map (fun '(k', v) => if decide (k' = k) then (k', v + d) else (k', v)) b.

Record QuizResults : Type := {
  streamScores : Buckets;
  summary : jsstring;
  recommended : list Stream
}.

(** The object [answers]: question id and chosen option value, in the
    order [Object.values] walks them. *)
Abbreviation AnswerMap := (list (jsstring * jsstring)).

Definition values (answers : AnswerMap) : list jsstring := List.map snd answers.

(** [{ ...prev, [qid]: val }] *)
Fixpoint setAnswer (qid val : jsstring) (prev : AnswerMap) : AnswerMap :=
  match prev with
  | [] => [(qid, val)]
  | (k, v) :: rest =>
      if decide (k = qid) then (k, val) :: rest
      else (k, v) :: setAnswer qid val rest
  end.

Section WithHost.
Context `{Host}.

(** One turn of the [forEach] body. *)
Definition scoreAnswer (buckets : Buckets) (val : jsstring) : Buckets :=
  let v := toLowerCase val in
  if includes v (js "logic") || includes v (js "math") || includes v (js "science")
  then bump Science 2 buckets
  else if includes v (js "business") || includes v (js "finance")
          || includes v (js "commerce")
  then bump Commerce 2 buckets
  else if includes v (js "creative") || includes v (js "art")
          || includes v (js "design") || includes v (js "language")
  then bump Arts 2 buckets
  else bump Vocational 1 buckets.

(** The result the promise of [mockEvaluate] resolves with (after a
    fixed delay, which has no part in the value). *)
Definition mockEvaluate (answers : AnswerMap) : QuizResults :=
  let buckets := List.fold_left scoreAnswer (values answers) initialBuckets in
  let sorted :=
    sortBy (fun a b => nsub (ofZ (score buckets b)) (ofZ (score buckets a)))
           (List.map fst buckets) in
  {| streamScores := buckets;
     summary :=
       js "You show strengths aligned with "
       ++ match sorted with k :: _ => streamName k | [] => js "undefined" end
       ++ match sorted with
          | _ :: k :: _ => js " and " ++ streamName k
          | _ => []
          end
       ++ js ". Explore related subjects and projects to validate your interest.";
     recommended := List.firstn 2 sorted |}.
End WithHost.

Inductive Phase : Type :=
  | PhaseQuiz
  | PhaseReview
  | PhaseSubmitting
  | PhaseResult.

Inductive Toast : Type :=
  | ToastLoading (msg : jsstring)
  | ToastSuccess (msg : jsstring)
  | ToastError (msg : jsstring)
  | ToastWarning (msg : jsstring).

Record Option : Type := { optionId : jsstring; label : jsstring; value : jsstring }.

Record QuizQuestion : Type := {
  qId : jsstring;
  prompt : jsstring;
  options : list Option
}.

(** The props of the component. [onSubmit] gives the outcome of the
    promise it returns: [Throw] stands for a rejection. *)
Record Props : Type := {
  questions : list QuizQuestion;
  durationSec : Z;
  allowSkip : bool;
  autoSubmitOnTime : bool;
  initialAnswers : option AnswerMap;
  onSubmit : option (AnswerMap -> result QuizResults)
}.

Definition DEFAULT_DURATION : Z := 12 * 60.

(** The state cells of the component, and the toasts shown so far. *)
Record State : Type := {
  phase : Phase;
  index : Z;
  answers : AnswerMap;
  remaining : Z;
  results : option QuizResults;
  toasts : list Toast
}.

Definition setPhase (p : Phase) (st : State) : State :=
  {| phase := p; index := index st; answers := answers st;
     remaining := remaining st; results := results st; toasts := toasts st |}.
Definition setIndex (i : Z) (st : State) : State :=
  {| phase := phase st; index := i; answers := answers st;
     remaining := remaining st; results := results st; toasts := toasts st |}.
Definition setAnswers (a : AnswerMap) (st : State) : State :=
  {| phase := phase st; index := index st; answers := a;
     remaining := remaining st; results := results st; toasts := toasts st |}.
Definition setRemaining (r : Z) (st : State) : State :=
  {| phase := phase st; index := index st; answers := answers st;
     remaining := r; results := results st; toasts := toasts st |}.
Definition setResults (r : option QuizResults) (st : State) : State :=
  {| phase := phase st; index := index st; answers := answers st;
     remaining := remaining st; results := r; toasts := toasts st |}.
Definition toast (t : Toast) (st : State) : State :=
  {| phase := phase st; index := index st; answers := answers st;
     remaining := remaining st; results := results st;
     toasts := toasts st ++ [t] |}.

Definition initialState (p : Props) : State :=
  {| phase := PhaseQuiz; index := 0;
     answers := default [] (initialAnswers p);
     remaining := durationSec p; results := None; toasts := [] |}.

Definition selectOption (qid val : jsstring) (st : State) : State :=
  setAnswers (setAnswer qid val (answers st)) st.

Definition jumpTo (i : Z) (st : State) : State := setPhase PhaseQuiz (setIndex i st).

Definition handleReview (st : State) : State := setPhase PhaseReview st.

Section WithHost.
Context `{Host}.

(** [handleSubmit] up to its [await]. *)
Definition handleSubmitStart (st : State) : State :=
  toast (ToastLoading (js "Analyzing your responses...")) (setPhase PhaseSubmitting st).

(** The promise awaited by [handleSubmit], started with the answers
    of the render that called it. *)
Definition scoring (p : Props) (a : AnswerMap) : result QuizResults :=
  match onSubmit p with
  | Some f => f a
  | None => Ok (mockEvaluate a)
  end.

(** [handleSubmit] after its [await], on the state the component then
    has. *)
Definition handleSubmitSettle (outcome : result QuizResults) (st : State) : State :=
  match outcome with
  | Ok res =>
      toast (ToastSuccess (js "Results ready"))
        (setPhase PhaseResult (setResults (Some res) st))
  | Throw _ =>
      toast (ToastError (js "Failed to process results. Please try again."))
        (setPhase PhaseReview st)
  end.

(** A whole run of [handleSubmit] with no other event in between. *)
Definition handleSubmit (p : Props) (st : State) : State :=
  handleSubmitSettle (scoring p (answers st)) (handleSubmitStart st).
End WithHost.

Definition handleRetake (p : Props) (st : State) : State :=
  setPhase PhaseQuiz
    (setRemaining (durationSec p)
      (setResults None (setIndex 0 (setAnswers [] st)))).

(** *** Navigation and timer *)

Definition formatTime `{Host} (totalSeconds : Z) : jsstring :=
  let m := Z.max 0 (totalSeconds `div` 60) in
  let s := Z.max 0 (Z.rem totalSeconds 60) in
  padStart 2 48 (intToString m) ++ js ":" ++ padStart 2 48 (intToString s).

(** [questions.length] *)
Definition total (p : Props) : Z := Z.of_nat (length (questions p)).

(** [questions[i]] *)
Definition questionAt (p : Props) (i : Z) : option QuizQuestion :=
  if i <? 0 then None else List.nth_error (questions p) (Z.to_nat i).

(** The own property [k] of [answers], if there is one. *)
Fixpoint lookupAnswer (k : jsstring) (a : AnswerMap) : option jsstring :=
  match a with
  | [] => None
  | (k', v) :: rest => if decide (k' = k) then Some v else lookupAnswer k rest
  end.

(** [!!answers[k]]: an own value that is not the empty string, or, with
    no own value, a member inherited under that name. *)
Definition answered (a : AnswerMap) (k : jsstring) : bool :=
  match lookupAnswer k a with
  | Some [] => false
  | Some (_ :: _) => true
  | None => bool_decide (k ∈ prototypeMembers)
  end.

(** [current?.id] as a property key. *)
Definition currentKey (p : Props) (st : State) : jsstring :=
  match questionAt p (index st) with
  | Some q => qId q
  | None => js "undefined"
  end.

Definition canGoNext (p : Props) (st : State) : bool :=
  allowSkip p || answered (answers st) (currentKey p st).


(** [Object.keys(answers).length] *)
Definition answeredCount (st : State) : Z := Z.of_nat (length (answers st)).

Definition goNext (p : Props) (st : State) : State :=
  if (index st <? total p - 1) && canGoNext p st
  then setIndex (index st + 1) st
  else st.

Definition goPrev (st : State) : State :=
  if 0 <? index st then setIndex (index st - 1) st else st.

Definition onKeyDown (p : Props) (key : jsstring) (st : State) : State :=
  match questionAt p (index st) with
  | None => st
  | Some _ =>
      if bool_decide (key = js "ArrowRight") then goNext p st
      else if bool_decide (key = js "ArrowLeft") then goPrev st
      else st
  end.

(** The callback of the one-second interval. *)
Definition tick (st : State) : State :=
  setRemaining (if 0 <? remaining st then remaining st - 1 else 0) st.

(** One run of the timer effect of the mounted component, with what it
    sets in motion: nothing in the submitting and result phases; the
    time-up branch at once when no time remains; otherwise the interval,
    whose callback runs a second later. *)
Definition timerEffect `{Host} (p : Props) (st : State) : State :=
  match phase st with
  | PhaseResult | PhaseSubmitting => st
  | _ =>
      if remaining st <=? 0 then
        let st1 := toast (ToastWarning (js "Time's up. Review and submit your answers.")) st in
        if autoSubmitOnTime p then handleSubmit p st1 else setPhase PhaseReview st1
      else tick st
  end.

(** [n] runs of the timer effect one after the other, nothing else
    happening in between. *)
Fixpoint runTimer `{Host} (n : nat) (p : Props) (st : State) : State :=
  match n with
  | O => st
  | S n' => runTimer n' p (timerEffect p st)
  end.

(** What the user and the clock can do to the component. *)
Inductive Event : Type :=
  | Select (qid val : jsstring)
  | Next
  | Prev
  | Jump (i : Z)
  | Key (key : jsstring)
  | Review
  | BackToQuiz
  | Submit
  | Retake
  | Timer.

Definition step `{Host} (p : Props) (st : State) (e : Event) : State :=
  match e with
  | Select qid val => selectOption qid val st
  | Next => goNext p st
  | Prev => goPrev st
  | Jump i => jumpTo i st
  | Key key => onKeyDown p key st
  | Review => handleReview st
  | BackToQuiz => setPhase PhaseQuiz st
  | Submit => handleSubmit p st
  | Retake => handleRetake p st
  | Timer => timerEffect p st
  end.

Definition run `{Host} (p : Props) (es : list Event) (st : State) : State :=
  List.fold_left (step p) es st.

End AptitudeQuiz.

(** ** AptitudeQuizSection.tsx *)

Module AptitudeQuizSection.

Record QuizQuestion : Type := {
  id : jsstring;
  text : jsstring;
  options : list AptitudeQuiz.Option
}.

(** The state cells that the navigation reads and writes (the result
    of a submission is not among them), and the toasts shown so far. *)
Record State : Type := {
  current : Z;
  answers : AptitudeQuiz.AnswerMap;
  submitting : bool;
  error : option jsstring;
  toasts : list jsstring
}.

Definition initialState : State :=
  {| current := 0; answers := []; submitting := false; error := None; toasts := [] |}.

(** [questions.length] *)
Definition total (questions : list QuizQuestion) : Z := Z.of_nat (length questions).

(** [questions[current]] *)
Definition currentQuestion (questions : list QuizQuestion) (st : State)
  : option QuizQuestion :=
  if current st <? 0 then None else List.nth_error questions (Z.to_nat (current st)).

(** Truthiness of [answers[currentQuestion?.id || ""]]. *)
Definition selected (questions : list QuizQuestion) (st : State) : bool :=
  AptitudeQuiz.answered (answers st)
    match currentQuestion questions st with
    | Some q => id q
    | None => []
    end.

Definition handleSelect (questions : list QuizQuestion) (value : jsstring)
    (st : State) : State :=
  match currentQuestion questions st with
  | None => st
  | Some q =>
      {| current := current st;
         answers := AptitudeQuiz.setAnswer (id q) value (answers st);
         submitting := submitting st; error := None; toasts := toasts st |}
  end.

Definition handlePrev (st : State) : State :=
  {| current := Z.max 0 (current st - 1); answers := answers st;
     submitting := submitting st; error := None; toasts := toasts st |}.

Definition handleNext (questions : list QuizQuestion) (st : State) : State :=
  if negb (selected questions st) then
    {| current := current st; answers := answers st; submitting := submitting st;
       error := Some (js "Please select an option to continue.");
       toasts := toasts st ++ [js "Please choose an answer before proceeding."] |}
  else
    {| current := Z.min (total questions - 1) (current st + 1);
       answers := answers st; submitting := submitting st; error := None;
       toasts := toasts st |}.

Definition resetQuiz (st : State) : State :=
  {| current := 0; answers := []; submitting := false; error := None;
     toasts := toasts st |}.

(** What the user can do before submitting. *)
Inductive Event : Type :=
  | Select (value : jsstring)
  | Prev
  | Next
  | Reset.

Definition step (questions : list QuizQuestion) (st : State) (e : Event) : State :=
  match e with
  | Select value => handleSelect questions value st
  | Prev => handlePrev st
  | Next => handleNext questions st
  | Reset => resetQuiz st
  end.

Definition run (questions : list QuizQuestion) (es : list Event) (st : State) : State :=
  List.fold_left (step questions) es st.

End AptitudeQuizSection.

(** ** ScholarshipsTrackerSection.tsx *)

Module ScholarshipsTrackerSection.

(** A catalog entry as the component holds it after
    [sanitizeScholarships]: the properties it reads. Their declared
    types are not enforced on what the API returns, hence [JsVal];
    [documents] is an array or absent. *)
Record Scholarship : Type := {
  id : JsVal;
  name : JsVal;
  amount : JsVal;
  eligibility : JsVal;
  deadline : JsVal;
  category : JsVal;
  source : JsVal;
  link : JsVal;
  documents : option (list JsVal)
}.

Inductive Status : Type :=
  | planning
  | in_progress
  | submitted
  | awarded
  | rejected.

(** [reminderDate] is absent ([None]), [null] ([Some None]) or the ISO
    string of a time value. *)
Record TrackedItem : Type := {
  itemId : JsVal;
  status : Status;
  reminderDate : option (option Z);
  checklist : gmap jsstring bool;
  savedAt : Z
}.

Definition DEFAULT_DOCS : list JsVal :=
  [ VStr (js "Aadhaar Card");
    VStr (js "Income Certificate");
    VStr (js "Caste/Category Certificate (if applicable)");
    VStr (js "Previous Marksheet");
    VStr (js "Bonafide Student Certificate");
    VStr (js "Bank Passbook") ].

(** The predicate of the [filter] in [sanitizeScholarships]:
    [s && s.id && s.name]. *)
Definition keepEntry (s : JsVal) : bool :=
  truthy s && truthy (getProp s (js "id")) && truthy (getProp s (js "name")).

(** The object built by the [map] in [sanitizeScholarships]. *)
Definition sanitizeEntry (s : JsVal) : Scholarship :=
  {| id := getProp s (js "id");
     name := getProp s (js "name");
     amount := nullish (getProp s (js "amount")) (VNum (ofZ 0));
     eligibility :=
       orElse (getProp s (js "eligibility"))
              (VStr (js "Eligibility details not provided"));
     category := orElse (getProp s (js "category")) (VStr (js "General"));
     link := orElse (getProp s (js "link")) VUndefined;
     source := orElse (getProp s (js "source")) VUndefined;
     deadline := orElse (getProp s (js "deadline")) VNull;
     documents :=
       match getProp s (js "documents") with
       | VArr items => Some items
       | _ => None
       end |}.

Definition sanitizeScholarships (entries : list JsVal) : list Scholarship :=
  List.map sanitizeEntry (List.filter keepEntry entries).

Inductive AmountOrder : Type :=
  | asc
  | desc.

Inductive DeadlineWindow : Type :=
  | W7
  | W14
  | W30
  | WAll.

(** [parseInt(deadlineWindow, 10)] on the three numeric choices; it is
    not evaluated for the choice [all]. *)
Definition windowDays (w : DeadlineWindow) : Z :=
  match w with
  | W7 => 7
  | W14 => 14
  | W30 => 30
  | WAll => 0
  end.

(** The filter controls held in component state. *)
Record Criteria : Type := {
  query : jsstring;
  categoryFilter : option jsstring;
  eligibilityFilter : option jsstring;
  amountOrder : option AmountOrder;
  deadlineWindow : DeadlineWindow
}.

(** Truthiness of a control that is a string or [undefined]. *)
Definition chosen (c : option jsstring) : option jsstring :=
  match c with
  | Some ((_ :: _) as x) => Some x
  | _ => None
  end.

Section WithHost.
Context `{Host}.

(** [v.toLowerCase()] on a run-time value: only a string has the
    method. *)
Definition toLowerCaseOf (v : JsVal) : result jsstring :=
  match v with
  | VStr x => Ok (toLowerCase x)
  | _ => Throw TypeError
  end.

(** [v.includes(e)] on a run-time value, [e] a string: substring test
    on a string, membership on an array. *)
Definition includesOf (v : JsVal) (e : jsstring) : result bool :=
  match v with
  | VStr x => Ok (includes x e)
  | VArr items =>
      Ok (List.existsb
            (fun i => match i with
                      | VStr y => bool_decide (y = e)
                      | _ => false
                      end) items)
  | _ => Throw TypeError
  end.

Definition parseAmount (val : JsVal) : result number :=
  match val with
  | VNum n => Ok n
  | VStr s =>
      let clean :=
        toLowerCase
          (removeClass (fun c => (c =? 44)%N || (c =? rupee)%N || isWhiteSpace c) s) in
      if endsWith clean (js "k") then
        let n := parseFloat (dropLast clean) in
        Ok (if isNaN n then ofZ 0 else nmul n (ofZ 1000))
      else
        let n := parseFloat clean in
        Ok (if isNaN n then ofZ 0 else n)
  | _ => Throw TypeError
  end.

(** The predicate of the text-query filter, with [||] evaluated left
    to right. *)
Definition matchesQuery (q : jsstring) (s : Scholarship) : result bool :=
  n ← toLowerCaseOf (name s);
  if includes n q then Ok true else
  e ← toLowerCaseOf (orElse (eligibility s) (VStr []));
  if includes e q then Ok true else
  c ← toLowerCaseOf (orElse (category s) (VStr []));
  if includes c q then Ok true else
  if convertible (amount s)
  then Ok (includes (toLowerCase (ToString (amount s))) q)
  else Throw TypeError.

(** The predicate of the deadline-window filter. It raises when
    [new Date] does. The quotient by one day is taken exactly; the
    floating-point quotient has the same ceiling on the whole range of
    time values that can fall in a window. *)
Definition withinWindow (now : Z) (days : Z) (s : Scholarship) : result bool :=
  if negb (truthy (deadline s)) then Ok false
  else
    d ← newDate (deadline s);
    match d with
    | None => Ok false
    | Some d =>
        let diff := ceilDays (d - now) in
        Ok ((0 <=? diff) && (diff <=? days))
    end.

Definition amountComparator (o : AmountOrder) (a b : Scholarship) : result number :=
  av ← parseAmount (amount a);
  bv ← parseAmount (amount b);
  Ok (match o with asc => nsub av bv | desc => nsub bv av end).

(** The memoised value [filtered], computed at time [now]. *)
Definition filtered (c : Criteria) (now : Z) (scholarships : list Scholarship)
  : result (list Scholarship) :=
  let list0 := scholarships in
  list1 ←
    match trim (query c) with
    | [] => Ok list0
    | _ => filterE (matchesQuery (toLowerCase (query c))) list0
    end;
  let list2 :=
    match chosen (categoryFilter c) with
    | Some cat =>
        List.filter (fun s => match category s with
                              | VStr x => bool_decide (x = cat)
                              | _ => false
                              end) list1
    | None => list1
    end in
  list3 ←
    match chosen (eligibilityFilter c) with
    | Some e => filterE (fun s => includesOf (orElse (eligibility s) (VStr [])) e) list2
    | None => Ok list2
    end;
  list4 ←
    match deadlineWindow c with
    | WAll => Ok list3
    | w => filterE (withinWindow now (windowDays w)) list3
    end;
  match amountOrder c with
  | Some o => sortByE (amountComparator o) list4
  | None => Ok list4
  end.
End WithHost.

(** *** Tracker state *)

Inductive Toast : Type :=
  | Removed (name : jsstring)
  | Saved (name : jsstring).

(** [savedIds], [tracked], and the toasts shown so far. Both containers
    are keyed by the id as a property key; ids are declared strings,
    and a string is its own key. *)
Record Tracker : Type := {
  savedIds : gset jsstring;
  tracked : gmap jsstring TrackedItem;
  toasts : list Toast
}.

(** Names that every object inherits from [Object.prototype]: reading
    one of them from [tracked] gives a truthy value whether or not the
    object has an entry of that name. *)
Definition inheritedKeys : list jsstring :=
  List.map js
    [ "constructor"; "toString"; "toLocaleString"; "valueOf";
      "hasOwnProperty"; "isPrototypeOf"; "propertyIsEnumerable";
      "__proto__"; "__defineGetter__"; "__defineSetter__";
      "__lookupGetter__"; "__lookupSetter__" ]%string.

Section WithHost.
Context `{Host}.

Definition suggestReminder (now : Z) (deadline : JsVal) : result (option Z) :=
  if negb (truthy deadline) then Ok None
  else
    d ← newDate deadline;
    match d with
    | None => Ok None
    | Some _ =>
        let reminder := addLocalDays (-5) d in
        if dateLt reminder (Some now) then
          let t := setLocalHour 9 (addLocalDays 1 (Some now)) in
          r ← toISOString t; Ok (Some r)
        else
          r ← toISOString reminder; Ok (Some r)
    end.

(** [acc[d] = false] on the object literal that the [reduce] starts
    from: the assignment makes or overwrites a property of [acc] under
    every name but [__proto__], where it calls the setter inherited from
    [Object.prototype], which ignores a boolean and leaves [acc] as it
    is. The names are the strings that [documents] is declared to
    hold. *)
Definition assignFalse (acc : gmap jsstring bool) (d : JsVal)
  : gmap jsstring bool :=
  if bool_decide (ToString d = js "__proto__") then acc
  else <[ToString d := false]> acc.

(** The object built by the [reduce] over the document names. *)
Definition seedChecklist (docs : list JsVal) : gmap jsstring bool :=
  List.fold_left assignFalse docs ∅.

(** [s.documents && s.documents.length > 0 ? s.documents : DEFAULT_DOCS] *)
Definition checklistDocs (s : Scholarship) : list JsVal :=
  match documents s with
  | Some ((_ :: _) as docs) => docs
  | _ => DEFAULT_DOCS
  end.

(** The updater passed to [setTracked] on a save. *)
Definition seedTracked (now : Z) (s : Scholarship)
    (tprev : gmap jsstring TrackedItem) : result (gmap jsstring TrackedItem) :=
  let k := ToString (id s) in
  if bool_decide (is_Some (tprev !! k)) || bool_decide (k ∈ inheritedKeys)
  then Ok tprev
  else
    r ← suggestReminder now (deadline s);
    Ok (<[k := {| itemId := id s;
                  status := planning;
                  reminderDate := Some r;
                  checklist := seedChecklist (checklistDocs s);
                  savedAt := now |}]> tprev).

(** The state after the updaters queued by [handleSaveToggle] ran. *)
Definition handleSaveToggle (now : Z) (s : Scholarship) (st : Tracker)
  : result Tracker :=
  let k := ToString (id s) in
  if bool_decide (k ∈ savedIds st) then
    Ok {| savedIds := savedIds st ∖ {[k]};
          tracked := tracked st;
          toasts := toasts st ++ [Removed (ToString (name s))] |}
  else
    t ← seedTracked now s (tracked st);
    Ok {| savedIds := savedIds st ∪ {[k]};
          tracked := t;
          toasts := toasts st ++ [Saved (ToString (name s))] |}.
End WithHost.


(** *** Status, checklist and reminder of a tracked item

    [prev[id]] finds an own entry of [tracked] or, for an id in
    [inheritedKeys], a member of [Object.prototype]; spreading such a
    member gives no property, and the entry then written lacks the
    properties of a [TrackedItem] that the handler does not set itself.
    The handlers are modelled on the ids outside [inheritedKeys], and
    are [None] on the others. *)

Definition handleStatusChange (now : Z) (id : jsstring) (s : Status)
    (prev : gmap jsstring TrackedItem) : option (gmap jsstring TrackedItem) :=
  if bool_decide (id ∈ inheritedKeys) then None
  else
    let base :=
      default {| itemId := VStr id; status := planning; reminderDate := None;
                 checklist := ∅; savedAt := now |}
              (prev !! id) in
    Some (<[id := {| itemId := itemId base; status := s;
                     reminderDate := reminderDate base;
                     checklist := checklist base; savedAt := savedAt base |}]> prev).

Definition handleChecklistToggle (id doc : jsstring) (checked : bool)
    (prev : gmap jsstring TrackedItem) : option (gmap jsstring TrackedItem) :=
  if bool_decide (id ∈ inheritedKeys) then None
  else
    match prev !! id with
    | None => Some prev
    | Some current =>
        Some (<[id := {| itemId := itemId current; status := status current;
                         reminderDate := reminderDate current;
                         checklist := <[doc := checked]> (checklist current);
                         savedAt := savedAt current |}]> prev)
    end.

Section WithHost.
Context `{Host}.

(** The state [tracked] after [handleReminder]: the suggestion is
    computed first and can raise, before anything is written. *)
Definition handleReminder (now : Z) (s : Scholarship)
    (prev : gmap jsstring TrackedItem)
  : result (option (gmap jsstring TrackedItem)) :=
  nextDate ← suggestReminder now (deadline s);
  let k := ToString (id s) in
  if bool_decide (k ∈ inheritedKeys) then Ok None
  else
    let base :=
      default {| itemId := id s; status := planning; reminderDate := None;
                 checklist := seedChecklist (checklistDocs s); savedAt := now |}
              (prev !! k) in
    Ok (Some (<[k := {| itemId := itemId base; status := status base;
                        reminderDate := Some nextDate;
                        checklist := checklist base; savedAt := savedAt base |}]> prev)).
End WithHost.


(** *** The options of the eligibility menu *)

(** The characters matched by [/[.;|]/]. *)
Definition clauseEnd (c : N) : bool := ((c =? 46) || (c =? 59) || (c =? 124))%N.

(** [v.split(/[.;|]/)[0].trim()] on a run-time value: only a string has
    the method. *)
Definition firstClause (v : JsVal) : result jsstring :=
  match v with
  | VStr s => Ok (trim (hd [] (splitOn clauseEnd s)))
  | _ => Throw TypeError
  end.

(** The [forEach] that fills the set. *)
Fixpoint collectClauses (scholarships : list Scholarship) (set : StringSet)
  : result StringSet :=
  match scholarships with
  | [] => Ok set
  | s :: rest =>
      if truthy (eligibility s)
      then c ← firstClause (eligibility s); collectClauses rest (setAdd c set)
      else collectClauses rest set
  end.

(** The memoised value [eligibilities]. *)
Definition eligibilities (scholarships : list Scholarship) : result (list jsstring) :=
  set ← collectClauses scholarships [];
  Ok (sortBy unitsOrder (List.firstn 12 set)).

End ScholarshipsTrackerSection.

(** ** The component [ScholarshipTracker] (deadline menu over typed records) *)

Module ScholarshipTracker.
Section WithHost.
Context `{Host}.

(** [daysUntil(dateISO)] at time [now]; [None] is NaN. *)
Definition daysUntil (now : Z) (dateISO : jsstring) : option Z :=
  target ← parseDate dateISO;
  Some (ceilDays (target - now)).

(** [isWithin(dateISO, windowDays)]: a comparison with NaN is false. *)
Definition isWithin (now : Z) (dateISO : jsstring) (windowDays : Z) : bool :=
  match daysUntil now dateISO with
  | Some d => (0 <=? d) && (d <=? windowDays)
  | None => false
  end.
End WithHost.

(** *** The list, its badges and the relevance score *)

Inductive ScholarshipType : Type :=
  | NSP
  | Merit
  | Means
  | Merit_cum_Means
  | Private
  | State.

#[global] Instance ScholarshipType_eq_dec : EqDecision ScholarshipType.
Proof. solve_decision. Defined.

(** The properties of a scholarship that the component reads. *)
Record Scholarship : Type := {
  id : jsstring;
  title : jsstring;
  provider : jsstring;
  type : ScholarshipType;
  eligibility : list jsstring;
  deadline : jsstring;
  recommendedScore : option number;
  location : option jsstring
}.

Record UserProfile : Type := {
  educationLevel : option jsstring;
  category : option jsstring;
  gender : option jsstring;
  familyIncome : option number;
  state : option jsstring
}.

Inductive TypeFilter : Type :=
  | TypeAll
  | TypeOf (t : ScholarshipType).

Inductive DeadlineFilter : Type :=
  | DeadlineAll
  | ThisMonth
  | Next30Days
  | ClosingSoon.

Inductive EligibilityFilter : Type :=
  | EligibilityAll
  | Undergraduate
  | Postgraduate
  | SC_ST
  | OBC
  | EWS
  | Female.

Definition eligibilityName (e : EligibilityFilter) : jsstring :=
  match e with
  | EligibilityAll => js "All"
  | Undergraduate => js "Undergraduate"
  | Postgraduate => js "Postgraduate"
  | SC_ST => js "SC/ST"
  | OBC => js "OBC"
  | EWS => js "EWS"
  | Female => js "Female"
  end.

Record FilterState : Type := {
  q : jsstring;
  typeFilter : TypeFilter;
  deadlineFilter : DeadlineFilter;
  eligibilityFilter : EligibilityFilter;
  onlyTracked : bool
}.

Definition defaultFilters : FilterState :=
  {| q := []; typeFilter := TypeAll; deadlineFilter := DeadlineAll;
     eligibilityFilter := EligibilityAll; onlyTracked := false |}.

Inductive Tab : Type :=
  | TabAll
  | TabRecommended
  | TabTracked.

Inductive Variant : Type :=
  | destructive
  | secondary
  | outline.

Record BadgeInfo : Type := { label : jsstring; variant : Variant }.

(** [d < k] and [d <= k] for a number of days that can be NaN. *)
Definition below (d : option Z) (k : Z) : bool :=
  match d with Some z => z <? k | None => false end.
Definition atMost (d : option Z) (k : Z) : bool :=
  match d with Some z => z <=? k | None => false end.

(** A string that is present and not empty. *)
Definition given (s : option jsstring) : option jsstring :=
  match s with
  | Some ((_ :: _) as x) => Some x
  | _ => None
  end.

Section WithHost.
Context `{Host}.

(** A number of days inside a template literal. *)
Definition daysText (d : option Z) : jsstring :=
  match d with Some z => intToString z | None => js "NaN" end.

Definition monthSame (now : Z) (dateISO : jsstring) : bool :=
  match localYearMonth (Some now), localYearMonth (parseDate dateISO) with
  | Some (y, m), Some (y', m') => (y =? y') && (m =? m')
  | _, _ => false
  end.

Definition getDeadlineBadge (now : Z) (deadlineISO : jsstring) : BadgeInfo :=
  let d := daysUntil now deadlineISO in
  if below d 0 then {| label := js "Closed"; variant := destructive |}
  else if atMost d 3
  then {| label := js "Closing in " ++ daysText d ++ js "d"; variant := destructive |}
  else if atMost d 10
  then {| label := js "Due in " ++ daysText d ++ js "d"; variant := secondary |}
  else {| label := js "Due in " ++ daysText d ++ js "d"; variant := outline |}.

(** One turn of the [forEach] body of [relevanceScore]: what the
    eligibility line [e] adds to [score]. *)
Definition scoreLine (s : Scholarship) (profile : UserProfile) (el : jsstring)
    (score : Z) (e : jsstring) : Z :=
  let val := toLowerCase e in
  let score :=
    match el with
    | _ :: _ => if includes val el then score + 2 else score
    | [] => score
    end in
  let score :=
    match given (category profile) with
    | Some c => if includes val (toLowerCase c) then score + 2 else score
    | None => score
    end in
  let score :=
    match given (gender profile) with
    | Some g => if includes val (toLowerCase g) then score + 1 else score
    | None => score
    end in
  let score :=
    match given (state profile), given (location s) with
    | Some st, Some loc =>
        if bool_decide (toLowerCase loc = toLowerCase st) then score + 2 else score
    | _, _ => score
    end in
  match familyIncome profile with
  | Some _ =>
      if includes val (js "<") || includes val (js "below") then score + 1 else score
  | None => score
  end.

Definition relevanceScore (s : Scholarship) (profile : option UserProfile) : number :=
  match profile with
  | None => ofZ 0
  | Some p =>
      let el := toLowerCase (default [] (given (educationLevel p))) in
      let score := List.fold_left (scoreLine s p el) (eligibility s) 0 in
      match recommendedScore s with
      | Some r => if truthy (VNum r) then nadd (ofZ score) r else ofZ score
      | None => ofZ score
      end
  end.

(** [trackedIds.includes(s.id)] *)
Definition isTracked (trackedIds : list jsstring) (s : Scholarship) : bool :=
  List.existsb (fun t => bool_decide (t = id s)) trackedIds.

(** The list after the filter controls, before the tab scoping. *)
Definition byControls (scholarships : list Scholarship) (filters : FilterState)
    (trackedIds : list jsstring) (now : Z) : list Scholarship :=
  let list0 := scholarships in
  let list1 :=
    match trim (q filters) with
    | [] => list0
    | _ =>
        let ql := toLowerCase (q filters) in
        List.filter
          (fun s =>
             includes (toLowerCase (title s)) ql
             || includes (toLowerCase (provider s)) ql
             || List.existsb (fun e => includes (toLowerCase e) ql) (eligibility s))
          list0
    end in
  let list2 :=
    match typeFilter filters with
    | TypeAll => list1
    | TypeOf t => List.filter (fun s => bool_decide (type s = t)) list1
    end in
  let list3 :=
    match eligibilityFilter filters with
    | EligibilityAll => list2
    | e =>
        let key := toLowerCase (eligibilityName e) in
        List.filter
          (fun s => List.existsb (fun e => includes (toLowerCase e) key) (eligibility s))
          list2
    end in
  let list4 :=
    match deadlineFilter filters with
    | ThisMonth => List.filter (fun s => monthSame now (deadline s)) list3
    | Next30Days => List.filter (fun s => isWithin now (deadline s) 30) list3
    | ClosingSoon => List.filter (fun s => isWithin now (deadline s) 7) list3
    | DeadlineAll => list3
    end in
  if onlyTracked filters then List.filter (isTracked trackedIds) list4 else list4.

(** The tab scoping. *)
Definition byTab (tab : Tab) (trackedIds : list jsstring)
    (profile : option UserProfile) (l : list Scholarship) : list Scholarship :=
  match tab with
  | TabRecommended =>
      List.map fst
        (sortBy (fun a b => nsub (snd b) (snd a))
           (List.filter (fun x => ngt (snd x) (ofZ 0))
              (List.map (fun s => (s, relevanceScore s profile)) l)))
  | TabTracked => List.filter (isTracked trackedIds) l
  | TabAll => l
  end.

(** The comparator of the last sort: closing sooner first. *)
Definition byDeadline (a b : Scholarship) : number :=
  timeDiff (parseDate (deadline a)) (parseDate (deadline b)).

(** The memoised value [filtered], computed at time [now]. *)
Definition filtered (scholarships : list Scholarship) (filters : FilterState)
    (trackedIds : list jsstring) (tab : Tab) (profile : option UserProfile)
    (now : Z) : list Scholarship :=
  sortBy byDeadline
    (byTab tab trackedIds profile (byControls scholarships filters trackedIds now)).
End WithHost.
End ScholarshipTracker.

(** ** CareerRecommendationsSection.tsx *)

Module CareerRecommendationsSection.

Inductive CourseLevel : Type :=
  | Certificate
  | Diploma
  | Undergraduate
  | Postgraduate.

Inductive FilterLevel : Type :=
  | LevelAll
  | LevelOf (l : CourseLevel)
  | Level10plus2.

Inductive SortKey : Type :=
  | relevance
  | salary
  | popularity
  | alphabetical.

#[global] Instance CourseLevel_eq_dec : EqDecision CourseLevel.
Proof. solve_decision. Defined.

(** The properties of a course that [filteredCourses] reads; an
    optional property that is absent is [None]. *)
Record Course : Type := {
  courseId : jsstring;
  title : jsstring;
  stream : jsstring;
  description : jsstring;
  level : CourseLevel;
  salaryRange : option jsstring;
  coursePopularity : option number;
  courseRelevance : option number
}.

(** [x ?? 0] *)
Definition orZero (x : option number) : number := default (ofZ 0) x.

(** The inner [parse] of [withSalarySort]: the upper bound of a range
    such as "₹4L–₹10L". *)
Definition parseSalary (s : option jsstring) : number :=
  match s with
  | None | Some [] => ofZ 0
  | Some s =>
      let isDash := fun c => ((c =? 45) || (c =? 8211))%N in
      let kept := List.filter (fun c => isDigit c || isDash c) s in
      let nums := List.map (fun ds => ofZ (digitsValue ds)) (splitOn isDash kept) in
      match nums with
      | a :: b :: _ => norElse (norElse b a) (ofZ 0)
      | [a] => norElse a (ofZ 0)
      | [] => ofZ 0
      end
  end.

Definition withSalarySort (a b : Course) : number :=
  nsub (parseSalary (salaryRange b)) (parseSalary (salaryRange a)).

Section WithHost.
Context `{Host}.

(** The comparator handed to [sort]. *)
Definition courseComparator (sort : SortKey) (a b : Course) : number :=
  match sort with
  | relevance => nsub (orZero (courseRelevance b)) (orZero (courseRelevance a))
  | popularity => nsub (orZero (coursePopularity b)) (orZero (coursePopularity a))
  | salary => withSalarySort a b
  | alphabetical => ofZ (localeCompare (title a) (title b))
  end.

(** The constant [bySearch]: the courses left by the level and
    search filters, in catalog order. *)
Definition bySearch (courses : list Course) (level_ : FilterLevel)
    (search : jsstring) : list Course :=
  let byLevel :=
    match level_ with
    | LevelAll => courses
    | Level10plus2 => List.filter (fun _ => false) courses
    | LevelOf l =>
        List.filter
          (fun c => bool_decide (level c = l)
                    || (bool_decide (l = Undergraduate)
                        && bool_decide (level c = Undergraduate)))
          courses
    end in
  match search with
  | [] => byLevel
  | _ =>
      List.filter
        (fun c =>
           includes (toLowerCase (title c)) (toLowerCase search)
           || includes (toLowerCase (stream c)) (toLowerCase search)
           || includes (toLowerCase (description c)) (toLowerCase search))
        byLevel
  end.

Definition filteredCourses (courses : list Course) (level_ : FilterLevel)
    (search : jsstring) (sort : SortKey) : list Course :=
  sortBy (courseComparator sort) (bySearch courses level_ search).
End WithHost.

End CareerRecommendationsSection.

(** ** The component [CareerRecommendations] (cards with bookmarks) *)

Module CareerRecommendations.

Inductive SortKey : Type :=
  | fit_desc
  | name_asc
  | stream_asc.

(** The properties of a recommendation that [filtered] reads. *)
Record CareerRecommendation : Type := {
  recId : jsstring;
  title : jsstring;
  stream : jsstring;
  summary : jsstring;
  fitScore : number;
  skills : list jsstring
}.

Section WithHost.
Context `{Host}.

Definition recComparator (sort : SortKey) (a b : CareerRecommendation) : number :=
  match sort with
  | fit_desc => nsub (fitScore b) (fitScore a)
  | name_asc => ofZ (localeCompare (title a) (title b))
  | stream_asc =>
      norElse (ofZ (localeCompare (stream a) (stream b)))
              (nsub (fitScore b) (fitScore a))
  end.

(** The array [data] just before the [switch] on the sort key: the
    items left by the query, stream, fit and bookmark filters. *)
Definition shown (items : list CareerRecommendation) (query : jsstring)
    (selectedStreams : list jsstring) (minFit : option number)
    (showBookmarksOnly : bool) (bookmarked : gset jsstring)
  : list CareerRecommendation :=
  let data0 := items in
  let data1 :=
    match trim query with
    | [] => data0
    | _ =>
        let q := toLowerCase query in
        List.filter
          (fun i =>
             includes (toLowerCase (title i)) q
             || includes (toLowerCase (stream i)) q
             || includes (toLowerCase (summary i)) q
             || List.existsb (fun s => includes (toLowerCase s) q) (skills i))
          data0
    end in
  let data2 :=
    match selectedStreams with
    | [] => data1
    | _ => List.filter
             (fun i => List.existsb (fun s => bool_decide (s = stream i)) selectedStreams)
             data1
    end in
  let data3 :=
    match minFit with
    | Some m => List.filter (fun i => nge (fitScore i) m) data2
    | None => data2
    end in
  if showBookmarksOnly
  then List.filter (fun i => bool_decide (recId i ∈ bookmarked)) data3
  else data3.

Definition filtered (items : list CareerRecommendation) (query : jsstring)
    (selectedStreams : list jsstring) (minFit : option number)
    (showBookmarksOnly : bool) (bookmarked : gset jsstring) (sort : SortKey)
  : list CareerRecommendation :=
  sortBy (recComparator sort)
    (shown items query selectedStreams minFit showBookmarksOnly bookmarked).
End WithHost.


(** *** Bookmarks, the comparison set and the filter controls *)

Definition allStreamsFromItems (items : list CareerRecommendation) : list jsstring :=
  setOf (List.map stream items).

Inductive Toast : Type :=
  | RemovedBookmark (title : jsstring)
  | SavedBookmark (title : jsstring)
  | CompareLimit
  | AddedToComparison (title : jsstring).

(** The state cells of the component, the toasts shown so far and the
    arrays [onBookmarkChange] was called with. *)
Record State : Type := {
  query : jsstring;
  sort : SortKey;
  selectedStreams : list jsstring;
  minFit : option number;
  bookmarked : StringSet;
  compareSet : StringSet;
  showBookmarksOnly : bool;
  toasts : list Toast;
  reported : list (list jsstring)
}.

Definition initialState (initialBookmarkedIds : list jsstring) : State :=
  {| query := []; sort := fit_desc; selectedStreams := []; minFit := None;
     bookmarked := setOf initialBookmarkedIds; compareSet := [];
     showBookmarksOnly := false; toasts := []; reported := [] |}.

Definition toggleBookmark (id title : jsstring) (st : State) : State :=
  let prev := bookmarked st in
  let '(next, t) :=
    if setHas id prev
    then (setDelete id prev, RemovedBookmark title)
    else (setAdd id prev, SavedBookmark title) in
  {| query := query st; sort := sort st; selectedStreams := selectedStreams st;
     minFit := minFit st; bookmarked := next; compareSet := compareSet st;
     showBookmarksOnly := showBookmarksOnly st;
     toasts := toasts st ++ [t]; reported := reported st ++ [next] |}.

Definition toggleCompare (id title : jsstring) (st : State) : State :=
  let prev := compareSet st in
  let '(next, t) :=
    if setHas id prev then (setDelete id prev, [])
    else if 3 <=? Z.of_nat (length prev) then (prev, [CompareLimit])
    else (setAdd id prev, [AddedToComparison title]) in
  {| query := query st; sort := sort st; selectedStreams := selectedStreams st;
     minFit := minFit st; bookmarked := bookmarked st; compareSet := next;
     showBookmarksOnly := showBookmarksOnly st;
     toasts := toasts st ++ t; reported := reported st |}.

Definition clearFilters (st : State) : State :=
  {| query := []; sort := fit_desc; selectedStreams := []; minFit := None;
     bookmarked := bookmarked st; compareSet := compareSet st;
     showBookmarksOnly := false; toasts := toasts st; reported := reported st |}.

Section WithHost.
Context `{Host}.

(** [filtered] as the component computes it from its state. *)
Definition filteredOf (items : list CareerRecommendation) (st : State)
  : list CareerRecommendation :=
  filtered items (query st) (selectedStreams st) (minFit st)
    (showBookmarksOnly st) (list_to_set (bookmarked st)) (sort st).

Definition compareItems (items : list CareerRecommendation) (st : State)
  : list CareerRecommendation :=
  List.firstn 3
    (List.filter (fun i => setHas (recId i) (compareSet st)) (filteredOf items st)).
End WithHost.

End CareerRecommendations.

(** ** The component [CollegesMapSection] (info window markup) *)

Module CollegesMapSection.

Definition amp : N := 38%N.
Definition lt : N := 60%N.
Definition gt : N := 62%N.
Definition quot : N := 34%N.

Definition escapeHtml (s : jsstring) : jsstring :=
  replaceChar quot (js "&quot;")
    (replaceChar gt (js "&gt;")
      (replaceChar lt (js "&lt;")
        (replaceChar amp (js "&amp;") s))).

(** The properties of a college that the info window prints as text. *)
Record College : Type := {
  name : jsstring;
  city : jsstring;
  state : jsstring;
  courses : list jsstring
}.

(** The texts interpolated into the info window markup, in order:
    name, city, state, and the first three courses. *)
Definition infoWindowTexts (c : College) : list jsstring :=
  escapeHtml (name c) :: escapeHtml (city c) :: escapeHtml (state c)
  :: List.map escapeHtml (List.firstn 3 (courses c)).


Definition zoomForRadius (radiusKm : number) : Z :=
  if nleb radiusKm (ofZ 7) then 14
  else if nleb radiusKm (ofZ 12) then 13
  else if nleb radiusKm (ofZ 20) then 12
  else if nleb radiusKm (ofZ 35) then 11
  else if nleb radiusKm (ofZ 70) then 10
  else 9.

End CollegesMapSection.

(** ** CollegeMapper.tsx: the conversation titles of the assistant *)

Module ChatbotInterface.

Inductive Role : Type :=
  | user
  | assistant.

#[global] Instance Role_eq_dec : EqDecision Role.
Proof. solve_decision. Defined.

(** The properties of a message that [summarizeTitle] reads. *)
Record Message : Type := { role : Role; content : jsstring }.

(** [s.replace(/\s+/g, " ")]: every maximal run of white space becomes
    one space. [inRun] tells that the character before was white
    space. *)
Fixpoint collapse (inRun : bool) (s : jsstring) : jsstring :=
  match s with
  | [] => []
  | c :: rest =>
      if isWhiteSpace c
      then (if inRun then collapse true rest else 32%N :: collapse true rest)
      else c :: collapse false rest
  end.

(** U+2026 HORIZONTAL ELLIPSIS. *)
Definition ellipsis : N := 8230%N.

Definition summarizeTitle (messages : list Message) : jsstring :=
  match List.find (fun m => bool_decide (role m = user)) messages with
  | None => js "New conversation"
  | Some firstUser =>
      let text := collapse false (trim (content firstUser)) in
      if 50 <? Z.of_nat (length text) then List.firstn 50 text ++ [ellipsis]
      else match text with
           | [] => js "New conversation"
           | _ => text
           end
  end.

End ChatbotInterface.

(** ** A host to run the model on

    Case mapping of the Basic Latin letters, parsing of the date-only ISO
    form [YYYY-MM-DD] (midnight UTC), the fixed offset +05:30 of India,
    collation by case-folded code units, and decimal printing of
    numbers. *)

Module ExampleHost.

Definition isLeap (y : Z) : bool :=
  ((y mod 4 =? 0) && negb (y mod 100 =? 0)) || (y mod 400 =? 0).

Definition daysInMonth (y m : Z) : Z :=
  if m =? 2 then (if isLeap y then 29 else 28)
  else if (m =? 4) || (m =? 6) || (m =? 9) || (m =? 11) then 30 else 31.

(** Days from 1970-01-01 to the civil date [y]-[m]-[d]. *)
Definition daysFromCivil (y m d : Z) : Z :=
  let y' := if m <=? 2 then y - 1 else y in
  let era := y' `div` 400 in
  let yoe := y' - era * 400 in
  let mp := (m + 9) `mod` 12 in
  let doy := (153 * mp + 2) `div` 5 + d - 1 in
  let doe := yoe * 365 + yoe `div` 4 - yoe `div` 100 + doy in
  era * 146097 + doe - 719468.

Definition civilDate (y m d : Z) : option Z :=
  if (1 <=? m) && (m <=? 12) && (1 <=? d) && (d <=? daysInMonth y m)
  then Some (daysFromCivil y m d * msPerDay)
  else None.

(** [YYYY-MM-DD], or with an expanded year [+YYYYYY-MM-DD] or
    [-YYYYYY-MM-DD] (the year -000000 excepted). *)
Definition parseIsoDate (s : jsstring) : option Z :=
  match s with
  | [y1; y2; y3; y4; h1; m1; m2; h2; d1; d2] =>
      if forallb isDigit [y1; y2; y3; y4; m1; m2; d1; d2]
         && (h1 =? 45)%N && (h2 =? 45)%N
      then civilDate (digitsValue [y1; y2; y3; y4]) (digitsValue [m1; m2])
                     (digitsValue [d1; d2])
      else None
  | [sg; y1; y2; y3; y4; y5; y6; h1; m1; m2; h2; d1; d2] =>
      if forallb isDigit [y1; y2; y3; y4; y5; y6; m1; m2; d1; d2]
         && ((sg =? 43) || (sg =? 45))%N && (h1 =? 45)%N && (h2 =? 45)%N
      then
        let y := digitsValue [y1; y2; y3; y4; y5; y6] in
        if (sg =? 45)%N
        then (if y =? 0 then None
              else civilDate (- y) (digitsValue [m1; m2]) (digitsValue [d1; d2]))
        else civilDate y (digitsValue [m1; m2]) (digitsValue [d1; d2])
      else None
  | _ => None
  end.

Definition collate (a b : jsstring) : Z :=
  match compareUnits (List.map lowerUnit a) (List.map lowerUnit b) with
  | Lt => -1
  | Gt => 1
  | Eq => 0
  end.

(** Decimal digits of a natural number, with [fuel] bounding the count. *)
Fixpoint digitsOf (fuel : nat) (n : Z) (acc : jsstring) : jsstring :=
  match fuel with
  | O => acc
  | S fuel' =>
      let acc' := Z.to_N (48 + n `mod` 10) :: acc in
      if n `div` 10 =? 0 then acc' else digitsOf fuel' (n `div` 10) acc'
  end.

Definition printNat (n : Z) : jsstring := digitsOf (Z.to_nat (Z.log2 n) + 1) n [].

(** Digits after the decimal point of [r / d], at most [fuel] of them. *)
Fixpoint fractionDigits (fuel : nat) (r d : Z) : jsstring :=
  match fuel with
  | O => []
  | S fuel' =>
      if r =? 0 then []
      else Z.to_N (48 + (10 * r) `div` d) :: fractionDigits fuel' ((10 * r) `mod` d) d
  end.

Definition printNumber (n : number) : jsstring :=
  match n with
  | NaN => js "NaN"
  | PInf => js "Infinity"
  | NInf => js "-Infinity"
  | Fin q =>
      let num := Z.abs (Qnum q) in
      let den := Zpos (Qden q) in
      (if Qnum q <? 0 then js "-" else [])
      ++ printNat (num `div` den)
      ++ match fractionDigits 17 (num `mod` den) den with
         | [] => []
         | ds => js "." ++ ds
         end
  end.

#[export] Instance host : Host := {|
  toLowerCase := List.map lowerUnit;
  dateParse := parseIsoDate;
  localTZA := fun _ _ => 19800000;
  localeCompare := collate;
  numberToString := printNumber
|}.

End ExampleHost.

(** * The vocabulary of the properties *)

Section EscapeHtmlTerms.
Import CollegesMapSection.

(** The entity that stands for one code unit. *)
Definition entityOf (c : N) : jsstring :=
  if (c =? amp)%N then js "&amp;"
  else if (c =? lt)%N then js "&lt;"
  else if (c =? gt)%N then js "&gt;"
  else if (c =? quot)%N then js "&quot;"
  else [c].

Definition markupUnit (c : N) : Prop := c = lt \/ c = gt \/ c = quot.

End EscapeHtmlTerms.

Section SubmitSamples.
Import AptitudeQuiz.

Definition sampleState : State :=
  {| phase := PhaseReview; index := 1;
     answers := [(js "q1", js "Mathematics"); (js "q2", js "Painting")];
     remaining := 300; results := None; toasts := [] |}.

Definition failingProps : Props :=
  {| questions := []; durationSec := DEFAULT_DURATION; allowSkip := true;
     autoSubmitOnTime := true; initialAnswers := None;
     onSubmit := Some (fun _ => Throw OtherError) |}.

Definition localProps : Props :=
  {| questions := []; durationSec := DEFAULT_DURATION; allowSkip := true;
     autoSubmitOnTime := true; initialAnswers := None;
     onSubmit := None |}.

End SubmitSamples.

(** The order of the numbers other than NaN. *)
Definition ncompare (a b : number) : comparison :=
  match a, b with
  | Fin x, Fin y => Qcompare x y
  | NInf, NInf | PInf, PInf => Eq
  | NInf, _ | _, PInf => Lt
  | _, NInf | PInf, _ => Gt
  | NaN, _ | _, NaN => Eq
  end.

Section ComparatorTerms.
Context {A : Type} (cmp : A -> A -> number).

(** [x] may stand before [y]: the comparator does not put [y] first. *)
Definition precedes (x y : A) : Prop := nsign (cmp x y) <> Gt.

(** [y] compares equal to [z]. *)
Definition tiedWith (z y : A) : bool :=
  match nsign (cmp z y) with Eq => true | _ => false end.

(** A comparator that is consistent on the values satisfying [dom]. *)
Definition consistentOn (dom : A -> Prop) : Prop :=
  (forall x y, dom x -> dom y -> nsign (cmp y x) = CompOpp (nsign (cmp x y)))
  /\ (forall x y z, dom x -> dom y -> dom z ->
        precedes x y -> precedes y z -> precedes x z).

End ComparatorTerms.

Section ScorerTerms.
Import AptitudeQuiz.
Context `{Host}.

Definition allStreams : list Stream := [Arts; Science; Commerce; Vocational].

Definition scienceKeyword (val : jsstring) : bool :=
  let v := toLowerCase val in
  includes v (js "logic") || includes v (js "math") || includes v (js "science").

Definition commerceKeyword (val : jsstring) : bool :=
  let v := toLowerCase val in
  includes v (js "business") || includes v (js "finance") || includes v (js "commerce").

Definition artsKeyword (val : jsstring) : bool :=
  let v := toLowerCase val in
  includes v (js "creative") || includes v (js "art") || includes v (js "design")
  || includes v (js "language").

(** The bucket an answer value is counted in. *)
Definition bucketOf (val : jsstring) : Stream :=
  if scienceKeyword val then Science
  else if commerceKeyword val then Commerce
  else if artsKeyword val then Arts
  else Vocational.

(** What one answer adds to its bucket. *)
Definition weight (k : Stream) : Z :=
  match k with Vocational => 1 | _ => 2 end.

(** How many of the values are counted in bucket [k]. *)
Definition countIn (k : Stream) (vals : list jsstring) : Z :=
  Z.of_nat (length (List.filter (fun v => bool_decide (bucketOf v = k)) vals)).

End ScorerTerms.

Section ScorerSamples.
Import AptitudeQuiz.

Definition scienceAnswers : AnswerMap :=
  [ (js "q1", js "Logic puzzles"); (js "q2", js "Mathematics");
    (js "q3", js "science fair"); (js "q4", js "MATH club");
    (js "q5", js "Applied Science") ].

End ScorerSamples.

(** The host maps the upper-case Basic Latin letters to lower case and
    leaves the other Basic Latin characters alone. *)
Definition lowersBasicLatin (H : Host) : Prop :=
  forall s : jsstring,
    List.Forall (fun c => (c < 128)%N) s ->
    toLowerCase s = List.map lowerUnit s.

(** The characters [parseAmount] removes: comma, rupee sign, white space. *)
Definition amountNoise (c : N) : bool :=
  (c =? 44)%N || (c =? rupee)%N || isWhiteSpace c.

Section CatalogSamples.
Import ScholarshipsTrackerSection.

(** A catalog entry as the API sends it. *)
Definition entry (i n : string) (amt : JsVal) (dl : string) : JsVal :=
  VObj [ (js "id", VStr (js i)); (js "name", VStr (js n)); (js "amount", amt);
         (js "deadline", VStr (js dl)) ].

(** 2024-05-10, 10:00 UTC. *)
Definition sampleNow : Z := 1715335200000.

Definition sampleResponse : list JsVal :=
  [ entry "s1" "Merit Grant" (VStr (rupee :: js "50,000")) "2024-05-12";
    entry "s2" "State Bursary" (VStr (js "50k")) "2024-05-20";
    entry "s3" "Research Award" (VNum (ofZ 75000)) "2024-06-19";
    entry "s4" "Closed Call" (VStr (js "abc")) "2024-05-09";
    entry "s5" "Due Today" (VNum (ofZ 1000)) "2024-05-10" ].

Definition sampleCatalog : list Scholarship := sanitizeScholarships sampleResponse.

Definition onlyWindow (w : DeadlineWindow) : Criteria :=
  {| query := []; categoryFilter := None; eligibilityFilter := None;
     amountOrder := None; deadlineWindow := w |}.

Definition idsOf (r : result (list Scholarship)) : result (list JsVal) :=
  match r with
  | Ok l => Ok (List.map id l)
  | Throw e => Throw e
  end.

Definition dueToday : Scholarship :=
  sanitizeEntry (entry "s5" "Due Today" (VNum (ofZ 1000)) "2024-05-10").

Definition dueYesterday : Scholarship :=
  sanitizeEntry (entry "s4" "Closed Call" (VStr (js "abc")) "2024-05-09").

(** An entry whose deadline is an object with a property [toString]. *)
Definition oddDeadline : JsVal :=
  VObj [ (js "id", VStr (js "o1")); (js "name", VStr (js "Odd Deadline"));
         (js "deadline", VObj [ (js "toString", VNum (ofZ 1)) ]) ].

End CatalogSamples.

(** The test returned, and returned true. *)
Definition holds (r : result bool) : bool :=
  match r with
  | Ok true => true
  | _ => false
  end.

Section TypingTerms.
Import ScholarshipsTrackerSection.

Definition isText (v : JsVal) : Prop := exists s, v = VStr s.

(** A property that is absent, or null. *)
Definition isAbsent (v : JsVal) : Prop := v = VUndefined \/ v = VNull.

(** An entry of the API response whose properties, where present, have
    the types that [Scholarship] declares for them. *)
Definition declaredEntry (e : JsVal) : Prop :=
  (isText (getProp e (js "name")) \/ isAbsent (getProp e (js "name")))
  /\ (isText (getProp e (js "eligibility")) \/ isAbsent (getProp e (js "eligibility")))
  /\ (isText (getProp e (js "category")) \/ isAbsent (getProp e (js "category")))
  /\ ((exists n, getProp e (js "amount") = VNum n)
      \/ isText (getProp e (js "amount")) \/ isAbsent (getProp e (js "amount")))
  /\ (isText (getProp e (js "deadline")) \/ isAbsent (getProp e (js "deadline"))).

(** What the filter engine needs of a record in order not to raise. *)
Definition declaredTypes (s : Scholarship) : Prop :=
  isText (name s) /\ isText (eligibility s) /\ isText (category s)
  /\ ((exists n, amount s = VNum n) \/ isText (amount s))
  /\ (isText (deadline s) \/ deadline s = VNull).

End TypingTerms.

Section FilterSamples.
Import ScholarshipsTrackerSection.

Definition sortedSearch : Criteria :=
  {| query := js "a"; categoryFilter := Some (js "General");
     eligibilityFilter := None; amountOrder := Some desc; deadlineWindow := W30 |}.

(** An API response with two entries that lack an id or a name, a null
    entry, and one entry whose name is a number. *)
Definition malformedResponse : list JsVal :=
  [ VObj [ (js "name", VStr (js "No id")) ];
    VObj [ (js "id", VStr (js "x0")); (js "name", VStr []) ];
    VNull;
    VObj [ (js "id", VStr (js "x1")); (js "name", VNum (ofZ 42)) ] ].

Definition textSearch : Criteria :=
  {| query := js "grant"; categoryFilter := None; eligibilityFilter := None;
     amountOrder := None; deadlineWindow := WAll |}.

End FilterSamples.

Section TrackerSamples.
Import ScholarshipsTrackerSection.

Definition meritGrant : Scholarship :=
  sanitizeEntry (entry "s1" "Merit Grant" (VStr (rupee :: js "50,000")) "2024-05-12").

Definition meritGrantItem : TrackedItem :=
  {| itemId := VStr (js "s1"); status := in_progress; reminderDate := Some None;
     checklist := {[ js "Aadhaar Card" := true ]}; savedAt := 1715000000000 |}.

(** The item is saved, in progress, and one document is already ticked. *)
Definition trackerSample : Tracker :=
  {| savedIds := {[ js "s1" ]};
     tracked := {[ js "s1" := meritGrantItem ]};
     toasts := [] |}.

End TrackerSamples.

(** Local time is UTC plus one fixed offset. *)
Definition fixedOffset (H : Host) (off : Z) : Prop :=
  forall t b, localTZA t b = off.

(** 09:00 local time on the local calendar day after that of [now]. *)
Definition tomorrowAtNine (off now : Z) : Z :=
  ((now + off) `div` msPerDay + 1) * msPerDay + 9 * msPerHour - off.

(** The collation of the host is a consistent comparator: swapping the
    arguments swaps the sign, and "not after" is transitive. *)
Definition consistentCollation (H : Host) : Prop :=
  (forall a b, Z.sgn (localeCompare b a) = - Z.sgn (localeCompare a b))
  /\ (forall a b c, localeCompare a b <= 0 -> localeCompare b c <= 0 ->
                    localeCompare a c <= 0).

(** The collation of the host is alphabetical whatever the case: of two
    words made of Basic Latin letters, the one whose lower-case form
    comes first letter by letter is collated first. *)
Definition alphabeticCollation (H : Host) : Prop :=
  forall a b,
    forallb isLatinLetter a = true -> forallb isLatinLetter b = true ->
    compareUnits (List.map lowerUnit a) (List.map lowerUnit b) = Lt ->
    localeCompare a b < 0.

(** The numeric field a sort key reads, if it reads one directly. *)
Definition numericField (k : CareerRecommendationsSection.SortKey)
  : option (CareerRecommendationsSection.Course -> option number) :=
  match k with
  | CareerRecommendationsSection.relevance =>
      Some CareerRecommendationsSection.courseRelevance
  | CareerRecommendationsSection.popularity =>
      Some CareerRecommendationsSection.coursePopularity
  | _ => None
  end.

(** [a] is at most [b], neither being NaN. *)
Definition nle (a b : number) : Prop := ncompare a b <> Gt.

Section SortSamples.
Import CareerRecommendationsSection.

Definition course (t : string) (rel pop : option Z) : Course :=
  {| courseId := js t; title := js t; stream := js "Science"; description := [];
     level := Undergraduate; salaryRange := None;
     coursePopularity := ofZ <$> pop; courseRelevance := ofZ <$> rel |}.

End SortSamples.

(** ** Terms of the further properties *)

(** The seconds spelled by a clock text [MM:SS]. *)
Definition readTime (s : jsstring) : option Z :=
  match splitOn (fun c => (c =? 58)%N) s with
  | [m; sec] => Some (60 * digitsValue m + digitsValue sec)
  | _ => None
  end.

Section QuizTerms.
Import AptitudeQuiz.

(** The timer runs in the quiz and review phases. *)
Definition timed (st : State) : Prop := phase st = PhaseQuiz \/ phase st = PhaseReview.

(** The cursor points at a question, or at 0 when there is none. *)
Definition cursorInRange (p : Props) (st : State) : Prop :=
  0 <= index st /\ index st < Z.max 1 (total p).

(** An event the interface offers: the jump buttons are numbered by
    the questions. *)
Definition offered (p : Props) (e : Event) : Prop :=
  match e with
  | Jump i => 0 <= i < total p
  | _ => True
  end.



(** Two questions, two seconds, no skipping, scored locally. *)
Definition twoQuestions : Props :=
  {| questions :=
       [ {| qId := js "q1"; prompt := js "First"; options := [] |};
         {| qId := js "q2"; prompt := js "Second"; options := [] |} ];
     durationSec := 2; allowSkip := false; autoSubmitOnTime := true;
     initialAnswers := None; onSubmit := None |}.

(** The same quiz with a scorer that always rejects. *)
Definition twoQuestionsFailing : Props :=
  {| questions := questions twoQuestions;
     durationSec := 2; allowSkip := false; autoSubmitOnTime := true;
     initialAnswers := None; onSubmit := Some (fun _ => Throw OtherError) |}.

(** The quiz when its time has run out. *)
Definition timeUp (p : Props) : State :=
  setRemaining 0 (initialState p).

End QuizTerms.

Section SectionTerms.
Import AptitudeQuizSection.

(** The invariant of the cursor: it points at a question, or at 0 when
    there is none, and without questions nothing is answered. *)
Definition cursorOk (questions : list QuizQuestion) (st : State) : Prop :=
  0 <= current st /\ current st < Z.max 1 (total questions)
  /\ (questions = [] -> answers st = []).




End SectionTerms.

Section CardTerms.
Import CareerRecommendations.
Context `{Host}.

(** The text filter of the cards: the lower-cased query occurs in the
    title, the stream, the summary or a skill. *)
Definition matchesText (query : jsstring) (i : CareerRecommendation) : bool :=
  let q := toLowerCase query in
  includes (toLowerCase (title i)) q
  || includes (toLowerCase (stream i)) q
  || includes (toLowerCase (summary i)) q
  || List.existsb (fun s => includes (toLowerCase s) q) (skills i).

(** [a] goes before [b] under the stream key: an earlier stream, or the
    same stream and a fit score at least as high. *)
Definition streamThenFit (a b : CareerRecommendation) : Prop :=
  localeCompare (stream a) (stream b) < 0
  \/ (localeCompare (stream a) (stream b) = 0 /\ nle (fitScore b) (fitScore a)).

End CardTerms.

Section CardSamples.
Import CareerRecommendations.

Definition card (i s : string) (fit : Z) : CareerRecommendation :=
  {| recId := js i; title := js i; stream := js s; summary := [];
     fitScore := ofZ fit; skills := [] |}.

Definition sampleCards : list CareerRecommendation :=
  [ card "eng-ai" "Engineering" 92; card "design-ux" "Design" 84;
    card "commerce-fin" "Commerce" 76; card "eng-civil" "Engineering" 95 ].

Definition byStream : State :=
  {| query := []; sort := stream_asc; selectedStreams := []; minFit := None;
     bookmarked := []; compareSet := []; showBookmarksOnly := false;
     toasts := []; reported := [] |}.

(** Only bookmarks, of the Engineering stream, with a fit of 90 at least. *)
Definition narrowed : State :=
  {| query := []; sort := fit_desc; selectedStreams := [js "Engineering"];
     minFit := Some (ofZ 90); bookmarked := [js "eng-ai"; js "design-ux"];
     compareSet := []; showBookmarksOnly := true; toasts := []; reported := [] |}.

End CardSamples.

Section ListTerms.
Import ScholarshipTracker.
Context `{Host}.

(** The deadline of [a] is a date, and so is that of [b], and the
    first is not later than the second. *)
Definition closesNoLater (a b : Scholarship) : Prop :=
  exists x y, parseDate (deadline a) = Some x
              /\ parseDate (deadline b) = Some y /\ x <= y.

(** The deadlines of [a] and [b] are the same instant. *)
Definition sameDeadline (a b : Scholarship) : bool :=
  match parseDate (deadline a), parseDate (deadline b) with
  | Some x, Some y => x =? y
  | _, _ => false
  end.

(** A profile that gives the state and nothing else. *)
Definition stateOnly (p : UserProfile) : Prop :=
  educationLevel p = None /\ category p = None /\ gender p = None
  /\ familyIncome p = None.

End ListTerms.

Section ListSamples.
Import ScholarshipTracker.

Definition grant (i dl : string) (lines : list string) (rec : option Z) : Scholarship :=
  {| id := js i; title := js i; provider := js "NSP"; type := NSP;
     eligibility := List.map js lines; deadline := js dl;
     recommendedScore := ofZ <$> rec; location := Some (js "Kerala") |}.

Definition sampleGrants : list Scholarship :=
  [ grant "g1" "2024-06-19" ["Undergraduate"; "Income < 8L"]%string (Some 5);
    grant "g2" "2024-05-12" ["Postgraduate"]%string None;
    grant "g3" "2024-05-20" ["Undergraduate"; "Female"]%string None ].

Definition keralaProfile : UserProfile :=
  {| educationLevel := None; category := None; gender := None;
     familyIncome := None; state := Some (js "kerala") |}.

End ListSamples.

Section AmountTerms.
Import ScholarshipsTrackerSection.
Context `{Host}.

(** The amount [parseAmount] reads from a record; NaN where it raises. *)
Definition amountOf (s : Scholarship) : number :=
  match parseAmount (amount s) with
  | Ok n => n
  | Throw _ => NaN
  end.

(** The amount is a number other than NaN, or a string. *)
Definition pricedEntry (s : Scholarship) : Prop :=
  (exists n, amount s = VNum n /\ isNaN n = false) \/ isText (amount s).

(** The comparator of the amount sort, on the amounts read. *)
Definition byAmount (o : AmountOrder) (a b : Scholarship) : number :=
  match o with
  | asc => nsub (amountOf a) (amountOf b)
  | desc => nsub (amountOf b) (amountOf a)
  end.

End AmountTerms.

Section AmountSamples.
Import ScholarshipsTrackerSection.

Definition cheapestFirst : Criteria :=
  {| query := []; categoryFilter := None; eligibilityFilter := None;
     amountOrder := Some asc; deadlineWindow := WAll |}.

End AmountSamples.

(** The two dashes a salary range is split at: hyphen-minus and en dash. *)
Definition isDash (c : N) : bool := ((c =? 45) || (c =? 8211))%N.

(** The number spelled by the digits of [s], other characters skipped. *)
Definition digitsIn (s : jsstring) : Z := digitsValue (List.filter isDigit s).

Section CourseTerms.
Import CareerRecommendationsSection.
Context `{Host}.

(** The search box matches the course: the lower-cased text occurs in
    the title, the stream or the description. *)
Definition courseMatches (search : jsstring) (c : Course) : bool :=
  includes (toLowerCase (title c)) (toLowerCase search)
  || includes (toLowerCase (stream c)) (toLowerCase search)
  || includes (toLowerCase (description c)) (toLowerCase search).

(** The level menu lets the course through. *)
Definition levelAdmits (lvl : FilterLevel) (c : Course) : Prop :=
  match lvl with
  | LevelAll => True
  | LevelOf l => level c = l
  | Level10plus2 => False
  end.

End CourseTerms.

Section MenuTerms.
Import ScholarshipsTrackerSection.

(** The menu option a record gives rise to: the first clause of its
    eligibility text, trimmed. *)
Definition clauseOf (s : Scholarship) : option jsstring :=
  match eligibility s with
  | VStr e => Some (trim (hd [] (splitOn clauseEnd e)))
  | _ => None
  end.

Definition threeClauses : list Scholarship :=
  List.map
    (fun e => sanitizeEntry
                (VObj [ (js "id", VStr (js "x")); (js "name", VStr (js "X"));
                        (js "eligibility", VStr (js e)) ]))
    [ "Undergraduate; income below 8L"; " Girls only. Class 12 pass";
      "Undergraduate | any stream"; "" ]%string.
End MenuTerms.

(** The only white space is the space, and no two spaces are adjacent. *)
Fixpoint singleSpaced (s : jsstring) : bool :=
  match s with
  | [] => true
  | c :: rest =>
      (if isWhiteSpace c
       then (c =? 32)%N
            && match rest with
               | d :: _ => negb (isWhiteSpace d)
               | [] => true
               end
       else true)
      && singleSpaced rest
  end.

(** The text has a character that is not white space. *)
Definition hasInk (s : jsstring) : Prop := exists c, In c s /\ isWhiteSpace c = false.

Section ChatSamples.
Import ChatbotInterface.

Definition sampleChat : list Message :=
  [ {| role := assistant; content := js "Hello! How can I help?" |};
    {| role := user;
       content := 9%N :: js "  Which  colleges near Kochi
offer marine   engineering courses, please?  " |};
    {| role := user; content := js "Thanks" |} ].
End ChatSamples.

(** * Properties *)

(** ** Escaping of the info window texts *)

Section EscapeHtml.
Import CollegesMapSection.

Lemma replaceChar_app c rep s t :
  replaceChar c rep (s ++ t) = replaceChar c rep s ++ replaceChar c rep t.
Proof. unfold replaceChar. apply List.flat_map_app. Qed.

Lemma escapeHtml_app s t : escapeHtml (s ++ t) = escapeHtml s ++ escapeHtml t.
Proof. unfold escapeHtml. now rewrite !replaceChar_app. Qed.

Lemma escapeHtml_unit c : escapeHtml [c] = entityOf c.
Proof.
  unfold escapeHtml, entityOf, replaceChar, amp, lt, gt, quot.
  destruct (N.eqb_spec c 38) as [->|H38]; [reflexivity|].
  destruct (N.eqb_spec c 60) as [->|H60]; [reflexivity|].
  destruct (N.eqb_spec c 62) as [->|H62]; [reflexivity|].
  destruct (N.eqb_spec c 34) as [->|H34]; [reflexivity|].
  cbn [List.flat_map List.app].
  rewrite (proj2 (N.eqb_neq c 38) H38). cbn [List.flat_map List.app].
  rewrite (proj2 (N.eqb_neq c 60) H60). cbn [List.flat_map List.app].
  rewrite (proj2 (N.eqb_neq c 62) H62). cbn [List.flat_map List.app].
  rewrite (proj2 (N.eqb_neq c 34) H34). reflexivity.
Qed.

Lemma escapeHtml_flat_map s : escapeHtml s = List.flat_map entityOf s.
Proof.
  induction s as [|c s IH]; [reflexivity|].
  change (c :: s) with ([c] ++ s).
  rewrite escapeHtml_app, escapeHtml_unit, IH. reflexivity.
Qed.

Lemma entityOf_plain c x : In x (entityOf c) -> ~ markupUnit x.
Proof.
  unfold entityOf, markupUnit, amp, lt, gt, quot.
  destruct (N.eqb_spec c 38); [|destruct (N.eqb_spec c 60);
    [|destruct (N.eqb_spec c 62); [|destruct (N.eqb_spec c 34)]]];
    cbn; intros Hin [E|[E|E]]; subst x;
    repeat (destruct Hin as [Hin|Hin]; [try discriminate Hin; congruence|]);
    try contradiction.
Qed.

Lemma escapeHtml_plain s x : In x (escapeHtml s) -> ~ markupUnit x.
Proof.
  rewrite escapeHtml_flat_map, List.in_flat_map.
  intros (c & _ & Hin). eapply entityOf_plain, Hin.
Qed.

End EscapeHtml.

(** C10. For every string [s], [escapeHtml s] is [s] with each ampersand,
    less-than sign, greater-than sign and double quote replaced by its
    entity, and it contains no less-than sign, greater-than sign or double
    quote; so none of the texts placed in the info window markup (name,
    city, state, the first three courses) contains one. *)
Theorem escapeHtml_neutralises_markup :
  forall s : jsstring,
    CollegesMapSection.escapeHtml s = List.flat_map entityOf s
    /\ ~ In CollegesMapSection.lt (CollegesMapSection.escapeHtml s)
    /\ ~ In CollegesMapSection.gt (CollegesMapSection.escapeHtml s)
    /\ ~ In CollegesMapSection.quot (CollegesMapSection.escapeHtml s)
    /\ forall (c : CollegesMapSection.College) (t : jsstring) (x : N),
         In t (CollegesMapSection.infoWindowTexts c) -> In x t -> ~ markupUnit x.
Proof.
  intros s. split; [apply escapeHtml_flat_map|].
  repeat split.
  - intros Hin. apply (escapeHtml_plain _ _ Hin). left; reflexivity.
  - intros Hin. apply (escapeHtml_plain _ _ Hin). right; left; reflexivity.
  - intros Hin. apply (escapeHtml_plain _ _ Hin). right; right; reflexivity.
  - intros c t x Ht Hx. unfold CollegesMapSection.infoWindowTexts in Ht.
    cbn [In] in Ht.
    destruct Ht as [<-|[<-|[<-|Ht]]]; try (eapply escapeHtml_plain; eassumption).
    apply List.in_map_iff in Ht. destruct Ht as (u & <- & _).
    eapply escapeHtml_plain; eassumption.
Qed.

Example escapeHtml_tag :
  CollegesMapSection.escapeHtml (js "<b>R&D</b>") = js "&lt;b&gt;R&amp;D&lt;/b&gt;".
Proof. reflexivity. Qed.

(** ** The quiz state machine *)

(** C4. Whatever the state (and so whatever the phase) in which Retake
    is invoked, afterwards the answers are empty, the cursor is 0, the
    timer is back at the configured duration, the stored result is gone
    and the phase is the quiz phase. *)
Theorem handleRetake_resets :
  forall (p : AptitudeQuiz.Props) (st : AptitudeQuiz.State),
    let st' := AptitudeQuiz.handleRetake p st in
    AptitudeQuiz.answers st' = []
    /\ AptitudeQuiz.index st' = 0
    /\ AptitudeQuiz.remaining st' = AptitudeQuiz.durationSec p
    /\ AptitudeQuiz.results st' = None
    /\ AptitudeQuiz.phase st' = AptitudeQuiz.PhaseQuiz.
Proof. intros p st. cbn. repeat split. Qed.

(** C5. A run of the submit handler never touches the answers. When the
    scoring call fails, the phase becomes the review phase, an error toast
    is shown and the stored result is left as it was; when it succeeds,
    the result is stored and the phase becomes the result phase. The same
    holds for the part of the handler that runs after the call settled,
    on whatever state the component has by then. *)
Theorem handleSubmit_outcome :
  forall (H : Host) (p : AptitudeQuiz.Props) (st mid : AptitudeQuiz.State),
    let outcome := AptitudeQuiz.scoring p (AptitudeQuiz.answers st) in
    let st' := AptitudeQuiz.handleSubmit p st in
    let mid' := AptitudeQuiz.handleSubmitSettle outcome mid in
    AptitudeQuiz.phase (AptitudeQuiz.handleSubmitStart st) = AptitudeQuiz.PhaseSubmitting
    /\ AptitudeQuiz.answers st' = AptitudeQuiz.answers st
    /\ AptitudeQuiz.answers mid' = AptitudeQuiz.answers mid
    /\ match outcome with
       | Throw _ =>
           AptitudeQuiz.phase st' = AptitudeQuiz.PhaseReview
           /\ AptitudeQuiz.results st' = AptitudeQuiz.results st
           /\ (exists msg,
                 List.last (AptitudeQuiz.toasts st') (AptitudeQuiz.ToastLoading [])
                 = AptitudeQuiz.ToastError msg)
           /\ AptitudeQuiz.phase mid' = AptitudeQuiz.PhaseReview
           /\ AptitudeQuiz.results mid' = AptitudeQuiz.results mid
       | Ok res =>
           AptitudeQuiz.phase st' = AptitudeQuiz.PhaseResult
           /\ AptitudeQuiz.results st' = Some res
           /\ AptitudeQuiz.phase mid' = AptitudeQuiz.PhaseResult
           /\ AptitudeQuiz.results mid' = Some res
       end.
Proof.
  intros H p st mid outcome st' mid'. subst st' mid'.
  unfold AptitudeQuiz.handleSubmit. fold outcome.
  destruct outcome as [res|e]; cbn.
  - repeat split.
  - repeat split. eexists. rewrite List.last_last. reflexivity.
Qed.

Section SubmitExamples.
Import AptitudeQuiz.

Example handleSubmit_rejected :
  let st' := handleSubmit (H := ExampleHost.host) failingProps sampleState in
  phase st' = PhaseReview /\ answers st' = answers sampleState /\ results st' = None.
Proof. repeat split. Qed.

Example handleSubmit_resolved :
  let st' := handleSubmit (H := ExampleHost.host) localProps sampleState in
  phase st' = PhaseResult
  /\ answers st' = answers sampleState
  /\ (recommended <$> results st') = Some [Science; Vocational].
Proof. repeat split. Qed.

End SubmitExamples.

(** ** Facts about the sort *)

Lemma Qcompare_sub_0 x y : Qcompare (Qred (x - y)) 0 = Qcompare x y.
Proof.
  rewrite (Qcompare_comp _ _ (Qred_correct (x - y)) 0%Q 0%Q (Qeq_refl 0%Q)).
  destruct (Qcompare_spec x y) as [E|L|G].
  - apply Qeq_alt. rewrite E. ring.
  - apply Qlt_alt. apply (Qplus_lt_l _ _ y). ring_simplify. exact L.
  - apply Qgt_alt. apply (Qplus_lt_l _ _ y). ring_simplify. exact G.
Qed.

Lemma nsign_nsub a b :
  isNaN a = false -> isNaN b = false -> nsign (nsub a b) = ncompare a b.
Proof.
  destruct a, b; cbn; try discriminate; try reflexivity.
  intros _ _. apply Qcompare_sub_0.
Qed.

Lemma ncompare_antisym a b : ncompare b a = CompOpp (ncompare a b).
Proof.
  destruct a, b; cbn; try reflexivity. symmetry. apply Qcompare_antisym.
Qed.

Lemma ncompare_le_trans a b c :
  isNaN a = false -> isNaN b = false -> isNaN c = false ->
  ncompare a b <> Gt -> ncompare b c <> Gt -> ncompare a c <> Gt.
Proof.
  destruct a, b, c; cbn; try discriminate; try congruence.
  intros _ _ _. rewrite <- !Qle_alt. apply Qle_trans.
Qed.

Lemma ncompare_ofZ a b : ncompare (ofZ a) (ofZ b) = Z.compare a b.
Proof. cbn. unfold Qcompare. cbn. now rewrite !Z.mul_1_r. Qed.

Section SortFacts.
Context {A : Type} (cmp : A -> A -> number).

Lemma insertBy_perm x l : Permutation (insertBy cmp x l) (x :: l).
Proof.
  induction l as [|y l IH]; cbn; [reflexivity|].
  destruct (nsign (cmp x y)); try reflexivity.
  rewrite IH. apply perm_swap.
Qed.

Lemma sortBy_perm l : Permutation (sortBy cmp l) l.
Proof.
  induction l as [|x l IH]; cbn; [reflexivity|].
  rewrite insertBy_perm. now constructor.
Qed.

Lemma sortBy_In l x : In x (sortBy cmp l) <-> In x l.
Proof.
  split; apply Permutation_in; [|symmetry]; apply sortBy_perm.
Qed.

Lemma sortBy_length l : length (sortBy cmp l) = length l.
Proof. apply Permutation_length, sortBy_perm. Qed.

Section Consistent.
Context (dom : A -> Prop) (Hcons : consistentOn cmp dom).

Lemma precedes_total x y : dom x -> dom y -> precedes cmp x y \/ precedes cmp y x.
Proof.
  intros Hx Hy. unfold precedes. rewrite (proj1 Hcons x y Hx Hy).
  destruct (nsign (cmp x y)); cbn;
    first [left; discriminate | right; discriminate].
Qed.

Lemma insertBy_sorted x l :
  dom x -> List.Forall dom l ->
  StronglySorted (precedes cmp) l -> StronglySorted (precedes cmp) (insertBy cmp x l).
Proof.
  intros Hx Hl Hs. induction Hs as [|y l Hs IH Hy]; cbn.
  - repeat constructor.
  - inversion Hl as [|? ? Hdy Hdl]; subst.
    destruct (nsign (cmp x y)) eqn:E.
    + constructor; [now constructor|]. constructor.
      * unfold precedes. rewrite E. discriminate.
      * rewrite List.Forall_forall in Hy, Hdl |- *. intros z Hz.
        apply (proj2 Hcons x y z); auto. unfold precedes. rewrite E. discriminate.
    + constructor; [now constructor|]. constructor.
      * unfold precedes. rewrite E. discriminate.
      * rewrite List.Forall_forall in Hy, Hdl |- *. intros z Hz.
        apply (proj2 Hcons x y z); auto. unfold precedes. rewrite E. discriminate.
    + constructor; [now apply IH|].
      rewrite List.Forall_forall in Hy |- *. intros z Hz.
      apply (Permutation_in _ (insertBy_perm x l)) in Hz.
      destruct Hz as [<-|Hz]; [|now apply Hy].
      unfold precedes. rewrite (proj1 Hcons x y Hx Hdy), E. discriminate.
Qed.

Lemma sortBy_sorted l :
  List.Forall dom l -> StronglySorted (precedes cmp) (sortBy cmp l).
Proof.
  induction 1 as [|x l Hx Hl IH]; cbn; [constructor|].
  apply insertBy_sorted; auto.
  rewrite List.Forall_forall in Hl |- *. intros z Hz.
  apply Hl. now apply sortBy_In.
Qed.

Lemma insertBy_stable z x l :
  dom z -> dom x -> List.Forall dom l ->
  List.filter (tiedWith cmp z) (insertBy cmp x l)
  = List.filter (tiedWith cmp z) (x :: l).
Proof.
  intros Hz Hx Hl. induction Hl as [|y l Hy Hl IH]; [reflexivity|].
  cbn [insertBy]. destruct (nsign (cmp x y)) eqn:E; try reflexivity.
  cbn [List.filter] in *. rewrite IH.
  destruct (tiedWith cmp z x) eqn:Tx; [|reflexivity].
  destruct (tiedWith cmp z y) eqn:Ty; [|reflexivity].
  exfalso. unfold tiedWith in Tx, Ty.
  destruct (nsign (cmp z x)) eqn:Ezx; try discriminate.
  destruct (nsign (cmp z y)) eqn:Ezy; try discriminate.
  assert (Hxz : precedes cmp x z).
  { unfold precedes. rewrite (proj1 Hcons z x Hz Hx), Ezx. discriminate. }
  assert (Hzy : precedes cmp z y) by (unfold precedes; rewrite Ezy; discriminate).
  apply (proj2 Hcons x z y Hx Hz Hy Hxz Hzy). exact E.
Qed.

(** Stability: the values that compare equal to [z] keep the order
    they had. *)
Lemma sortBy_stable z l :
  dom z -> List.Forall dom l ->
  List.filter (tiedWith cmp z) (sortBy cmp l) = List.filter (tiedWith cmp z) l.
Proof.
  intros Hz Hl. induction Hl as [|x l Hx Hl IH]; [reflexivity|].
  cbn [sortBy List.fold_right]. fold (sortBy cmp l).
  rewrite insertBy_stable; auto.
  - cbn [List.filter]. now rewrite IH.
  - rewrite List.Forall_forall in Hl |- *. intros y Hy.
    apply Hl. now apply sortBy_In.
Qed.

End Consistent.

End SortFacts.

(** A comparator that subtracts a numeric key is consistent wherever the
    key is not NaN: descending when the second argument comes first. *)
Lemma consistent_descending {A} (key : A -> number) :
  consistentOn (fun a b => nsub (key b) (key a)) (fun a => isNaN (key a) = false).
Proof.
  split.
  - intros x y Hx Hy. rewrite !nsign_nsub by assumption. apply ncompare_antisym.
  - intros x y z Hx Hy Hz. unfold precedes. rewrite !nsign_nsub by assumption.
    intros Hxy Hyz.
    apply (ncompare_le_trans (key z) (key y) (key x)); assumption.
Qed.

Lemma StronglySorted_weaken {A} (R R' : A -> A -> Prop) l :
  (forall x y, R x y -> R' x y) -> StronglySorted R l -> StronglySorted R' l.
Proof.
  intros HR. induction 1 as [|x l Hs IH Hx]; constructor; auto.
  eapply List.Forall_impl; [|exact Hx]. auto.
Qed.

(** ** The heuristic scorer *)

Section Scorer.
Import AptitudeQuiz.
Context `{Host}.

Lemma scoreAnswer_bump b val :
  scoreAnswer b val = bump (bucketOf val) (weight (bucketOf val)) b.
Proof.
  unfold scoreAnswer, bucketOf, scienceKeyword, commerceKeyword, artsKeyword.
  cbn zeta.
  destruct (includes (toLowerCase val) (js "logic") || _ || _); [reflexivity|].
  destruct (includes (toLowerCase val) (js "business") || _ || _); [reflexivity|].
  destruct (includes (toLowerCase val) (js "creative") || _ || _ || _); reflexivity.
Qed.

Lemma keys_bump k d b : List.map fst (bump k d b) = List.map fst b.
Proof.
  unfold bump. rewrite List.map_map. apply List.map_ext.
  intros [k' v]. now destruct (decide (k' = k)).
Qed.

Lemma score_bump_ne k d b k' : k' <> k -> score (bump k d b) k' = score b k'.
Proof.
  intros Hne. induction b as [|[k0 v] b IH]; [reflexivity|].
  unfold bump in *. cbn [List.map score].
  destruct (decide (k0 = k)) as [->|]; cbn [score]; destruct (decide _); congruence.
Qed.

Lemma score_bump_eq k d b :
  In k (List.map fst b) -> score (bump k d b) k = score b k + d.
Proof.
  induction b as [|[k0 v] b IH]; [intros []|].
  unfold bump in *. cbn [List.map score fst In]. intros Hin.
  destruct (decide (k0 = k)) as [->|Hne]; cbn [score].
  - now destruct (decide (k = k)).
  - destruct (decide (k0 = k)); [contradiction|]. apply IH. now destruct Hin.
Qed.

Lemma In_allStreams k : In k allStreams.
Proof. destruct k; cbn; auto. Qed.

Lemma keys_fold vals b :
  List.map fst (List.fold_left scoreAnswer vals b) = List.map fst b.
Proof.
  revert b. induction vals as [|v vals IH]; intros b; [reflexivity|].
  cbn. now rewrite IH, scoreAnswer_bump, keys_bump.
Qed.

Lemma score_fold vals b k :
  List.map fst b = allStreams ->
  score (List.fold_left scoreAnswer vals b) k = score b k + weight k * countIn k vals.
Proof.
  revert b. induction vals as [|v vals IH]; intros b Hb.
  - unfold countIn. cbn. lia.
  - cbn [List.fold_left]. rewrite IH by (now rewrite scoreAnswer_bump, keys_bump).
    rewrite scoreAnswer_bump. unfold countIn. cbn [List.filter].
    destruct (decide (bucketOf v = k)) as [->|Hne].
    + rewrite bool_decide_eq_true_2 by reflexivity.
      rewrite score_bump_eq by (rewrite Hb; apply In_allStreams).
      cbn [length]. lia.
    + rewrite bool_decide_eq_false_2 by assumption.
      rewrite score_bump_ne by congruence. reflexivity.
Qed.

Lemma countIn_nonneg k vals : 0 <= countIn k vals.
Proof. unfold countIn. lia. Qed.

(** The comparator of the scorer holds [a] before [b] exactly when the
    score of [a] is at least that of [b]. *)
Lemma precedes_score (b : Buckets) x y :
  precedes (fun a c => nsub (ofZ (score b c)) (ofZ (score b a))) x y
  <-> score b y <= score b x.
Proof.
  unfold precedes. rewrite nsign_nsub by reflexivity. rewrite ncompare_ofZ.
  unfold Z.le. reflexivity.
Qed.

Lemma sorted_streams (b : Buckets) l :
  StronglySorted (fun x y => score b y <= score b x)
    (sortBy (fun a c => nsub (ofZ (score b c)) (ofZ (score b a))) l).
Proof.
  eapply StronglySorted_weaken; [intros x y; apply precedes_score|].
  apply (sortBy_sorted _ (fun _ => True)).
  - destruct (consistent_descending (fun a => ofZ (score b a))) as [Ha Ht].
    split; [intros x y _ _; now apply Ha|intros x y z _ _ _; now apply Ht].
  - apply List.Forall_forall. trivial.
Qed.

End Scorer.

Section ScorerClaims.
Import AptitudeQuiz.
Context `{Host}.

Lemma countIn_all_science vals :
  (forall v, In v vals -> scienceKeyword v = true) ->
  countIn Science vals = Z.of_nat (length vals)
  /\ forall k, k <> Science -> countIn k vals = 0.
Proof.
  intros Hall. unfold countIn.
  induction vals as [|v vals IH]; [split; [reflexivity|intros; reflexivity]|].
  assert (Hv : bucketOf v = Science).
  { unfold bucketOf. now rewrite (Hall v (or_introl eq_refl)). }
  destruct IH as [IH1 IH2]; [intros u Hu; apply Hall; now right|].
  split.
  - cbn [List.filter]. rewrite bool_decide_eq_true_2 by assumption.
    cbn [length]. lia.
  - intros k Hk. cbn [List.filter].
    rewrite bool_decide_eq_false_2 by congruence. now apply IH2.
Qed.

Lemma mockEvaluate_buckets answers k :
  score (streamScores (mockEvaluate answers)) k = weight k * countIn k (values answers).
Proof.
  unfold mockEvaluate. cbn [streamScores].
  rewrite score_fold by reflexivity. destruct k; reflexivity.
Qed.

Lemma mockEvaluate_ranking answers :
  let r := mockEvaluate answers in
  exists sorted,
    recommended r = List.firstn 2 sorted
    /\ Permutation sorted allStreams
    /\ StronglySorted
         (fun x y => score (streamScores r) y <= score (streamScores r) x) sorted.
Proof.
  cbn zeta. unfold mockEvaluate. cbn [streamScores recommended].
  eexists. split; [reflexivity|]. split.
  - rewrite sortBy_perm, keys_fold. reflexivity.
  - apply sorted_streams.
Qed.

End ScorerClaims.

(** C1. For every answer map, the scorer returns a score for exactly the
    four streams Arts, Science, Commerce and Vocational, none negative;
    an answer whose lower-cased value contains "logic", "math" or
    "science" counts 2 for Science, an answer matching no keyword counts
    1 for Vocational, and every score is the sum of what the answers of
    its bucket count; the recommended list is the two highest-scoring
    streams, best first; if every answer value contains a science
    keyword, no stream scores more than Science and, as soon as there is
    one answer, Science is the first recommended stream. *)
Theorem mockEvaluate_scores :
  forall (H : Host) (answers : AptitudeQuiz.AnswerMap),
    let r := AptitudeQuiz.mockEvaluate answers in
    let b := AptitudeQuiz.streamScores r in
    List.map fst b
    = [AptitudeQuiz.Arts; AptitudeQuiz.Science; AptitudeQuiz.Commerce;
       AptitudeQuiz.Vocational]
    /\ (forall k, 0 <= AptitudeQuiz.score b k)
    /\ (forall k, AptitudeQuiz.score b k
                  = weight k * countIn k (AptitudeQuiz.values answers))
    /\ (forall v, scienceKeyword v = true ->
                  bucketOf v = AptitudeQuiz.Science /\ weight (bucketOf v) = 2)
    /\ (forall v, scienceKeyword v = false -> commerceKeyword v = false ->
                  artsKeyword v = false ->
                  bucketOf v = AptitudeQuiz.Vocational /\ weight (bucketOf v) = 1)
    /\ (exists rest,
          Permutation (AptitudeQuiz.recommended r ++ rest) allStreams
          /\ length (AptitudeQuiz.recommended r) = 2%nat
          /\ StronglySorted
               (fun x y => AptitudeQuiz.score b y <= AptitudeQuiz.score b x)
               (AptitudeQuiz.recommended r ++ rest))
    /\ ((forall v, In v (AptitudeQuiz.values answers) -> scienceKeyword v = true) ->
        (forall k, AptitudeQuiz.score b k <= AptitudeQuiz.score b AptitudeQuiz.Science)
        /\ (answers <> [] ->
            List.hd_error (AptitudeQuiz.recommended r) = Some AptitudeQuiz.Science)).
Proof.
  intros H answers r b.
  assert (Hscore : forall k, AptitudeQuiz.score b k
                             = weight k * countIn k (AptitudeQuiz.values answers))
    by (intros k; apply mockEvaluate_buckets).
  split; [|split; [|split; [exact Hscore|split; [|split; [|split]]]]].
  - subst b r. unfold AptitudeQuiz.mockEvaluate. cbn [AptitudeQuiz.streamScores].
    now rewrite keys_fold.
  - intros k. rewrite Hscore. pose proof (countIn_nonneg k (AptitudeQuiz.values answers)).
    destruct k; cbn [weight]; lia.
  - intros v Hv. unfold bucketOf. rewrite Hv. split; reflexivity.
  - intros v Hs Hc Ha. unfold bucketOf. rewrite Hs, Hc, Ha. split; reflexivity.
  - destruct (mockEvaluate_ranking answers) as (sorted & Hrec & Hperm & Hsorted).
    fold r in Hrec, Hsorted. fold b in Hsorted.
    exists (List.skipn 2 sorted). rewrite Hrec, List.firstn_skipn.
    split; [exact Hperm|]. split; [|exact Hsorted].
    apply Permutation_length in Hperm. rewrite List.length_firstn, Hperm. reflexivity.
  - intros Hall.
    destruct (countIn_all_science _ Hall) as [Hsci Hother].
    assert (Hle : forall k, AptitudeQuiz.score b k <= AptitudeQuiz.score b AptitudeQuiz.Science).
    { intros k. rewrite !Hscore, Hsci.
      destruct (decide (k = AptitudeQuiz.Science)) as [->|Hk]; [rewrite Hsci; lia|].
      rewrite (Hother k Hk). cbn [weight]. lia. }
    split; [exact Hle|]. intros Hne.
    destruct (mockEvaluate_ranking answers) as (sorted & Hrec & Hperm & Hsorted).
    fold r in Hrec, Hsorted. fold b in Hsorted. rewrite Hrec.
    assert (Hpos : 0 < AptitudeQuiz.score b AptitudeQuiz.Science).
    { rewrite Hscore, Hsci. unfold AptitudeQuiz.values. rewrite List.length_map.
      destruct answers; [contradiction|]. cbn [weight length]. lia. }
    assert (Hin : In AptitudeQuiz.Science sorted).
    { apply (Permutation_in _ (Permutation_sym Hperm)), In_allStreams. }
    destruct sorted as [|h tl]; [destruct Hin|]. cbn [List.firstn List.hd_error].
    f_equal. inversion Hsorted as [|? ? _ Hh]; subst.
    assert (Hge : AptitudeQuiz.score b AptitudeQuiz.Science <= AptitudeQuiz.score b h).
    { destruct Hin as [->|Hin]; [lia|].
      rewrite List.Forall_forall in Hh. now apply Hh. }
    destruct (decide (h = AptitudeQuiz.Science)) as [->|Hk]; [reflexivity|].
    rewrite (Hscore h), (Hother h Hk) in Hge. lia.
Qed.

Section ScorerExamples.
Import AptitudeQuiz.

(** With five answers that all carry a science keyword, Science is
    recommended first. *)
Lemma mockEvaluate_scores_witness :
  List.hd_error (recommended (mockEvaluate (H := ExampleHost.host) scienceAnswers))
  = Some Science.
Proof.
  apply (mockEvaluate_scores ExampleHost.host scienceAnswers).
  - intros v Hv. cbn in Hv.
    repeat (destruct Hv as [<-|Hv]; [reflexivity|]). destruct Hv.
  - discriminate.
Defined.

(** With no answer at all every value carries a science keyword, yet Arts
    is recommended first: the four scores are tied at 0 and the sort
    keeps the order in which the buckets were created. *)
Lemma mockEvaluate_empty_recommends_arts :
  (forall v, In v (values []) -> scienceKeyword (H := ExampleHost.host) v = true)
  /\ recommended (mockEvaluate (H := ExampleHost.host) []) = [Arts; Science]
  /\ List.hd_error (recommended (mockEvaluate (H := ExampleHost.host) [])) <> Some Science.
Proof.
  split; [intros v []|]. split; [reflexivity|]. discriminate.
Qed.

Example mockEvaluate_mixed :
  let r := mockEvaluate (H := ExampleHost.host)
             [ (js "q1", js "Business plans"); (js "q2", js "Welding");
               (js "q3", js "Graphic Design"); (js "q4", js "Math") ] in
  streamScores r = [(Arts, 2); (Science, 2); (Commerce, 2); (Vocational, 1)]
  /\ recommended r = [Arts; Science].
Proof. split; reflexivity. Qed.

End ScorerExamples.

(** ** Amount parsing *)

Lemma nmul_1000_not_NaN n : isNaN n = false -> isNaN (nmul n (ofZ 1000)) = false.
Proof. destruct n; cbn; try discriminate; reflexivity. Qed.

(** C3. A number is returned as it is. For a string, commas, rupee signs
    and white space are removed and the rest is lower-cased; if that ends
    in "k", the number read from what precedes the "k" is multiplied by
    1000, otherwise the number read from the whole is returned; whenever
    nothing parses to a number the result is 0, so the result is never
    NaN and nothing is raised. On a host with the usual case mapping,
    "₹50,000" gives 50000, "50k" gives 50000 and "abc" gives 0. *)
Theorem parseAmount_spec :
  forall (H : Host),
    (forall n, ScholarshipsTrackerSection.parseAmount (VNum n) = Ok n)
    /\ (forall s,
          let stripped := removeClass amountNoise s in
          let clean := toLowerCase stripped in
          stripped = List.filter (fun c => negb (amountNoise c)) s
          /\ (forall c, In c stripped ->
                c <> 44%N /\ c <> rupee /\ isWhiteSpace c = false)
          /\ (exists n, ScholarshipsTrackerSection.parseAmount (VStr s) = Ok n
                        /\ isNaN n = false)
          /\ (endsWith clean (js "k") = true ->
                ScholarshipsTrackerSection.parseAmount (VStr s)
                = Ok (match parseFloat (dropLast clean) with
                      | NaN => ofZ 0
                      | n => nmul n (ofZ 1000)
                      end))
          /\ (endsWith clean (js "k") = false ->
                ScholarshipsTrackerSection.parseAmount (VStr s)
                = Ok (match parseFloat clean with
                      | NaN => ofZ 0
                      | n => n
                      end)))
    /\ (lowersBasicLatin H ->
          ScholarshipsTrackerSection.parseAmount (VStr (rupee :: js "50,000")) = Ok (ofZ 50000)
          /\ ScholarshipsTrackerSection.parseAmount (VStr (js "50k")) = Ok (ofZ 50000)
          /\ ScholarshipsTrackerSection.parseAmount (VStr (js "abc")) = Ok (ofZ 0)).
Proof.
  intros H. split; [reflexivity|]. split.
  - intros s stripped clean. split; [reflexivity|]. split; [|split; [|split]].
    + intros c Hc. unfold stripped, removeClass in Hc.
      apply List.filter_In in Hc. destruct Hc as [_ Hc].
      apply negb_true_iff in Hc. unfold amountNoise in Hc.
      apply orb_false_iff in Hc. destruct Hc as [Hc Hw].
      apply orb_false_iff in Hc. destruct Hc as [Hc1 Hc2].
      apply N.eqb_neq in Hc1. apply N.eqb_neq in Hc2. auto.
    + unfold ScholarshipsTrackerSection.parseAmount. fold amountNoise. fold stripped. fold clean.
      destruct (endsWith clean (js "k")).
      * destruct (parseFloat (dropLast clean)) eqn:E; cbn [isNaN]; eexists;
          (split; [reflexivity|]); try reflexivity;
          apply nmul_1000_not_NaN; reflexivity.
      * destruct (parseFloat clean) eqn:E; cbn [isNaN]; eexists;
          (split; [reflexivity|]); reflexivity.
    + intros Hk. unfold ScholarshipsTrackerSection.parseAmount.
      fold amountNoise. fold stripped. fold clean. rewrite Hk.
      now destruct (parseFloat (dropLast clean)).
    + intros Hk. unfold ScholarshipsTrackerSection.parseAmount.
      fold amountNoise. fold stripped. fold clean. rewrite Hk.
      now destruct (parseFloat clean).
  - intros Hlow. unfold ScholarshipsTrackerSection.parseAmount.
    repeat split.
    + change (removeClass _ (rupee :: js "50,000")) with (js "50000").
      rewrite Hlow by (repeat constructor). reflexivity.
    + change (removeClass _ (js "50k")) with (js "50k").
      rewrite Hlow by (repeat constructor). reflexivity.
    + change (removeClass _ (js "abc")) with (js "abc").
      rewrite Hlow by (repeat constructor). reflexivity.
Qed.

Lemma exampleHost_lowersBasicLatin : lowersBasicLatin ExampleHost.host.
Proof. intros s _. reflexivity. Qed.

Lemma parseAmount_spec_witness :
  ScholarshipsTrackerSection.parseAmount (H := ExampleHost.host) (VStr (rupee :: js "50,000"))
  = Ok (ofZ 50000)
  /\ ScholarshipsTrackerSection.parseAmount (H := ExampleHost.host) (VStr (js "50k"))
     = Ok (ofZ 50000)
  /\ ScholarshipsTrackerSection.parseAmount (H := ExampleHost.host) (VStr (js "abc"))
     = Ok (ofZ 0).
Proof.
  apply (parseAmount_spec ExampleHost.host). exact exampleHost_lowersBasicLatin.
Defined.

Example parseAmount_more :
  List.map (fun s => ScholarshipsTrackerSection.parseAmount (H := ExampleHost.host) (VStr s))
    [js "1.5K"; js " 2e3 "; js "Rs 1,20,000"; js "k"; js "7kk"]
  = [Ok (ofZ 1500); Ok (ofZ 2000); Ok (ofZ 0); Ok (ofZ 0); Ok (ofZ 7000)].
Proof. reflexivity. Qed.

(** ** Facts about filters and sorts that can raise *)

Lemma bind_Ok {A B} (m : result A) (f : A -> result B) (b : B) :
  m ≫= f = Ok b -> exists a, m = Ok a /\ f a = Ok b.
Proof. destruct m as [a|e]; cbn; [eauto|discriminate]. Qed.

Lemma filterE_incl {A} (p : A -> result bool) l out :
  filterE p l = Ok out -> forall x, In x out -> In x l.
Proof.
  revert out. induction l as [|y l IH]; cbn; intros out Hout x Hx.
  - injection Hout as <-. exact Hx.
  - apply bind_Ok in Hout. destruct Hout as (b & _ & Hout).
    apply bind_Ok in Hout. destruct Hout as (rest & Hrest & Hout).
    injection Hout as <-. destruct b.
    + destruct Hx as [<-|Hx]; [now left|right; eauto].
    + right; eauto.
Qed.

Lemma filterE_total {A} (p : A -> result bool) l :
  (forall x, In x l -> exists b, p x = Ok b) -> exists out, filterE p l = Ok out.
Proof.
  induction l as [|y l IH]; cbn; intros Hp; [eauto|].
  destruct (Hp y (or_introl eq_refl)) as (b & ->).
  destruct IH as (rest & ->); [intros x Hx; apply Hp; now right|].
  cbn. eauto.
Qed.

Lemma insertByE_perm {A} (cmp : A -> A -> result number) x l out :
  insertByE cmp x l = Ok out -> Permutation out (x :: l).
Proof.
  revert out. induction l as [|y l IH]; cbn; intros out Hout.
  - injection Hout as <-. reflexivity.
  - apply bind_Ok in Hout. destruct Hout as (c & _ & Hout).
    destruct (nsign c); try (injection Hout as <-; reflexivity).
    apply bind_Ok in Hout. destruct Hout as (rest & Hrest & Hout).
    injection Hout as <-. rewrite (IH _ Hrest). apply perm_swap.
Qed.

Lemma sortByE_perm {A} (cmp : A -> A -> result number) l out :
  sortByE cmp l = Ok out -> Permutation out l.
Proof.
  revert out. induction l as [|x l IH]; cbn; intros out Hout.
  - injection Hout as <-. reflexivity.
  - apply bind_Ok in Hout. destruct Hout as (rest & Hrest & Hout).
    rewrite (insertByE_perm _ _ _ _ Hout). constructor. now apply IH.
Qed.

Lemma insertByE_total {A} (cmp : A -> A -> result number) x l :
  (forall y, In y l -> exists n, cmp x y = Ok n) ->
  exists out, insertByE cmp x l = Ok out.
Proof.
  induction l as [|y l IH]; cbn; intros Hc; [eauto|].
  destruct (Hc y (or_introl eq_refl)) as (n & ->). cbn.
  destruct (nsign n); eauto.
  destruct IH as (rest & ->); [intros z Hz; apply Hc; now right|]. cbn. eauto.
Qed.

Lemma sortByE_total {A} (cmp : A -> A -> result number) l :
  (forall x y, In x l -> In y l -> exists n, cmp x y = Ok n) ->
  exists out, sortByE cmp l = Ok out.
Proof.
  induction l as [|x l IH]; cbn; intros Hc; [eauto|].
  destruct IH as (rest & Hrest); [intros y z Hy Hz; apply Hc; now right|].
  rewrite Hrest. cbn. apply insertByE_total. intros y Hy.
  apply Hc; [now left|right].
  eapply Permutation_in; [apply (sortByE_perm _ _ _ Hrest)|exact Hy].
Qed.

(** Sorting with a comparator that cannot raise is the plain sort. *)
Lemma sortByE_pure {A} (cmp : A -> A -> number) l :
  sortByE (fun a b => Ok (cmp a b)) l = Ok (sortBy cmp l).
Proof.
  induction l as [|x l IH]; [reflexivity|]. cbn [sortByE]. rewrite IH.
  change (sortBy cmp (x :: l)) with (insertBy cmp x (sortBy cmp l)).
  generalize (sortBy cmp l). intros s. cbn [mbind result_bind].
  induction s as [|y s IHs]; [reflexivity|]. cbn.
  destruct (nsign (cmp x y)); try reflexivity. now rewrite IHs.
Qed.

(** ** The deadline window *)

Lemma ceilDays_spec ms n :
  ceilDays ms = n <-> (n - 1) * msPerDay < ms <= n * msPerDay.
Proof.
  unfold ceilDays, msPerDay. Z.to_euclidean_division_equations. lia.
Qed.

Lemma filterE_holds {A} (p : A -> result bool) (l out : list A) :
  filterE p l = Ok out -> out = List.filter (fun x => holds (p x)) l.
Proof.
  revert out. induction l as [|y l IH]; cbn [filterE List.filter]; intros out Hout.
  - now injection Hout as <-.
  - apply bind_Ok in Hout. destruct Hout as (b & Hb & Hout).
    apply bind_Ok in Hout. destruct Hout as (rest & Hrest & Hout).
    injection Hout as <-. rewrite Hb, (IH rest Hrest). now destruct b.
Qed.

Lemma filterE_returns {A} (p : A -> result bool) (l : list A) :
  (forall x, In x l -> exists b, p x = Ok b) ->
  filterE p l = Ok (List.filter (fun x => holds (p x)) l).
Proof.
  intros Hp. destruct (filterE_total p l Hp) as (out & Hout).
  now rewrite Hout, (filterE_holds p l out Hout).
Qed.

Lemma holds_true (r : result bool) : holds r = true <-> r = Ok true.
Proof.
  destruct r as [[|]|e]; cbn; split; (reflexivity || discriminate).
Qed.

Section DeadlineWindow.
Import ScholarshipsTrackerSection.
Context `{Host}.

Lemma withinWindow_iff now days s :
  withinWindow now days s = Ok true
  <-> truthy (deadline s) = true
      /\ exists d, newDate (deadline s) = Ok (Some d)
                   /\ 0 <= ceilDays (d - now) <= days.
Proof.
  unfold withinWindow. destruct (truthy (deadline s)); cbn [negb].
  - destruct (newDate (deadline s)) as [[d|]|e]; cbn [mbind result_bind].
    + split.
      * intros [= Hb]. apply andb_true_iff in Hb. rewrite !Z.leb_le in Hb.
        split; [reflexivity|]. exists d. tauto.
      * intros [_ (d' & [= <-] & ? & ?)]. f_equal.
        apply andb_true_iff. rewrite !Z.leb_le. auto.
    + split; [discriminate|]. now intros [_ (d' & [=] & _)].
    + split; [discriminate|]. now intros [_ (d' & [=] & _)].
  - split; [discriminate|]. now intros [[=] _].
Qed.

Lemma truthy_convertible (v : JsVal) : truthy v = false -> convertible v = true.
Proof. destruct v; cbn; (reflexivity || discriminate). Qed.

Lemma newDate_returns (v : JsVal) :
  (exists d, newDate v = Ok d) <-> convertible v = true.
Proof.
  destruct v as [| |b|n|s|items|props]; cbn [newDate];
    try (split; [intros _; reflexivity|intros _; eauto]).
  - destruct n; eauto.
  - destruct (convertible (VArr items));
      (split; [first [intros _; reflexivity | intros [? [=]]]
              | first [discriminate | eauto]]).
  - destruct (convertible (VObj props));
      (split; [first [intros _; reflexivity | intros [? [=]]]
              | first [discriminate | eauto]]).
Qed.

Lemma withinWindow_returns now days s :
  (exists b, withinWindow now days s = Ok b) <-> convertible (deadline s) = true.
Proof.
  unfold withinWindow. destruct (truthy (deadline s)) eqn:Et; cbn [negb].
  - rewrite <- newDate_returns. split.
    + intros (b & Hb). apply bind_Ok in Hb. destruct Hb as (d & Hd & _). eauto.
    + intros (d & ->). cbn [mbind result_bind]. destruct d; eauto.
  - split; [intros _; now apply truthy_convertible|eauto].
Qed.

Lemma withinWindow_raises now days s :
  convertible (deadline s) = false -> withinWindow now days s = Throw TypeError.
Proof.
  unfold withinWindow.
  destruct (deadline s) as [| |b|n|t|items|props]; cbn [convertible];
    try discriminate; intros Hc; cbn [truthy negb newDate convertible];
    rewrite Hc; reflexivity.
Qed.

Lemma window_filter_raises now days l :
  (exists s, In s l /\ convertible (deadline s) = false) ->
  filterE (withinWindow now days) l = Throw TypeError.
Proof.
  induction l as [|y l IH]; intros (s & Hs & Hc); [destruct Hs|].
  cbn [filterE]. destruct (convertible (deadline y)) eqn:Ey.
  - destruct (proj2 (withinWindow_returns now days y) Ey) as (b & ->).
    cbn [mbind result_bind]. rewrite IH; [reflexivity|].
    destruct Hs as [->|Hs]; [congruence|eauto].
  - now rewrite (withinWindow_raises now days y Ey).
Qed.

Lemma isWithin_iff now dateISO days :
  ScholarshipTracker.isWithin now dateISO days = true
  <-> exists d, parseDate dateISO = Some d
                /\ 0 <= ceilDays (d - now) <= days.
Proof.
  unfold ScholarshipTracker.isWithin, ScholarshipTracker.daysUntil.
  destruct (parseDate dateISO) as [d|]; cbn.
  - rewrite andb_true_iff, !Z.leb_le. split.
    + intros [? ?]. exists d. auto.
    + intros (d' & [= <-] & ? & ?). auto.
  - split; [discriminate|]. now intros (d' & [=] & _).
Qed.

(** With only the deadline menu set, [filtered] is the window filter run
    over the catalog. *)
Lemma filtered_window_only now w l :
  w <> WAll ->
  filtered {| query := []; categoryFilter := None; eligibilityFilter := None;
              amountOrder := None; deadlineWindow := w |} now l
  = filterE (withinWindow now (windowDays w)) l.
Proof.
  intros Hw. unfold filtered. cbn.
  destruct w; [..|contradiction];
    (destruct (filterE _ l); reflexivity).
Qed.

(** Whatever the other controls, a record that comes out while a window
    is chosen is inside the window. *)
Lemma filtered_within c now l out :
  filtered c now l = Ok out -> deadlineWindow c <> WAll ->
  forall x, In x out -> withinWindow now (windowDays (deadlineWindow c)) x = Ok true.
Proof.
  unfold filtered. intros Hf Hw x Hx.
  apply bind_Ok in Hf. destruct Hf as (l1 & _ & Hf).
  apply bind_Ok in Hf. destruct Hf as (l3 & _ & Hf).
  apply bind_Ok in Hf. destruct Hf as (l4 & H4 & Hf).
  assert (Hx4 : In x l4).
  { destruct (amountOrder c).
    - apply sortByE_perm in Hf. eapply Permutation_in; eassumption.
    - now injection Hf as <-. }
  assert (E : filterE (withinWindow now (windowDays (deadlineWindow c))) l3 = Ok l4)
    by (destruct (deadlineWindow c); [exact H4..|contradiction]).
  apply filterE_holds in E. subst l4. apply List.filter_In in Hx4.
  apply holds_true, Hx4.
Qed.

Lemma windowChoices_days w N :
  In (w, N) [ (W7, 7); (W14, 14); (W30, 30) ] -> w <> WAll /\ windowDays w = N.
Proof.
  intros [[= <- <-]|[[= <- <-]|[[= <- <-]|[]]]]; split; (reflexivity || discriminate).
Qed.

End DeadlineWindow.

(** C2. With a window of N days chosen - 7 for the first choice of the
    menu, 14 for the second, 30 for the third - the deadline filter
    keeps, in their order, exactly the records whose deadline is
    present and parses to a valid date whose whole-day difference, the
    ceiling of (deadline - now) / 1 day, lies between 0 and N; a
    missing, null or unparseable deadline is excluded. The filter
    returns whenever no deadline is an object that cannot be converted
    to a string, so for every deadline that is a string or null, and
    raises a TypeError otherwise. A
    deadline whose difference is negative - such as midnight of the day
    before a moment of today - is excluded from every window; a deadline
    whose difference is 0 - such as midnight of the current day - is
    included for every N >= 0, and one in the coming 24 hours for every
    N >= 1. The helper [isWithin] of the scholarship board decides the
    same way for every N. *)
Theorem deadline_window_filter :
  forall (H : Host) (now : Z),
    (forall days s,
        ScholarshipsTrackerSection.withinWindow now days s = Ok true
        <-> truthy (ScholarshipsTrackerSection.deadline s) = true
            /\ exists d, newDate (ScholarshipsTrackerSection.deadline s) = Ok (Some d)
                         /\ 0 <= ceilDays (d - now) <= days)
    /\ (forall days s,
          (exists b, ScholarshipsTrackerSection.withinWindow now days s = Ok b)
          <-> convertible (ScholarshipsTrackerSection.deadline s) = true)
    /\ (forall w N l,
          In (w, N)
             [ (ScholarshipsTrackerSection.W7, 7); (ScholarshipsTrackerSection.W14, 14);
               (ScholarshipsTrackerSection.W30, 30) ] ->
          let shown :=
            ScholarshipsTrackerSection.filtered
              {| ScholarshipsTrackerSection.query := [];
                 ScholarshipsTrackerSection.categoryFilter := None;
                 ScholarshipsTrackerSection.eligibilityFilter := None;
                 ScholarshipsTrackerSection.amountOrder := None;
                 ScholarshipsTrackerSection.deadlineWindow := w |} now l in
          let inside :=
            List.filter
              (fun s => holds (ScholarshipsTrackerSection.withinWindow now N s)) l in
          (forall out, shown = Ok out -> out = inside)
          /\ ((forall s, In s l ->
                 convertible (ScholarshipsTrackerSection.deadline s) = true) ->
              shown = Ok inside)
          /\ ((exists s, In s l
                         /\ convertible (ScholarshipsTrackerSection.deadline s) = false) ->
              shown = Throw TypeError)
          /\ (forall s, In s inside
                <-> In s l
                    /\ truthy (ScholarshipsTrackerSection.deadline s) = true
                    /\ exists d,
                         newDate (ScholarshipsTrackerSection.deadline s) = Ok (Some d)
                         /\ 0 <= ceilDays (d - now) <= N))
    /\ (forall w N c l out x,
          In (w, N)
             [ (ScholarshipsTrackerSection.W7, 7); (ScholarshipsTrackerSection.W14, 14);
               (ScholarshipsTrackerSection.W30, 30) ] ->
          ScholarshipsTrackerSection.deadlineWindow c = w ->
          ScholarshipsTrackerSection.filtered c now l = Ok out ->
          In x out ->
          ScholarshipsTrackerSection.withinWindow now N x = Ok true)
    /\ (forall n ms, ceilDays ms = n <-> (n - 1) * msPerDay < ms <= n * msPerDay)
    /\ (forall days s,
          truthy (ScholarshipsTrackerSection.deadline s) = false
          \/ newDate (ScholarshipsTrackerSection.deadline s) = Ok None ->
          ScholarshipsTrackerSection.withinWindow now days s = Ok false)
    /\ (forall days s d,
          newDate (ScholarshipsTrackerSection.deadline s) = Ok (Some d) ->
          (ceilDays (d - now) < 0 \/ d <= now - msPerDay) ->
          ScholarshipsTrackerSection.withinWindow now days s = Ok false)
    /\ (forall days s d,
          truthy (ScholarshipsTrackerSection.deadline s) = true ->
          newDate (ScholarshipsTrackerSection.deadline s) = Ok (Some d) ->
          (ceilDays (d - now) = 0 \/ now - msPerDay < d <= now) ->
          0 <= days ->
          ScholarshipsTrackerSection.withinWindow now days s = Ok true)
    /\ (forall days s d,
          truthy (ScholarshipsTrackerSection.deadline s) = true ->
          newDate (ScholarshipsTrackerSection.deadline s) = Ok (Some d) ->
          now < d <= now + msPerDay ->
          1 <= days ->
          ScholarshipsTrackerSection.withinWindow now days s = Ok true)
    /\ (forall dateISO days,
          ScholarshipTracker.isWithin now dateISO days = true
          <-> exists d, parseDate dateISO = Some d
                        /\ 0 <= ceilDays (d - now) <= days).
Proof.
  intros H now.
  assert (Hfalse : forall days s,
            ScholarshipsTrackerSection.withinWindow now days s <> Ok true ->
            convertible (ScholarshipsTrackerSection.deadline s) = true ->
            ScholarshipsTrackerSection.withinWindow now days s = Ok false).
  { intros days s Hne Hc.
    destruct (proj2 (withinWindow_returns now days s) Hc) as ([|] & Hb);
      [contradiction|exact Hb]. }
  split; [intros; apply withinWindow_iff|].
  split; [intros; apply withinWindow_returns|].
  split.
  { intros w N l Hw shown inside.
    destruct (windowChoices_days w N Hw) as [Hall HN].
    assert (Hshown : shown
                     = filterE (ScholarshipsTrackerSection.withinWindow now N) l).
    { subst shown. rewrite <- HN. now apply filtered_window_only. }
    split; [|split; [|split]].
    - intros out Hout. rewrite Hshown in Hout. now apply filterE_holds.
    - intros Hl. rewrite Hshown. apply filterE_returns.
      intros x Hx. apply withinWindow_returns, Hl, Hx.
    - intros Hl. rewrite Hshown. now apply window_filter_raises.
    - intros s. subst inside. rewrite List.filter_In, holds_true, withinWindow_iff.
      reflexivity. }
  split.
  { intros w N c l out x Hw Hc Hf Hx.
    destruct (windowChoices_days w N Hw) as [Hall HN]. subst w N.
    now apply (filtered_within c now l out). }
  split; [intros; apply ceilDays_spec|].
  split; [|split; [|split; [|split]]].
  - intros days s Hs. unfold ScholarshipsTrackerSection.withinWindow.
    destruct Hs as [->|Hs]; [reflexivity|].
    rewrite Hs. now destruct (truthy _).
  - intros days s d Hd Hneg. apply Hfalse.
    + rewrite withinWindow_iff.
      intros [_ (d' & Hd' & Hlo & _)]. rewrite Hd in Hd'. injection Hd' as <-.
      destruct Hneg as [Hneg|Hneg]; [lia|].
      pose proof (proj1 (ceilDays_spec (d - now) _) eq_refl) as Hc.
      unfold msPerDay in *. lia.
    + apply newDate_returns. eauto.
  - intros days s d Ht Hd Hzero Hdays. apply withinWindow_iff.
    split; [exact Ht|]. exists d. split; [exact Hd|].
    assert (ceilDays (d - now) = 0) as ->; [|lia].
    destruct Hzero as [?|?]; [assumption|].
    apply ceilDays_spec. unfold msPerDay in *. lia.
  - intros days s d Ht Hd Hsoon Hdays. apply withinWindow_iff.
    split; [exact Ht|]. exists d. split; [exact Hd|].
    assert (ceilDays (d - now) = 1) as ->; [|lia].
    apply ceilDays_spec. unfold msPerDay in *. lia.
  - intros. apply isWithin_iff.
Qed.

Section DeadlineExamples.
Import ScholarshipsTrackerSection.

Example window_14_days :
  idsOf (filtered (H := ExampleHost.host) (onlyWindow W14) sampleNow sampleCatalog)
  = Ok [VStr (js "s1"); VStr (js "s2"); VStr (js "s5")].
Proof. reflexivity. Qed.

Example window_7_days :
  idsOf (filtered (H := ExampleHost.host) (onlyWindow W7) sampleNow sampleCatalog)
  = Ok [VStr (js "s1"); VStr (js "s5")].
Proof. reflexivity. Qed.

Example window_30_days :
  idsOf (filtered (H := ExampleHost.host) (onlyWindow W30) sampleNow
           (sanitizeScholarships
              (sampleResponse
               ++ [ entry "s6" "Next Month" (VNum (ofZ 1)) "2024-06-09";
                    entry "s7" "Too Far" (VNum (ofZ 1)) "2024-06-10" ])))
  = Ok [VStr (js "s1"); VStr (js "s2"); VStr (js "s5"); VStr (js "s6")].
Proof. reflexivity. Qed.

(** The entry with an object for a deadline is kept by the sanitizer,
    and the window filter raises on it. *)
Example window_raises_on_odd_deadline :
  List.map id (sanitizeScholarships [oddDeadline]) = [VStr (js "o1")]
  /\ filtered (H := ExampleHost.host) (onlyWindow W7) sampleNow
       (sanitizeScholarships [oddDeadline])
     = Throw TypeError.
Proof. split; reflexivity. Qed.

Lemma deadline_window_filter_witness :
  withinWindow (H := ExampleHost.host) sampleNow 0 dueToday = Ok true
  /\ withinWindow (H := ExampleHost.host) sampleNow 30 dueYesterday = Ok false
  /\ filtered (H := ExampleHost.host) (onlyWindow W14) sampleNow sampleCatalog
     = Ok (List.filter
             (fun s => holds (withinWindow (H := ExampleHost.host) sampleNow 14 s))
             sampleCatalog).
Proof.
  destruct (deadline_window_filter ExampleHost.host sampleNow)
    as (_ & _ & Hshown & _ & _ & _ & Hpast & Htoday & _).
  split; [|split].
  3:{ destruct (Hshown W14 14 sampleCatalog) as (_ & Hok & _).
      - right. left. reflexivity.
      - apply Hok. intros s Hs. cbn in Hs.
        repeat (destruct Hs as [<-|Hs]; [reflexivity|]). destruct Hs. }
  - apply (Htoday 0 dueToday 1715299200000).
    + reflexivity.
    + reflexivity.
    + right. unfold sampleNow, msPerDay. lia.
    + lia.
  - apply (Hpast 30 dueYesterday 1715212800000).
    + reflexivity.
    + right. unfold sampleNow, msPerDay. lia.
Defined.

End DeadlineExamples.

(** ** The scholarship filter engine *)

Section FilterEngine.
Import ScholarshipsTrackerSection.
Context `{Host}.

Lemma sanitizeScholarships_In raw x :
  In x (sanitizeScholarships raw)
  <-> exists e, In e raw /\ keepEntry e = true /\ x = sanitizeEntry e.
Proof.
  unfold sanitizeScholarships. rewrite List.in_map_iff. split.
  - intros (e & <- & He). apply List.filter_In in He. destruct He. eauto.
  - intros (e & He & Hk & ->). exists e. split; [reflexivity|].
    apply List.filter_In. auto.
Qed.

Lemma keepEntry_true e :
  keepEntry e = true
  <-> truthy e = true /\ truthy (getProp e (js "id")) = true
      /\ truthy (getProp e (js "name")) = true.
Proof. unfold keepEntry. rewrite !andb_true_iff. tauto. Qed.

Lemma sanitizeEntry_declared e :
  keepEntry e = true -> declaredEntry e -> declaredTypes (sanitizeEntry e).
Proof.
  intros Hk (Hn & He & Hc & Ha & Hd). apply keepEntry_true in Hk.
  destruct Hk as (_ & _ & Hname).
  unfold declaredTypes, sanitizeEntry; cbn [name eligibility category amount deadline].
  split; [|split; [|split; [|split]]].
  - destruct Hn as [Hn|[Hn|Hn]]; [exact Hn|rewrite Hn in Hname; discriminate..].
  - unfold orElse. destruct He as [(s & ->)|[->| ->]]; cbn; [|eexists; reflexivity..].
    destruct s; eexists; reflexivity.
  - unfold orElse. destruct Hc as [(s & ->)|[->| ->]]; cbn; [|eexists; reflexivity..].
    destruct s; eexists; reflexivity.
  - destruct Ha as [(n & ->)|[(s & ->)|[->| ->]]]; cbn;
      [left; eauto|right; eexists; reflexivity|left; eauto..].
  - unfold orElse. destruct Hd as [(s & ->)|[->| ->]]; cbn; [|now right..].
    destruct s; [now right|left; eexists; reflexivity].
Qed.

Lemma matchesQuery_total q s : declaredTypes s -> exists b, matchesQuery q s = Ok b.
Proof.
  intros ((n & Hn) & (e & He) & (c & Hc) & Ha & _). unfold matchesQuery.
  assert (Hconv : convertible (amount s) = true)
    by (destruct Ha as [(a & ->)|(a & ->)]; reflexivity).
  rewrite Hn, He, Hc, Hconv. unfold orElse. cbn.
  destruct (includes (toLowerCase n) q); [eauto|].
  destruct e; cbn; (destruct (includes _ q); [eauto|]);
    destruct c; cbn; (destruct (includes _ q); eauto).
Qed.

Lemma withinWindow_total now days s :
  declaredTypes s -> exists b, withinWindow now days s = Ok b.
Proof.
  intros (_ & _ & _ & _ & Hd). apply withinWindow_returns.
  destruct Hd as [(d & ->)| ->]; reflexivity.
Qed.

Lemma parseAmount_total v :
  (exists n, v = VNum n) \/ isText v -> exists n, parseAmount v = Ok n.
Proof.
  intros [(n & ->)|(s & ->)]; unfold parseAmount; [eauto|].
  destruct (endsWith _ (js "k")); eauto.
Qed.

Lemma filtered_incl c now l out :
  filtered c now l = Ok out -> forall x, In x out -> In x l.
Proof.
  unfold filtered. intros Hf x Hx.
  apply bind_Ok in Hf. destruct Hf as (l1 & H1 & Hf).
  apply bind_Ok in Hf. destruct Hf as (l3 & H3 & Hf).
  apply bind_Ok in Hf. destruct Hf as (l4 & H4 & Hf).
  assert (Hx4 : In x l4).
  { destruct (amountOrder c).
    - apply sortByE_perm in Hf. eapply Permutation_in; eassumption.
    - now injection Hf as <-. }
  assert (Hx3 : In x l3).
  { destruct (deadlineWindow c);
      first [injection H4 as <-; exact Hx4 | eapply filterE_incl; eassumption]. }
  assert (Hx1 : In x l1).
  { destruct (chosen (eligibilityFilter c)).
    - eapply filterE_incl in H3; [|exact Hx3].
      destruct (chosen (categoryFilter c));
        first [exact H3 | apply List.filter_In in H3; apply H3].
    - injection H3 as <-.
      destruct (chosen (categoryFilter c));
        first [exact Hx3 | apply List.filter_In in Hx3; apply Hx3]. }
  destruct (trim (query c)).
  - injection H1 as <-. exact Hx1.
  - eapply filterE_incl; eassumption.
Qed.
Lemma includesOf_total s e :
  declaredTypes s -> exists b, includesOf (orElse (eligibility s) (VStr [])) e = Ok b.
Proof.
  intros (_ & (t & ->) & _). unfold orElse. destruct (truthy (VStr t)); cbn; eauto.
Qed.

Lemma amountComparator_total o a b :
  declaredTypes a -> declaredTypes b -> exists n, amountComparator o a b = Ok n.
Proof.
  intros (_ & _ & _ & Ha & _) (_ & _ & _ & Hb & _). unfold amountComparator.
  destruct (parseAmount_total _ Ha) as (x & ->).
  destruct (parseAmount_total _ Hb) as (y & ->). cbn. eauto.
Qed.

Lemma filtered_total c now l :
  (forall x, In x l -> declaredTypes x) -> exists out, filtered c now l = Ok out.
Proof.
  intros Hl. unfold filtered.
  assert (H1 : exists l1,
    match trim (query c) with
    | [] => Ok l
    | _ => filterE (matchesQuery (toLowerCase (query c))) l
    end = Ok l1 /\ forall x, In x l1 -> declaredTypes x).
  { destruct (trim (query c)); [eauto|].
    destruct (filterE_total (matchesQuery (toLowerCase (query c))) l) as (l1 & E).
    - intros x Hx. apply matchesQuery_total, Hl, Hx.
    - exists l1. split; [exact E|]. intros x Hx. eapply Hl, filterE_incl; eassumption. }
  destruct H1 as (l1 & -> & Hl1). cbn [mbind result_bind].
  set (l2 := match chosen (categoryFilter c) with Some _ => _ | None => l1 end).
  assert (Hl2 : forall x, In x l2 -> declaredTypes x).
  { intros x Hx. apply Hl1. subst l2.
    destruct (chosen (categoryFilter c)); [|exact Hx].
    apply List.filter_In in Hx. apply Hx. }
  clearbody l2.
  assert (H3 : exists l3,
    match chosen (eligibilityFilter c) with
    | Some e => filterE (fun s => includesOf (orElse (eligibility s) (VStr [])) e) l2
    | None => Ok l2
    end = Ok l3 /\ forall x, In x l3 -> declaredTypes x).
  { destruct (chosen (eligibilityFilter c)) as [e|]; [|eauto].
    destruct (filterE_total
                (fun s => includesOf (orElse (eligibility s) (VStr [])) e) l2) as (l3 & E).
    - intros x Hx. apply includesOf_total, Hl2, Hx.
    - exists l3. split; [exact E|]. intros x Hx. eapply Hl2, filterE_incl; eassumption. }
  destruct H3 as (l3 & -> & Hl3). cbn [mbind result_bind].
  assert (H4 : exists l4,
    match deadlineWindow c with
    | WAll => Ok l3
    | w => filterE (withinWindow now (windowDays w)) l3
    end = Ok l4 /\ forall x, In x l4 -> declaredTypes x).
  { assert (Hw : forall days, exists l4,
              filterE (withinWindow now days) l3 = Ok l4
              /\ forall x, In x l4 -> declaredTypes x).
    { intros days. destruct (filterE_total (withinWindow now days) l3) as (l4 & E).
      - intros x Hx. apply withinWindow_total, Hl3, Hx.
      - exists l4. split; [exact E|].
        intros x Hx. eapply Hl3, filterE_incl; eassumption. }
    destruct (deadlineWindow c); [apply Hw..|eauto]. }
  destruct H4 as (l4 & -> & Hl4). cbn [mbind result_bind].
  destruct (amountOrder c) as [o|]; [|eauto].
  apply sortByE_total. intros x y Hx Hy. apply amountComparator_total; auto.
Qed.

End FilterEngine.

(** C8. For every API response and every combination of filter controls:
    the catalog the component keeps consists of the entries whose id and
    name are both present (truthy), the rest being dropped; whenever the
    filter engine returns, every record of its output is a record of the
    catalog it was given; and it does return, raising nothing, when the
    name, eligibility, category and deadline of every entry are strings,
    null or absent and its amount is a number, a string, null or
    absent. *)
Theorem filtered_subset_of_catalog :
  forall (H : Host) (c : ScholarshipsTrackerSection.Criteria) (now : Z) (raw : list JsVal),
    let catalog := ScholarshipsTrackerSection.sanitizeScholarships raw in
    (forall x, In x catalog <->
       exists e, In e raw /\ x = ScholarshipsTrackerSection.sanitizeEntry e
                 /\ truthy e = true
                 /\ truthy (getProp e (js "id")) = true
                 /\ truthy (getProp e (js "name")) = true)
    /\ (forall l out,
          ScholarshipsTrackerSection.filtered c now l = Ok out ->
          forall x, In x out -> In x l)
    /\ ((forall e, In e raw -> declaredEntry e) ->
        exists out,
          ScholarshipsTrackerSection.filtered c now catalog = Ok out
          /\ forall x, In x out -> In x catalog).
Proof.
  intros H c now raw catalog. split; [|split].
  - intros x. unfold catalog. rewrite sanitizeScholarships_In.
    split; intros (e & He & Hrest); exists e; (split; [exact He|]).
    + destruct Hrest as [Hk ->]. apply keepEntry_true in Hk. tauto.
    + destruct Hrest as (-> & Hk). split; [|reflexivity]. apply keepEntry_true. exact Hk.
  - intros l out. apply filtered_incl.
  - intros Hraw.
    destruct (filtered_total c now catalog) as (out & Hout).
    + intros x Hx. apply sanitizeScholarships_In in Hx.
      destruct Hx as (e & He & Hk & ->). apply sanitizeEntry_declared; auto.
    + exists out. split; [exact Hout|]. exact (filtered_incl c now catalog out Hout).
Qed.

Section FilterExamples.
Import ScholarshipsTrackerSection.

Example filtered_sample :
  idsOf (filtered (H := ExampleHost.host) sortedSearch sampleNow sampleCatalog)
  = Ok [VStr (js "s1"); VStr (js "s2"); VStr (js "s5")].
Proof. reflexivity. Qed.

Example malformed_sanitized :
  List.map id (sanitizeScholarships malformedResponse) = [VStr (js "x1")].
Proof. reflexivity. Qed.

(** The entry with a numeric name has an id and a name, so it is kept; a
    text query then calls [toLowerCase] on the number and a TypeError
    escapes from the filter. *)
Lemma filtered_raises_on_numeric_name :
  List.map name (sanitizeScholarships malformedResponse) = [VNum (ofZ 42)]
  /\ filtered (H := ExampleHost.host) textSearch sampleNow
       (sanitizeScholarships malformedResponse)
     = Throw TypeError.
Proof. split; reflexivity. Qed.

Example filtered_raises_on_boolean_amount :
  filtered (H := ExampleHost.host)
    {| query := []; categoryFilter := None; eligibilityFilter := None;
       amountOrder := Some asc; deadlineWindow := WAll |} sampleNow
    (sanitizeScholarships
       [ VObj [ (js "id", VStr (js "a")); (js "name", VStr (js "A"));
                (js "amount", VBool true) ];
         VObj [ (js "id", VStr (js "b")); (js "name", VStr (js "B"));
                (js "amount", VNum (ofZ 5)) ] ])
  = Throw TypeError.
Proof. reflexivity. Qed.

Lemma sampleResponse_declared : forall e, In e sampleResponse -> declaredEntry e.
Proof.
  intros e He. cbn in He.
  repeat (destruct He as [<-|He];
          [unfold declaredEntry, isText, isAbsent; cbn; repeat split; eauto 6|]).
  destruct He.
Qed.

Lemma filtered_subset_of_catalog_witness :
  exists out,
    filtered (H := ExampleHost.host) sortedSearch sampleNow sampleCatalog = Ok out
    /\ forall x, In x out -> In x sampleCatalog.
Proof.
  apply (filtered_subset_of_catalog ExampleHost.host sortedSearch sampleNow sampleResponse).
  exact sampleResponse_declared.
Defined.

End FilterExamples.

(** ** The tracker *)

Section TrackerFacts.
Import ScholarshipsTrackerSection.
Context `{Host}.

(** The [reduce] over the document names, from any object [acc]. *)
Lemma seedChecklist_fold (docs : list JsVal) (acc : gmap jsstring bool) (d : jsstring) :
  List.fold_left assignFalse docs acc !! d
  = if bool_decide (d ∈ List.map ToString docs)
       && negb (bool_decide (d = js "__proto__"))
    then Some false else acc !! d.
Proof.
  revert acc. induction docs as [|x docs IH]; intros acc.
  - cbn [List.fold_left List.map]. rewrite bool_decide_eq_false_2; [reflexivity|].
    apply not_elem_of_nil.
  - cbn [List.fold_left List.map]. rewrite IH. clear IH. unfold assignFalse.
    destruct (decide (d = js "__proto__")) as [Hd|Hd].
    + rewrite !(bool_decide_eq_true_2 (d = js "__proto__") Hd), !andb_false_r.
      case_bool_decide as Hp; [reflexivity|].
      apply lookup_insert_ne. congruence.
    + rewrite !(bool_decide_eq_false_2 (d = js "__proto__") Hd), !andb_true_r.
      destruct (decide (d ∈ List.map ToString docs)) as [Hin|Hout].
      * rewrite (bool_decide_eq_true_2 _ Hin).
        rewrite bool_decide_eq_true_2; [reflexivity|]. apply elem_of_cons. now right.
      * rewrite (bool_decide_eq_false_2 _ Hout).
        destruct (decide (d = ToString x)) as [->|Hne].
        -- rewrite (bool_decide_eq_false_2 _ Hd).
           rewrite bool_decide_eq_true_2 by (apply elem_of_cons; now left).
           apply lookup_insert_eq.
        -- rewrite (bool_decide_eq_false_2 (d ∈ ToString x :: _))
             by (rewrite elem_of_cons; tauto).
           case_bool_decide as Hp; [reflexivity|].
           apply lookup_insert_ne. congruence.
Qed.

(** The seeded checklist has one unchecked box per document name, the
    name [__proto__] apart, which gets none. *)
Lemma seedChecklist_spec (docs : list JsVal) (d : jsstring) :
  seedChecklist docs !! d
  = if bool_decide (d ∈ List.map ToString docs)
       && negb (bool_decide (d = js "__proto__"))
    then Some false else None.
Proof.
  unfold seedChecklist. rewrite seedChecklist_fold, lookup_empty. reflexivity.
Qed.

Lemma seedTracked_existing now s tprev t :
  tprev !! ToString (id s) = Some t -> seedTracked now s tprev = Ok tprev.
Proof.
  intros Ht. unfold seedTracked. rewrite Ht.
  rewrite bool_decide_eq_true_2 by eauto. reflexivity.
Qed.

Lemma seedTracked_cases now s tprev tnext :
  seedTracked now s tprev = Ok tnext ->
  tnext = tprev
  \/ (tprev !! ToString (id s) = None
      /\ exists r,
           suggestReminder now (deadline s) = Ok r
           /\ tnext = <[ToString (id s) :=
                          {| itemId := id s; status := planning;
                             reminderDate := Some r;
                             checklist := seedChecklist (checklistDocs s);
                             savedAt := now |}]> tprev).
Proof.
  unfold seedTracked. case_bool_decide as Hsome; cbn [orb].
  - intros [= <-]. now left.
  - destruct (bool_decide _); [intros [= <-]; now left|].
    intros Hb. apply bind_Ok in Hb. destruct Hb as (r & Hr & [= <-]).
    right. split; [|eauto].
    destruct (tprev !! ToString (id s)) eqn:E; [|reflexivity].
    exfalso. apply Hsome. eauto.
Qed.

End TrackerFacts.

Lemma removed_not_saved (k : jsstring) (ids : gset jsstring) : k ∉ ids ∖ {[k]}.
Proof.
  rewrite elem_of_difference, elem_of_singleton. tauto.
Qed.

(** C6. For every scholarship item and tracker state: toggling an item
    that is saved removes its id from the saved ids and leaves the
    tracked records as they are; toggling it again puts the id back and,
    if a tracked record exists for the id, again leaves all tracked
    records as they are, so status, checklist, reminder and save time are
    those from before the unsave. A toggle changes the tracked records
    only by adding a record for an id that has none, and that record has
    status planning, the suggested reminder and one unchecked box per
    document of the item, or per default document when the item lists
    none; a document named [__proto__] gets no box. Such a record is
    added on every save of an item that is not saved and has no record,
    provided the reminder suggestion returns and the id is not the name
    of a member of [Object.prototype]. *)
Theorem handleSaveToggle_soft_delete :
  forall (H : Host) (now now' : Z) (s : ScholarshipsTrackerSection.Scholarship)
         (st : ScholarshipsTrackerSection.Tracker),
    let k := ToString (ScholarshipsTrackerSection.id s) in
    (k ∈ ScholarshipsTrackerSection.savedIds st ->
       exists st1,
         ScholarshipsTrackerSection.handleSaveToggle now s st = Ok st1
         /\ ScholarshipsTrackerSection.savedIds st1 = ScholarshipsTrackerSection.savedIds st ∖ {[k]}
         /\ (k ∉ ScholarshipsTrackerSection.savedIds st1)
         /\ ScholarshipsTrackerSection.tracked st1 = ScholarshipsTrackerSection.tracked st
         /\ forall t, ScholarshipsTrackerSection.tracked st !! k = Some t ->
              exists st2,
                ScholarshipsTrackerSection.handleSaveToggle now' s st1 = Ok st2
                /\ ScholarshipsTrackerSection.savedIds st2 = ScholarshipsTrackerSection.savedIds st
                /\ ScholarshipsTrackerSection.tracked st2 = ScholarshipsTrackerSection.tracked st
                /\ ScholarshipsTrackerSection.tracked st2 !! k = Some t)
    /\ (forall st1,
          ScholarshipsTrackerSection.handleSaveToggle now s st = Ok st1 ->
          ScholarshipsTrackerSection.tracked st1 = ScholarshipsTrackerSection.tracked st
          \/ ((k ∉ ScholarshipsTrackerSection.savedIds st)
              /\ ScholarshipsTrackerSection.tracked st !! k = None
              /\ exists item,
                   ScholarshipsTrackerSection.tracked st1
                   = <[k := item]> (ScholarshipsTrackerSection.tracked st)
                   /\ ScholarshipsTrackerSection.status item = ScholarshipsTrackerSection.planning
                   /\ ScholarshipsTrackerSection.savedAt item = now
                   /\ (exists r,
                         ScholarshipsTrackerSection.suggestReminder now
                           (ScholarshipsTrackerSection.deadline s) = Ok r
                         /\ ScholarshipsTrackerSection.reminderDate item = Some r)
                   /\ forall d,
                        ScholarshipsTrackerSection.checklist item !! d
                        = if bool_decide
                               (d ∈ List.map ToString
                                      (ScholarshipsTrackerSection.checklistDocs s))
                             && negb (bool_decide (d = js "__proto__"))
                          then Some false else None))
    /\ (ScholarshipsTrackerSection.checklistDocs s
        = match ScholarshipsTrackerSection.documents s with
          | Some [] | None => ScholarshipsTrackerSection.DEFAULT_DOCS
          | Some docs => docs
          end)
    /\ (forall r,
          k ∉ ScholarshipsTrackerSection.savedIds st ->
          ScholarshipsTrackerSection.tracked st !! k = None ->
          k ∉ ScholarshipsTrackerSection.inheritedKeys ->
          ScholarshipsTrackerSection.suggestReminder now
            (ScholarshipsTrackerSection.deadline s) = Ok r ->
          exists st1 item,
            ScholarshipsTrackerSection.handleSaveToggle now s st = Ok st1
            /\ ScholarshipsTrackerSection.savedIds st1
               = ScholarshipsTrackerSection.savedIds st ∪ {[k]}
            /\ ScholarshipsTrackerSection.tracked st1
               = <[k := item]> (ScholarshipsTrackerSection.tracked st)
            /\ ScholarshipsTrackerSection.status item = ScholarshipsTrackerSection.planning
            /\ ScholarshipsTrackerSection.reminderDate item = Some r
            /\ ScholarshipsTrackerSection.savedAt item = now
            /\ ScholarshipsTrackerSection.checklist item
               = ScholarshipsTrackerSection.seedChecklist
                   (ScholarshipsTrackerSection.checklistDocs s)).
Proof.
  intros H now now' s st k. split; [|split; [|split]].
  - intros Hin. unfold ScholarshipsTrackerSection.handleSaveToggle. fold k.
    rewrite bool_decide_eq_true_2 by assumption.
    eexists. split; [reflexivity|]. cbn.
    split; [reflexivity|]. split; [apply removed_not_saved|]. split; [reflexivity|].
    intros t Ht. rewrite bool_decide_eq_false_2 by apply removed_not_saved.
    rewrite (seedTracked_existing now' s _ t Ht). cbn.
    eexists. split; [reflexivity|]. cbn. split; [|split; [reflexivity|exact Ht]].
    apply set_eq. intros x. rewrite elem_of_union, elem_of_difference, elem_of_singleton.
    destruct (decide (x = k)) as [->|]; tauto.
  - intros st1. unfold ScholarshipsTrackerSection.handleSaveToggle. fold k.
    case_bool_decide as Hin.
    + intros [= <-]. now left.
    + intros Hb. apply bind_Ok in Hb. destruct Hb as (t & Ht & [= <-]). cbn.
      apply seedTracked_cases in Ht. destruct Ht as [->|(Hnone & r & Hr & ->)]; [now left|].
      right. split; [exact Hin|]. split; [exact Hnone|].
      eexists. split; [reflexivity|]. cbn.
      split; [reflexivity|]. split; [reflexivity|]. split; [eauto|].
      intros d. apply seedChecklist_spec.
  - unfold ScholarshipsTrackerSection.checklistDocs.
    destruct (ScholarshipsTrackerSection.documents s) as [[|]|]; reflexivity.
  - intros r Hin Hnone Hk Hr.
    unfold ScholarshipsTrackerSection.handleSaveToggle,
      ScholarshipsTrackerSection.seedTracked. fold k.
    rewrite (bool_decide_eq_false_2 _ Hin), Hnone, (bool_decide_eq_false_2 _ Hk), Hr.
    rewrite bool_decide_eq_false_2 by (intros [x Hx]; discriminate).
    cbn. eexists _, _. split; [reflexivity|]. cbn. repeat split.
Qed.

Section TrackerExamples.
Import ScholarshipsTrackerSection.

Lemma handleSaveToggle_soft_delete_witness :
  exists st1 st2,
    handleSaveToggle (H := ExampleHost.host) sampleNow meritGrant trackerSample = Ok st1
    /\ (js "s1" ∉ savedIds st1)
    /\ tracked st1 = tracked trackerSample
    /\ handleSaveToggle (H := ExampleHost.host) (sampleNow + 60000) meritGrant st1 = Ok st2
    /\ savedIds st2 = savedIds trackerSample
    /\ tracked st2 !! js "s1" = Some meritGrantItem.
Proof.
  destruct (handleSaveToggle_soft_delete ExampleHost.host sampleNow (sampleNow + 60000)
              meritGrant trackerSample) as [Hsaved _].
  destruct Hsaved as (st1 & Hst1 & _ & Hout & Htracked & Hagain).
  { change (js "s1" ∈ ({[ js "s1" ]} : gset jsstring)).
    apply elem_of_singleton. reflexivity. }
  destruct (Hagain meritGrantItem) as (st2 & Hst2 & Hids & _ & Hitem).
  { change (({[ js "s1" := meritGrantItem ]} : gmap jsstring TrackedItem) !! js "s1"
            = Some meritGrantItem).
    apply lookup_singleton_eq. }
  exists st1, st2. repeat split; assumption.
Defined.

End TrackerExamples.

(** ** The reminder suggestion *)

Lemma timeClip_in_range t : - maxTime <= t <= maxTime -> timeClip t = Some t.
Proof.
  intros Ht. unfold timeClip. destruct (Z.leb_spec (Z.abs t) maxTime); [reflexivity|lia].
Qed.

Lemma timeClip_Some t d : timeClip t = Some d -> d = t /\ - maxTime <= t <= maxTime.
Proof.
  unfold timeClip. destruct (Z.leb_spec (Z.abs t) maxTime); [|discriminate].
  intros [= <-]. lia.
Qed.

Lemma Qtrunc_range q m :
  (Qabs q <= inject_Z m)%Q -> - m <= Qtrunc q <= m.
Proof.
  destruct q as [n d]. unfold Qle, Qtrunc. cbn. rewrite Z.mul_1_r. intros Hle.
  assert (Habs : Z.abs (n ÷ Z.pos d) <= m).
  { rewrite <- (Z.quot_abs n (Z.pos d)) by lia.
    rewrite Z.quot_div_nonneg by lia.
    apply Z.div_le_upper_bound; lia. }
  lia.
Qed.

Lemma parseDate_range `{Host} s d : parseDate s = Some d -> - maxTime <= d <= maxTime.
Proof.
  unfold parseDate. destruct (dateParse s) as [t|]; cbn; [|discriminate].
  intros Ht. apply timeClip_Some in Ht. destruct Ht as [-> ?]. assumption.
Qed.

Lemma newDate_range `{Host} v d :
  newDate v = Ok (Some d) -> - maxTime <= d <= maxTime.
Proof.
  assert (Hclip : forall t, Ok (timeClip t) = Ok (Some d) -> - maxTime <= d <= maxTime).
  { intros t E. assert (Ht : timeClip t = Some d) by congruence.
    apply timeClip_Some in Ht. destruct Ht as [-> ?]. assumption. }
  assert (Hparse : forall s, Ok (parseDate s) = Ok (Some d) -> - maxTime <= d <= maxTime).
  { intros s E. apply (parseDate_range s). congruence. }
  destruct v as [| |b|n|s|l|o]; cbn [newDate];
    try discriminate; try apply Hclip; try apply Hparse.
  - destruct n as [| | |q]; try discriminate. unfold timeClipQ.
    destruct (Qle_bool (Qabs q) (inject_Z maxTime)) eqn:E; [|discriminate].
    intros [= <-]. apply Qle_bool_iff in E. now apply Qtrunc_range.
  - destruct (convertible (VArr l)); [apply Hparse|discriminate].
  - destruct (convertible (VObj o)); [apply Hparse|discriminate].
Qed.

Section Reminder.
Import ScholarshipsTrackerSection.
Context `{Host} (off : Z) (Hoff : fixedOffset _ off).

Lemma addLocalDays_fixed k t : addLocalDays k (Some t) = timeClip (t + k * msPerDay).
Proof. unfold addLocalDays. cbn. rewrite !Hoff. f_equal. lia. Qed.

Lemma setLocalHour_fixed h t :
  setLocalHour h (Some t)
  = timeClip ((t + off) `div` msPerDay * msPerDay + h * msPerHour - off).
Proof. unfold setLocalHour. cbn. rewrite !Hoff. reflexivity. Qed.

Lemma tomorrow_fixed now :
  - maxTime <= now -> now + 2 * msPerDay <= maxTime ->
  setLocalHour 9 (addLocalDays 1 (Some now)) = Some (tomorrowAtNine off now).
Proof.
  intros Hlo Hhi. rewrite addLocalDays_fixed.
  rewrite timeClip_in_range by (unfold msPerDay, maxTime in *; lia).
  rewrite setLocalHour_fixed.
  assert (E : (now + 1 * msPerDay + off) `div` msPerDay
              = (now + off) `div` msPerDay + 1).
  { replace (now + 1 * msPerDay + off) with (now + off + 1 * msPerDay) by lia.
    rewrite Z.div_add by (unfold msPerDay; lia). reflexivity. }
  rewrite E. unfold tomorrowAtNine. apply timeClip_in_range.
  unfold msPerDay, msPerHour, maxTime in *.
  Z.to_euclidean_division_equations. lia.
Qed.

End Reminder.

(** The suggestion away from the ends of the range of dates. With no
    deadline (absent, null or empty) it is null, and so it is for a
    deadline that does not parse. On a host whose local time is UTC plus
    a fixed offset, at a current time inside the range of dates: for a
    deadline that parses to the date d, with d minus 5 days still a
    representable date, the suggestion is d minus 5 days, unless that
    moment is before now, in which case it is 09:00 local time on the
    next local calendar day. *)
Lemma suggestReminder_spec :
  forall (H : Host) (now : Z) (deadline : JsVal),
    (truthy deadline = false ->
       ScholarshipsTrackerSection.suggestReminder now deadline = Ok None)
    /\ (newDate deadline = Ok None ->
          ScholarshipsTrackerSection.suggestReminder now deadline = Ok None)
    /\ (forall e, truthy deadline = true -> newDate deadline = Throw e ->
          ScholarshipsTrackerSection.suggestReminder now deadline = Throw e)
    /\ (forall off d,
          fixedOffset H off ->
          - maxTime <= now -> now + 2 * msPerDay <= maxTime ->
          truthy deadline = true -> newDate deadline = Ok (Some d) ->
          - maxTime <= d - 5 * msPerDay ->
          ScholarshipsTrackerSection.suggestReminder now deadline
          = Ok (Some (if d - 5 * msPerDay <? now
                      then tomorrowAtNine off now
                      else d - 5 * msPerDay)))
    /\ (forall off,
          (tomorrowAtNine off now + off) `mod` msPerDay = 9 * msPerHour
          /\ (tomorrowAtNine off now + off) `div` msPerDay
             = (now + off) `div` msPerDay + 1
          /\ now < tomorrowAtNine off now).
Proof.
  intros H now deadline. split; [|split; [|split; [|split]]].
  - intros Ht. unfold ScholarshipsTrackerSection.suggestReminder. now rewrite Ht.
  - intros Hd. unfold ScholarshipsTrackerSection.suggestReminder.
    rewrite Hd. now destruct (truthy deadline).
  - intros e Ht Hd. unfold ScholarshipsTrackerSection.suggestReminder.
    rewrite Ht, Hd. reflexivity.
  - intros off d Hoff Hlo Hhi Ht Hd Hmin. unfold ScholarshipsTrackerSection.suggestReminder.
    rewrite Ht, Hd. cbn [negb mbind result_bind].
    pose proof (newDate_range _ _ Hd) as Hrange.
    rewrite (addLocalDays_fixed off Hoff).
    replace (d + -5 * msPerDay) with (d - 5 * msPerDay) by lia.
    rewrite timeClip_in_range by (unfold msPerDay in *; lia).
    cbn [dateLt]. destruct (d - 5 * msPerDay <? now).
    + rewrite (tomorrow_fixed off Hoff now Hlo Hhi). reflexivity.
    + reflexivity.
  - intros off. unfold tomorrowAtNine, msPerDay, msPerHour.
    repeat split; Z.to_euclidean_division_equations; lia.
Qed.

(** On such a host, a deadline within five days of the earliest date
    makes the suggestion raise, whatever the current time: the day five
    days before it is not a date, the comparison with now is false, and
    [toISOString] is called on the invalid date. *)
Lemma suggestReminder_raises_before_range :
  forall (H : Host) (off now d : Z) (deadline : JsVal),
    fixedOffset H off ->
    truthy deadline = true -> newDate deadline = Ok (Some d) ->
    d - 5 * msPerDay < - maxTime ->
    ScholarshipsTrackerSection.suggestReminder now deadline = Throw RangeError.
Proof.
  intros H off now d deadline Hoff Ht Hd Hlow.
  unfold ScholarshipsTrackerSection.suggestReminder.
  rewrite Ht, Hd. cbn [negb mbind result_bind].
  rewrite (addLocalDays_fixed off Hoff).
  assert (E : timeClip (d + -5 * msPerDay) = None).
  { unfold timeClip. destruct (Z.leb_spec (Z.abs (d + -5 * msPerDay)) maxTime);
      [lia|reflexivity]. }
  rewrite E. reflexivity.
Qed.

Section ReminderExamples.
Import ScholarshipsTrackerSection.

Lemma exampleHost_fixedOffset : fixedOffset ExampleHost.host 19800000.
Proof. intros t b. reflexivity. Qed.

(** A deadline on 2024-06-19 gives 2024-06-14; a deadline on 2024-05-12,
    whose reminder day has passed on 2024-05-10, gives the next morning,
    09:00 at +05:30. *)
Example suggestReminder_samples :
  suggestReminder (H := ExampleHost.host) sampleNow (VStr (js "2024-06-19"))
  = Ok (Some 1718323200000)
  /\ suggestReminder (H := ExampleHost.host) sampleNow (VStr (js "2024-05-12"))
     = Ok (Some 1715398200000).
Proof.
  assert (Hlo : - maxTime <= sampleNow) by (unfold maxTime, sampleNow; lia).
  assert (Hhi : sampleNow + 2 * msPerDay <= maxTime)
    by (unfold maxTime, sampleNow, msPerDay; lia).
  split.
  - destruct (suggestReminder_spec ExampleHost.host sampleNow (VStr (js "2024-06-19")))
      as (_ & _ & _ & Hd & _).
    apply (Hd 19800000 1718755200000 exampleHost_fixedOffset Hlo Hhi);
      [reflexivity|reflexivity|].
    unfold maxTime, msPerDay. lia.
  - destruct (suggestReminder_spec ExampleHost.host sampleNow (VStr (js "2024-05-12")))
      as (_ & _ & _ & Hd & _).
    apply (Hd 19800000 1715472000000 exampleHost_fixedOffset Hlo Hhi);
      [reflexivity|reflexivity|].
    unfold maxTime, msPerDay. lia.
Qed.

Example suggestReminder_absent :
  List.map (suggestReminder (H := ExampleHost.host) sampleNow)
    [VNull; VUndefined; VStr []; VStr (js "next week")]
  = [Ok None; Ok None; Ok None; Ok None].
Proof. reflexivity. Qed.

End ReminderExamples.

(** C7. The suggestion at the deadline [-271821-04-20], the earliest
    date a [Date] can hold, whatever the current time. The deadline is
    a string and parses to a valid date, so the guard against an invalid
    deadline lets it pass; the day five days before it is not a date,
    the comparison of that day with now is false, and [toISOString]
    raises a RangeError on it. The function returns neither d minus 5
    days nor the morning of the next day, nor null as it does for a
    deadline that does not parse. *)
Theorem suggestReminder_raises_at_earliest_date :
  forall now : Z,
    truthy (VStr (js "-271821-04-20")) = true
    /\ newDate (H := ExampleHost.host) (VStr (js "-271821-04-20"))
       = Ok (Some (- maxTime))
    /\ addLocalDays (H := ExampleHost.host) (-5) (Some (- maxTime)) = None
    /\ dateLt None (Some now) = false
    /\ toISOString None = Throw RangeError
    /\ ScholarshipsTrackerSection.suggestReminder (H := ExampleHost.host) now
         (VStr (js "-271821-04-20"))
       = Throw RangeError
    /\ ScholarshipsTrackerSection.suggestReminder (H := ExampleHost.host) now
         (VStr (js "next week"))
       = Ok None.
Proof.
  intros now. repeat split; reflexivity.
Qed.

(** ** Sort keys of the recommendation lists *)

Lemma sortBy_spec {A} (cmp : A -> A -> number) (dom : A -> Prop) l :
  consistentOn cmp dom -> List.Forall dom l ->
  Permutation (sortBy cmp l) l
  /\ StronglySorted (precedes cmp) (sortBy cmp l)
  /\ forall z, dom z ->
       List.filter (tiedWith cmp z) (sortBy cmp l) = List.filter (tiedWith cmp z) l.
Proof.
  intros Hc Hl. split; [apply sortBy_perm|]. split.
  - eapply sortBy_sorted; eassumption.
  - intros z Hz. eapply sortBy_stable; eassumption.
Qed.

Lemma nsign_ofZ z : nsign (ofZ z) = Z.compare z 0.
Proof. cbn. unfold Qcompare. cbn. now rewrite Z.mul_1_r. Qed.

Lemma precedes_collation `{Host} {A} (f : A -> jsstring) x y :
  precedes (fun a b => ofZ (localeCompare (f a) (f b))) x y
  <-> localeCompare (f x) (f y) <= 0.
Proof. unfold precedes. rewrite nsign_ofZ. reflexivity. Qed.

Lemma tiedWith_collation `{Host} {A} (f : A -> jsstring) x y :
  tiedWith (fun a b => ofZ (localeCompare (f a) (f b))) x y = true
  <-> localeCompare (f x) (f y) = 0.
Proof.
  unfold tiedWith. rewrite nsign_ofZ.
  destruct (Z.compare_spec (localeCompare (f x) (f y)) 0); split;
    intros; try discriminate; lia.
Qed.

Lemma collation_consistentOn `{Host} {A} (f : A -> jsstring) :
  consistentCollation _ ->
  consistentOn (fun a b => ofZ (localeCompare (f a) (f b))) (fun _ => True).
Proof.
  intros [Hanti Htrans]. split.
  - intros x y _ _. rewrite !nsign_ofZ. specialize (Hanti (f x) (f y)).
    destruct (Z.compare_spec (localeCompare (f x) (f y)) 0);
      destruct (Z.compare_spec (localeCompare (f y) (f x)) 0);
      cbn; try reflexivity; lia.
  - intros x y z _ _ _. rewrite !precedes_collation. apply Htrans.
Qed.

Lemma numeric_comparator `{Host} k field :
  numericField k = Some field ->
  CareerRecommendationsSection.courseComparator k
  = fun a b => nsub (CareerRecommendationsSection.orZero (field b))
                    (CareerRecommendationsSection.orZero (field a)).
Proof. destruct k; intros [= <-]; reflexivity. Qed.

Lemma precedes_descending {A} (key : A -> number) x y :
  isNaN (key x) = false -> isNaN (key y) = false ->
  precedes (fun a b => nsub (key b) (key a)) x y <-> nle (key y) (key x).
Proof.
  intros Hx Hy. unfold precedes, nle. now rewrite nsign_nsub.
Qed.

Lemma tiedWith_collation_eqb `{Host} {A} (f : A -> jsstring) x y :
  tiedWith (fun a b => ofZ (localeCompare (f a) (f b))) x y
  = (localeCompare (f x) (f y) =? 0).
Proof.
  unfold tiedWith. rewrite nsign_ofZ.
  destruct (Z.compare_spec (localeCompare (f x) (f y)) 0);
    destruct (Z.eqb_spec (localeCompare (f x) (f y)) 0); try reflexivity; lia.
Qed.

(** Sorting by a collated text field: the result is a rearrangement of
    the input, ascending in the collation, and stable. *)
Lemma sortBy_collation `{Host} {A} (f : A -> jsstring) (l : list A) :
  consistentCollation _ ->
  let out := sortBy (fun a b => ofZ (localeCompare (f a) (f b))) l in
  Permutation out l
  /\ StronglySorted (fun a b => localeCompare (f a) (f b) <= 0) out
  /\ forall c,
       List.filter (fun x => localeCompare (f c) (f x) =? 0) out
       = List.filter (fun x => localeCompare (f c) (f x) =? 0) l.
Proof.
  intros Hc out.
  destruct (sortBy_spec (fun a b => ofZ (localeCompare (f a) (f b)))
              (fun _ => True) l (collation_consistentOn f Hc))
    as (Hperm & Hsorted & Hstable).
  { apply List.Forall_forall. trivial. }
  split; [exact Hperm|]. split.
  - eapply StronglySorted_weaken; [|exact Hsorted].
    intros x y. apply precedes_collation.
  - intros c. specialize (Hstable c I).
    assert (E : forall x,
               (localeCompare (f c) (f x) =? 0)
               = tiedWith (fun a b => ofZ (localeCompare (f a) (f b))) c x)
      by (intros x; symmetry; apply tiedWith_collation_eqb).
    rewrite (List.filter_ext _ _ E out), (List.filter_ext _ _ E l). exact Hstable.
Qed.

(** Sorting by a numeric field, highest first: a rearrangement of the
    input, descending in the field, and stable, as long as no value of
    the field is NaN. *)
Lemma sortBy_descending {A} (key : A -> number) (l : list A) :
  (forall c, In c l -> isNaN (key c) = false) ->
  let cmp := fun a b => nsub (key b) (key a) in
  let out := sortBy cmp l in
  Permutation out l
  /\ StronglySorted (fun a b => nle (key b) (key a)) out
  /\ forall c, In c l ->
       List.filter (tiedWith cmp c) out = List.filter (tiedWith cmp c) l.
Proof.
  intros Hl cmp out.
  destruct (sortBy_spec cmp (fun a => isNaN (key a) = false) l
              (consistent_descending key)) as (Hperm & Hsorted & Hstable).
  { apply List.Forall_forall. exact Hl. }
  split; [exact Hperm|]. split; [|intros c Hc; apply Hstable, Hl, Hc].
  fold out in Hsorted, Hperm.
  assert (Hout : forall c, In c out -> isNaN (key c) = false).
  { intros c Hc. apply Hl. eapply Permutation_in; eassumption. }
  clear Hperm Hstable. induction Hsorted as [|x rest Hs IH Hx]; constructor.
  - apply IH. intros c Hc. apply Hout. now right.
  - rewrite List.Forall_forall in Hx |- *. intros y Hy.
    apply (precedes_descending key x y); [apply Hout; now left|apply Hout; now right|].
    now apply Hx.
Qed.

(** C9. On a host whose collation is a consistent comparator: under the
    alphabetical key the course list is the filtered list rearranged in
    ascending collation order of the titles, courses with equal titles
    keeping their order, and so is the card list under the name key; if
    moreover the collation is alphabetical whatever the case, the titles
    "banana", "Apple" come out as "Apple", "banana". Under the relevance
    and popularity keys the list is rearranged in descending order of
    the field, a missing field counting as 0 and equal values keeping
    their order, and any two courses are ordered. *)
Theorem sort_keys_ordering :
  forall (H : Host),
    (consistentCollation H ->
     forall courses lvl search,
       let shown := CareerRecommendationsSection.bySearch courses lvl search in
       let out :=
         CareerRecommendationsSection.filteredCourses courses lvl search
           CareerRecommendationsSection.alphabetical in
       Permutation out shown
       /\ StronglySorted
            (fun a b => localeCompare (CareerRecommendationsSection.title a)
                                      (CareerRecommendationsSection.title b) <= 0) out
       /\ forall c,
            List.filter
              (fun x => localeCompare (CareerRecommendationsSection.title c)
                                      (CareerRecommendationsSection.title x) =? 0) out
            = List.filter
                (fun x => localeCompare (CareerRecommendationsSection.title c)
                                        (CareerRecommendationsSection.title x) =? 0) shown)
    /\ (consistentCollation H ->
        alphabeticCollation H ->
        forall a b,
          CareerRecommendationsSection.title a = js "banana" ->
          CareerRecommendationsSection.title b = js "Apple" ->
          List.map CareerRecommendationsSection.title
            (CareerRecommendationsSection.filteredCourses [a; b]
               CareerRecommendationsSection.LevelAll []
               CareerRecommendationsSection.alphabetical)
          = [js "Apple"; js "banana"])
    /\ (consistentCollation H ->
        forall items query streams minFit only bookmarked,
          let shown :=
            CareerRecommendations.shown items query streams minFit only bookmarked in
          let out :=
            CareerRecommendations.filtered items query streams minFit only bookmarked
              CareerRecommendations.name_asc in
          Permutation out shown
          /\ StronglySorted
               (fun a b => localeCompare (CareerRecommendations.title a)
                                         (CareerRecommendations.title b) <= 0) out
          /\ forall c,
               List.filter
                 (fun x => localeCompare (CareerRecommendations.title c)
                                         (CareerRecommendations.title x) =? 0) out
               = List.filter
                   (fun x => localeCompare (CareerRecommendations.title c)
                                           (CareerRecommendations.title x) =? 0) shown)
    /\ (forall k field courses lvl search,
          numericField k = Some field ->
          let key := fun c => CareerRecommendationsSection.orZero (field c) in
          let shown := CareerRecommendationsSection.bySearch courses lvl search in
          let out := CareerRecommendationsSection.filteredCourses courses lvl search k in
          (forall c, field c = None -> key c = ofZ 0)
          /\ ((forall c, In c shown -> isNaN (key c) = false) ->
              Permutation out shown
              /\ StronglySorted (fun a b => nle (key b) (key a)) out
              /\ (forall a b, In a out -> In b out ->
                    nle (key a) (key b) \/ nle (key b) (key a))
              /\ forall c, In c shown ->
                   List.filter
                     (tiedWith (CareerRecommendationsSection.courseComparator k) c) out
                   = List.filter
                       (tiedWith (CareerRecommendationsSection.courseComparator k) c)
                       shown)).
Proof.
  intros H. split; [|split; [|split]].
  - intros Hc courses lvl search shown out.
    apply (sortBy_collation CareerRecommendationsSection.title shown Hc).
  - intros Hc Halpha a b Ha Hb.
    assert (Hab : localeCompare (js "Apple") (js "banana") < 0)
      by (apply Halpha; reflexivity).
    unfold CareerRecommendationsSection.filteredCourses,
      CareerRecommendationsSection.bySearch, sortBy.
    cbn [List.fold_right insertBy CareerRecommendationsSection.courseComparator].
    rewrite nsign_ofZ, Ha, Hb.
    destruct Hc as [Hanti _]. specialize (Hanti (js "Apple") (js "banana")).
    destruct (Z.compare_spec (localeCompare (js "banana") (js "Apple")) 0) as [E|E|E];
      [lia|lia|].
    cbn. now rewrite Ha, Hb.
  - intros Hc items query streams minFit only bookmarked shown out.
    apply (sortBy_collation CareerRecommendations.title shown Hc).
  - intros k field courses lvl search Hk key shown out.
    split; [intros c Hn; unfold key; now rewrite Hn|].
    intros Hnan. unfold out, CareerRecommendationsSection.filteredCourses.
    rewrite (numeric_comparator k field Hk). fold shown.
    destruct (sortBy_descending key shown Hnan) as (Hperm & Hsorted & Hstable).
    split; [exact Hperm|]. split; [exact Hsorted|]. split; [|exact Hstable].
    intros a b Ha Hb. unfold nle.
    rewrite (ncompare_antisym (key a) (key b)).
    destruct (ncompare (key a) (key b)); cbn;
      first [left; discriminate | right; discriminate].
Qed.

Section CollationExamples.
Import ExampleHost.

Lemma compareUnits_antisym a b : compareUnits b a = CompOpp (compareUnits a b).
Proof.
  revert b. induction a as [|x a IH]; intros [|y b]; cbn; try reflexivity.
  rewrite (N.compare_antisym x y). destruct (N.compare x y); cbn; auto.
Qed.

Lemma compareUnits_le_trans a b c :
  compareUnits a b <> Gt -> compareUnits b c <> Gt -> compareUnits a c <> Gt.
Proof.
  revert b c. induction a as [|x a IH]; intros [|y b] [|z c]; cbn;
    try congruence.
  destruct (N.compare_spec x y), (N.compare_spec y z), (N.compare_spec x z);
    subst; try congruence; try lia; eauto.
Qed.

Lemma collate_le a b :
  collate a b <= 0
  <-> compareUnits (List.map lowerUnit a) (List.map lowerUnit b) <> Gt.
Proof.
  unfold collate.
  destruct (compareUnits (List.map lowerUnit a) (List.map lowerUnit b));
    split; intros; try discriminate; try congruence; lia.
Qed.

Lemma exampleHost_consistentCollation : consistentCollation host.
Proof.
  split.
  - intros a b. cbn. unfold collate.
    rewrite (compareUnits_antisym (List.map lowerUnit a) (List.map lowerUnit b)).
    destruct (compareUnits (List.map lowerUnit a) (List.map lowerUnit b)); reflexivity.
  - intros a b c. cbn. rewrite !collate_le. apply compareUnits_le_trans.
Qed.


Lemma exampleHost_alphabeticCollation : alphabeticCollation host.
Proof.
  intros a b _ _ Hlt. cbn. unfold collate. now rewrite Hlt.
Qed.
End CollationExamples.

Section SortExamples.
Import CareerRecommendationsSection.

Lemma sort_keys_ordering_witness :
  List.map title
    (filteredCourses (H := ExampleHost.host)
       [course "banana" None None; course "Apple" None None] LevelAll [] alphabetical)
  = [js "Apple"; js "banana"].
Proof.
  destruct (sort_keys_ordering ExampleHost.host) as (_ & Hpair & _).
  apply (Hpair exampleHost_consistentCollation exampleHost_alphabeticCollation);
    reflexivity.
Defined.

Example sort_by_relevance :
  List.map title
    (filteredCourses (H := ExampleHost.host)
       [ course "Physics" (Some 80) None; course "History" None (Some 10);
         course "Chemistry" (Some 80) None; course "Maths" (Some 95) None;
         course "Civics" (Some 0) None ]
       LevelAll [] relevance)
  = [js "Maths"; js "Physics"; js "Chemistry"; js "History"; js "Civics"].
Proof. reflexivity. Qed.

Example sort_alphabetical :
  List.map title
    (filteredCourses (H := ExampleHost.host)
       [ course "cherry" None None; course "banana" None None;
         course "Apple" None None ]
       LevelAll [] alphabetical)
  = [js "Apple"; js "banana"; js "cherry"].
Proof. reflexivity. Qed.

End SortExamples.

(** ** Scenarios *)

Section Scenarios.
Import AptitudeQuiz.

(** Answer two questions, review, submit to the local scorer, retake. *)
Example quiz_round_trip :
  let st0 := initialState localProps in
  let st1 := selectOption (js "q2") (js "Mathematics")
               (selectOption (js "q1") (js "logic games") st0) in
  let st2 := selectOption (js "q1") (js "Stage design") st1 in
  let st3 := handleSubmit (H := ExampleHost.host) localProps (handleReview st2) in
  let st4 := handleRetake localProps st3 in
  answers st2 = [(js "q1", js "Stage design"); (js "q2", js "Mathematics")]
  /\ phase st3 = PhaseResult
  /\ (recommended <$> results st3) = Some [Arts; Science]
  /\ answers st3 = answers st2
  /\ (phase st4, index st4, answers st4, remaining st4, results st4)
     = (PhaseQuiz, 0, [], DEFAULT_DURATION, None).
Proof. repeat split. Qed.

(** A deadline two hours before now still has whole-day difference 0:
    the window filter counts it in. *)
Example deadline_two_hours_ago :
  ceilDays (- 2 * msPerHour) = 0
  /\ ScholarshipTracker.isWithin (H := ExampleHost.host)
       (1715299200000 + 2 * msPerHour) (js "2024-05-10") 7 = true.
Proof. split; reflexivity. Qed.

(** The scenario of the specification: deadlines 2, 10 and 40 days
    ahead, window of 14 days. *)
Example window_scenario :
  idsOf (ScholarshipsTrackerSection.filtered (H := ExampleHost.host)
           (onlyWindow ScholarshipsTrackerSection.W14) sampleNow
           (ScholarshipsTrackerSection.sanitizeScholarships
              [ entry "a" "Two days" (VNum (ofZ 1)) "2024-05-12";
                entry "b" "Ten days" (VNum (ofZ 2)) "2024-05-20";
                entry "c" "Forty days" (VNum (ofZ 3)) "2024-06-19" ]))
  = Ok [VStr (js "a"); VStr (js "b")].
Proof. reflexivity. Qed.

(** A first save seeds the record: planning, a reminder for the next
    morning (the reminder day of the deadline has passed), one unchecked
    box per default document. *)
Example first_save_seeds :
  match ScholarshipsTrackerSection.handleSaveToggle (H := ExampleHost.host) sampleNow meritGrant
          {| ScholarshipsTrackerSection.savedIds := ∅;
             ScholarshipsTrackerSection.tracked := ∅;
             ScholarshipsTrackerSection.toasts := [] |} with
  | Ok st =>
      let item := ScholarshipsTrackerSection.tracked st !! js "s1" in
      Some (bool_decide (js "s1" ∈ ScholarshipsTrackerSection.savedIds st),
            ScholarshipsTrackerSection.status <$> item,
            ScholarshipsTrackerSection.reminderDate <$> item,
            item ≫= (fun t => ScholarshipsTrackerSection.checklist t !! js "Bank Passbook"),
            item ≫= (fun t => ScholarshipsTrackerSection.checklist t !! js "Passport"))
  | Throw _ => None
  end
  = Some (true, Some ScholarshipsTrackerSection.planning, Some (Some (Some 1715398200000)),
          Some false, None).
Proof. vm_compute. reflexivity. Qed.

(** A document named [__proto__] gets no box in the seeded checklist;
    the documents next to it get theirs. *)
Example proto_document_not_seeded :
  let docs := [ VStr (js "__proto__"); VStr (js "Marksheet") ] in
  ScholarshipsTrackerSection.seedChecklist (H := ExampleHost.host) docs !! js "__proto__"
  = None
  /\ ScholarshipsTrackerSection.seedChecklist (H := ExampleHost.host) docs !! js "Marksheet"
     = Some false.
Proof. split; vm_compute; reflexivity. Qed.

(** An id that names a member of [Object.prototype] reads as present in
    [tracked], so the save does not seed a record for it. *)
Example inherited_id_not_seeded :
  match ScholarshipsTrackerSection.handleSaveToggle (H := ExampleHost.host) sampleNow
          (ScholarshipsTrackerSection.sanitizeEntry
             (entry "constructor" "Odd id" (VNum (ofZ 1)) "2024-06-19"))
          {| ScholarshipsTrackerSection.savedIds := ∅;
             ScholarshipsTrackerSection.tracked := ∅;
             ScholarshipsTrackerSection.toasts := [] |} with
  | Ok st =>
      Some (bool_decide (js "constructor" ∈ ScholarshipsTrackerSection.savedIds st),
            ScholarshipsTrackerSection.status <$> ScholarshipsTrackerSection.tracked st !! js "constructor")
  | Throw _ => None
  end
  = Some (true, None).
Proof. vm_compute. reflexivity. Qed.
End Scenarios.

(** * Further properties of the components *)

(** ** Decimal numerals *)

Lemma digitsValue_from ds acc :
  List.fold_left (fun a c => 10 * a + (Z.of_N c - 48)) ds acc
  = acc * 10 ^ Z.of_nat (length ds) + digitsValue ds.
Proof.
  unfold digitsValue. revert acc.
  induction ds as [|d ds IH]; intros acc; cbn [List.fold_left length].
  - cbn. lia.
  - rewrite IH, (IH (10 * 0 + _)). rewrite Nat2Z.inj_succ, Z.pow_succ_r by lia. ring.
Qed.

Lemma digitsValue_app a b :
  digitsValue (a ++ b) = digitsValue a * 10 ^ Z.of_nat (length b) + digitsValue b.
Proof.
  unfold digitsValue at 1. rewrite List.fold_left_app.
  apply digitsValue_from.
Qed.

Lemma digitsValue_zeros k s : digitsValue (List.repeat 48%N k ++ s) = digitsValue s.
Proof.
  rewrite digitsValue_app.
  assert (Hz : digitsValue (List.repeat 48%N k) = 0).
  { induction k as [|k IH]; [reflexivity|].
    change (List.repeat 48%N (S k)) with ([48%N] ++ List.repeat 48%N k).
    rewrite digitsValue_app, IH. reflexivity. }
  rewrite Hz. lia.
Qed.

Lemma decimalDigits_app fuel n acc :
  decimalDigits fuel n acc = decimalDigits fuel n [] ++ acc.
Proof.
  revert n acc. induction fuel as [|fuel IH]; intros n acc; cbn [decimalDigits]; [reflexivity|].
  destruct (n `div` 10 =? 0); [reflexivity|].
  rewrite IH, (IH _ [_]), <- List.app_assoc. reflexivity.
Qed.

Lemma decimalDigits_value fuel n :
  0 <= n < 2 ^ Z.of_nat fuel -> digitsValue (decimalDigits fuel n []) = n.
Proof.
  revert n. induction fuel as [|fuel IH]; intros n Hn.
  - cbn in Hn. cbn. lia.
  - cbn [decimalDigits].
    assert (Hd : Z.of_N (Z.to_N (48 + n `mod` 10)) - 48 = n `mod` 10).
    { rewrite Z2N.id; [lia|]. pose proof (Z.mod_pos_bound n 10). lia. }
    destruct (Z.eqb_spec (n `div` 10) 0) as [E|E].
    + unfold digitsValue. cbn [List.fold_left]. rewrite Hd.
      pose proof (Z.div_mod n 10). lia.
    + rewrite decimalDigits_app, digitsValue_app, IH.
      * unfold digitsValue at 1. cbn [List.fold_left length]. rewrite Hd.
        pose proof (Z.div_mod n 10). change (10 ^ Z.of_nat 1) with 10. lia.
      * rewrite Nat2Z.inj_succ, Z.pow_succ_r in Hn by lia.
        split; [apply Z.div_pos; lia|].
        apply Z.div_lt_upper_bound; lia.
Qed.

Lemma decimal_value n : 0 <= n -> digitsValue (decimal n) = n.
Proof.
  intros Hn. unfold decimal. apply decimalDigits_value.
  split; [lia|].
  rewrite Nat2Z.inj_add, Z2Nat.id by apply Z.log2_nonneg.
  change (Z.of_nat 1) with 1.
  destruct (Z.eq_dec n 0) as [->|Hz]; [reflexivity|].
  replace (Z.log2 n + 1) with (Z.succ (Z.log2 n)) by lia.
  apply Z.log2_spec. lia.
Qed.

Lemma decimalDigits_digits fuel n acc :
  0 <= n -> List.forallb isDigit acc = true ->
  List.forallb isDigit (decimalDigits fuel n acc) = true.
Proof.
  revert n acc. induction fuel as [|fuel IH]; intros n acc Hn Hacc; cbn [decimalDigits]; [exact Hacc|].
  assert (Hd : isDigit (Z.to_N (48 + n `mod` 10)) = true).
  { unfold isDigit. pose proof (Z.mod_pos_bound n 10).
    apply andb_true_intro; split; apply N.leb_le; lia. }
  destruct (n `div` 10 =? 0).
  - cbn [List.forallb]. now rewrite Hd.
  - apply IH; [apply Z.div_pos; lia|]. cbn [List.forallb]. now rewrite Hd.
Qed.

Lemma decimal_digits n : 0 <= n -> List.forallb isDigit (decimal n) = true.
Proof. intros Hn. now apply decimalDigits_digits. Qed.

Lemma decimal_short n : 0 <= n < 100 -> (length (decimal n) <= 2)%nat.
Proof.
  intros Hn. unfold decimal.
  destruct (Z.to_nat (Z.log2 n) + 1)%nat as [|[|fuel]] eqn:Ef; cbn [decimalDigits].
  - cbn. lia.
  - destruct (n `div` 10 =? 0); cbn; lia.
  - destruct (Z.eqb_spec (n `div` 10) 0) as [E|E]; [cbn; lia|].
    assert (E2 : (n `div` 10) `div` 10 = 0).
    { apply Z.div_small. split; [apply Z.div_pos; lia|apply Z.div_lt_upper_bound; lia]. }
    rewrite E2. cbn. lia.
Qed.

Lemma padStart_length n fill s :
  length (padStart n fill s) = Nat.max n (length s).
Proof. unfold padStart. rewrite List.length_app, List.repeat_length. lia. Qed.

Lemma padStart_digits n s :
  List.forallb isDigit s = true -> List.forallb isDigit (padStart n 48%N s) = true.
Proof.
  intros Hs. unfold padStart. rewrite List.forallb_app, Hs, andb_true_r.
  induction (n - length s)%nat as [|k IH]; [reflexivity|]. cbn. exact IH.
Qed.

Lemma splitOn_plain p s :
  List.forallb (fun c => negb (p c)) s = true -> splitOn p s = [s].
Proof.
  induction s as [|c s IH]; [reflexivity|]. cbn [List.forallb splitOn].
  intros Hs. apply andb_prop in Hs as [Hc Hs].
  destruct (p c); [discriminate|]. now rewrite (IH Hs).
Qed.

Lemma splitOn_at p a c b :
  List.forallb (fun x => negb (p x)) a = true -> p c = true ->
  splitOn p (a ++ c :: b) = a :: splitOn p b.
Proof.
  intros Ha Hc. induction a as [|x a IH]; cbn [app splitOn].
  - now rewrite Hc.
  - cbn [List.forallb] in Ha. apply andb_prop in Ha as [Hx Ha].
    destruct (p x); [discriminate|]. now rewrite (IH Ha).
Qed.

Lemma digits_no_colon s :
  List.forallb isDigit s = true ->
  List.forallb (fun c => negb (c =? 58)%N) s = true.
Proof.
  intros Hs. apply List.forallb_forall. intros c Hc.
  assert (Hd := proj1 (List.forallb_forall _ _) Hs c Hc).
  unfold isDigit in Hd. apply andb_prop in Hd as [_ Hd]. apply N.leb_le in Hd.
  apply negb_true_iff, N.eqb_neq. lia.
Qed.

Section QuizClock.
Import AptitudeQuiz.
Context `{Host}.

Lemma intToString_small n : 0 <= n < 10 ^ 21 -> intToString n = decimal n.
Proof.
  intros Hn. unfold intToString.
  destruct (Z.ltb_spec (Z.abs n) (10 ^ 21)); [|lia].
  destruct (Z.ltb_spec n 0); [lia|reflexivity].
Qed.

Lemma formatTime_nonneg t :
  0 <= t < 60 * 10 ^ 21 ->
  formatTime t
  = padStart 2 48%N (decimal (t `div` 60)) ++ js ":" ++ padStart 2 48%N (decimal (t `mod` 60)).
Proof.
  intros Ht. unfold formatTime.
  assert (Hm : 0 <= t `div` 60 < 10 ^ 21).
  { split; [apply Z.div_pos; lia|apply Z.div_lt_upper_bound; lia]. }
  pose proof (Z.mod_pos_bound t 60).
  rewrite Z.rem_mod_nonneg by lia.
  rewrite !Z.max_r by lia.
  rewrite !intToString_small; [reflexivity|lia|lia].
Qed.

(** X1. The clock text of a number of seconds reads back as that number:
    the minutes before the colon and the seconds after it, each on two
    digits at least, as long as the minutes stay below 10^21 (where
    the host switches to the exponent form). Under 100 minutes the text
    has five characters. A negative number of seconds shows as 00:00. *)
Theorem formatTime_round_trip (t : Z) :
  (0 <= t < 60 * 10 ^ 21 -> readTime (formatTime t) = Some t)
  /\ (0 <= t < 6000 -> length (formatTime t) = 5%nat)
  /\ (t < 0 -> formatTime t = js "00:00").
Proof.
  split; [|split].
  - intros Ht. rewrite formatTime_nonneg by exact Ht.
    assert (Hm : 0 <= t `div` 60) by (apply Z.div_pos; lia).
    pose proof (Z.mod_pos_bound t 60).
    unfold readTime. change (js ":" ++ ?x) with (58%N :: x).
    rewrite splitOn_at;
      [|apply digits_no_colon, padStart_digits, decimal_digits; lia|reflexivity].
    rewrite splitOn_plain
      by (apply digits_no_colon, padStart_digits, decimal_digits; lia).
    unfold padStart. rewrite !digitsValue_zeros, !decimal_value by lia.
    f_equal. pose proof (Z.div_mod t 60). lia.
  - intros Ht. rewrite formatTime_nonneg by lia.
    assert (Hm : 0 <= t `div` 60 < 100).
    { split; [apply Z.div_pos; lia|apply Z.div_lt_upper_bound; lia]. }
    pose proof (Z.mod_pos_bound t 60).
    rewrite !List.length_app, !padStart_length.
    pose proof (decimal_short (t `div` 60) Hm).
    pose proof (decimal_short (t `mod` 60)). cbn [length js List.map list_ascii_of_string]. lia.
  - intros Ht. unfold formatTime.
    assert (t `div` 60 < 0) by (apply Z.div_lt_upper_bound; lia).
    pose proof (Z.rem_nonpos t 60).
    rewrite !Z.max_l by lia. reflexivity.
Qed.
End QuizClock.

Lemma formatTime_round_trip_witness :
  readTime (AptitudeQuiz.formatTime (H := ExampleHost.host) 725) = Some 725
  /\ length (AptitudeQuiz.formatTime (H := ExampleHost.host) 725) = 5%nat
  /\ AptitudeQuiz.formatTime (H := ExampleHost.host) (-5) = js "00:00".
Proof.
  destruct (formatTime_round_trip (H := ExampleHost.host) 725) as (Hread & Hlen & _).
  destruct (formatTime_round_trip (H := ExampleHost.host) (-5)) as (_ & _ & Hneg).
  split; [apply Hread; lia|]. split; [apply Hlen; lia|apply Hneg; lia].
Defined.

(** ** The quiz: clock, timer, cursor and answers *)

Section QuizTimer.
Import AptitudeQuiz.
Context `{Host}.

Lemma timerEffect_running p st :
  timed st -> 0 < remaining st ->
  timerEffect p st = setRemaining (remaining st - 1) st.
Proof.
  intros Hph Hr. unfold timerEffect, tick.
  destruct (Z.leb_spec (remaining st) 0); [lia|].
  destruct (Z.ltb_spec 0 (remaining st)); [|lia].
  destruct Hph as [-> | ->]; reflexivity.
Qed.

Lemma runTimer_running (p : Props) (st : State) (n : nat) :
  timed st -> Z.of_nat n <= remaining st ->
  runTimer n p st = setRemaining (remaining st - Z.of_nat n) st.
Proof.
  revert st. induction n as [|n IH]; intros st Hph Hn.
  - cbn [runTimer]. change (Z.of_nat 0) with 0. rewrite Z.sub_0_r.
    destruct st; reflexivity.
  - cbn [runTimer]. rewrite timerEffect_running by (assumption || lia).
    rewrite IH; [|exact Hph|cbn [remaining setRemaining]; lia].
    replace (remaining st - Z.of_nat (S n)) with (remaining st - 1 - Z.of_nat n) by lia.
    destruct st; reflexivity.
Qed.

(** X2. While the quiz is in its quiz or review phase and time remains,
    [n] runs of the timer take [n] seconds off the clock and touch
    nothing else: phase, cursor, answers, results and toasts stay. *)
Theorem timer_counts_down (p : Props) (st : State) (n : nat) :
  timed st -> Z.of_nat n <= remaining st ->
  let st' := runTimer n p st in
  remaining st' = remaining st - Z.of_nat n
  /\ phase st' = phase st /\ index st' = index st /\ answers st' = answers st
  /\ results st' = results st /\ toasts st' = toasts st.
Proof.
  intros Hph Hn. cbv zeta. rewrite runTimer_running by assumption.
  repeat split.
Qed.

(** X3. A timer started with [r] seconds reaches the end of time on
    its run number [r + 1]: the clock shows 0, answers and cursor are
    as they were, and the quiz is then in review if automatic submission
    is off, shows the results of the local scorer if it is on and no
    [onSubmit] is given, and is back in review without results if the
    scorer fails. *)
Theorem timer_expiry (p : Props) (st : State) :
  timed st -> 0 <= remaining st ->
  let st' := runTimer (S (Z.to_nat (remaining st))) p st in
  remaining st' = 0 /\ answers st' = answers st /\ index st' = index st
  /\ (autoSubmitOnTime p = false -> phase st' = PhaseReview /\ results st' = results st)
  /\ (autoSubmitOnTime p = true -> onSubmit p = None ->
      phase st' = PhaseResult /\ results st' = Some (mockEvaluate (answers st)))
  /\ (autoSubmitOnTime p = true ->
      forall e, scoring p (answers st) = Throw e ->
      phase st' = PhaseReview /\ results st' = results st).
Proof.
  intros Hph Hr st'. subst st'.
  replace (S (Z.to_nat (remaining st))) with (Z.to_nat (remaining st) + 1)%nat by lia.
  assert (Hrun : forall a b q s, runTimer (a + b) q s = runTimer b q (runTimer a q s)).
  { intros a b q. induction a as [|a IHa]; intros s; [reflexivity|]. cbn. apply IHa. }
  rewrite Hrun, (runTimer_running p st (Z.to_nat (remaining st)));
    [|exact Hph|rewrite Z2Nat.id by exact Hr; lia].
  rewrite Z2Nat.id, Z.sub_diag by exact Hr.
  cbn [runTimer]. unfold timerEffect. cbn [phase remaining setRemaining].
  change (0 <=? 0) with true. cbn match.
  unfold handleSubmit, scoring.
  destruct Hph as [-> | ->];
    (destruct (autoSubmitOnTime p);
     [destruct (onSubmit p) as [f|]; [destruct (f _) as [res|e] eqn:Ef|]|]);
    cbn; repeat split; intros; try discriminate; try congruence.
Qed.

Lemma timerEffect_retry p st e :
  timed st -> remaining st <= 0 -> autoSubmitOnTime p = true ->
  scoring p (answers st) = Throw e ->
  timerEffect p st
  = {| phase := PhaseReview; index := index st; answers := answers st;
       remaining := remaining st; results := results st;
       toasts := toasts st
                 ++ [ ToastWarning (js "Time's up. Review and submit your answers.");
                      ToastLoading (js "Analyzing your responses...");
                      ToastError (js "Failed to process results. Please try again.") ] |}.
Proof.
  intros Hph Hr Ha Hs. unfold timerEffect.
  destruct (Z.leb_spec (remaining st) 0); [|lia].
  rewrite Ha. unfold handleSubmit. cbn [answers toast]. rewrite Hs.
  unfold handleSubmitSettle, handleSubmitStart, toast, setPhase.
  cbn [phase index answers remaining results toasts].
  rewrite <- !List.app_assoc.
  destruct Hph as [-> | ->]; reflexivity.
Qed.

(** X4. With automatic submission on and a scorer that rejects the
    answers, the timer does not bring a quiz whose time is up to rest:
    a run warns, submits, fails and leaves the quiz in review with the
    clock where it was, so that the next run does the same. After any
    number of runs the quiz is in review, without results, three toasts
    further per run; the result phase is never reached. *)
Theorem timer_retry_loop (p : Props) (st : State) (e : error) (n : nat) :
  timed st -> remaining st <= 0 -> autoSubmitOnTime p = true ->
  scoring p (answers st) = Throw e ->
  let st' := runTimer (S n) p st in
  phase st' = PhaseReview /\ results st' = results st
  /\ answers st' = answers st /\ remaining st' = remaining st
  /\ length (toasts st') = (length (toasts st) + 3 * S n)%nat.
Proof.
  revert st. induction n as [|n IH]; intros st Hph Hr Ha Hs.
  - cbn [runTimer]. rewrite (timerEffect_retry p st e) by assumption.
    cbn. rewrite List.length_app. cbn. repeat split; lia.
  - change (runTimer (S (S n)) p st) with (runTimer (S n) p (timerEffect p st)).
    rewrite (timerEffect_retry p st e) by assumption.
    match goal with |- context [runTimer (S n) p ?s] => specialize (IH s) end.
    cbn [phase remaining answers results toasts] in IH.
    destruct IH as (H1 & H2 & H3 & H4 & H5); [right; reflexivity|assumption..|].
    cbv zeta. rewrite H1, H2, H3, H4, H5, List.length_app. cbn [length].
    repeat split; lia.
Qed.
End QuizTimer.

Section QuizNavigation.
Import AptitudeQuiz.
Context `{Host}.

Lemma lookupAnswer_setAnswer k q v a :
  lookupAnswer k (setAnswer q v a)
  = if decide (k = q) then Some v else lookupAnswer k a.
Proof.
  induction a as [|[k' v'] a IH]; cbn [setAnswer lookupAnswer].
  - destruct (decide (q = k)), (decide (k = q)); congruence.
  - destruct (decide (k' = q)) as [->|Hne]; cbn [lookupAnswer].
    + destruct (decide (q = k)), (decide (k = q)); congruence.
    + destruct (decide (k' = k)) as [->|Hne'].
      * destruct (decide (k = q)); congruence.
      * exact IH.
Qed.

Lemma setAnswer_length q v a :
  length (setAnswer q v a)
  = match lookupAnswer q a with Some _ => length a | None => S (length a) end.
Proof.
  induction a as [|[k' v'] a IH]; cbn [setAnswer lookupAnswer length]; [reflexivity|].
  destruct (decide (k' = q)); cbn [length]; [reflexivity|].
  rewrite IH. destruct (lookupAnswer q a); reflexivity.
Qed.

(** X7. Choosing an option records it: the answer of that question is
    the chosen value, every other answer is as before, the count of
    answers grows by one for a question not answered before and not at
    all otherwise, the question counts as answered exactly when the
    value is not empty, and cursor, phase and clock do not move. *)
Theorem selectOption_records (qid val : jsstring) (st : State) :
  let st' := selectOption qid val st in
  lookupAnswer qid (answers st') = Some val
  /\ (forall k, k <> qid -> lookupAnswer k (answers st') = lookupAnswer k (answers st))
  /\ answeredCount st'
     = answeredCount st + match lookupAnswer qid (answers st) with Some _ => 0 | None => 1 end
  /\ (answered (answers st') qid = true <-> val <> [])
  /\ (forall k, k <> qid -> answered (answers st') k = answered (answers st) k)
  /\ index st' = index st /\ phase st' = phase st /\ remaining st' = remaining st.
Proof.
  cbn zeta. unfold selectOption, answeredCount, answered. cbn [answers setAnswers index phase remaining].
  repeat split.
  - rewrite lookupAnswer_setAnswer. now destruct (decide (qid = qid)).
  - intros k Hk. rewrite lookupAnswer_setAnswer. now destruct (decide (k = qid)).
  - rewrite setAnswer_length. destruct (lookupAnswer qid (answers st)); lia.
  - rewrite lookupAnswer_setAnswer. destruct (decide (qid = qid)); [|congruence].
    destruct val; [discriminate|]. intros _. discriminate.
  - rewrite lookupAnswer_setAnswer. destruct (decide (qid = qid)); [|congruence].
    destruct val; [congruence|reflexivity].
  - intros k Hk. rewrite lookupAnswer_setAnswer. now destruct (decide (k = qid)).
Qed.

Lemma handleSubmit_frame p st :
  index (handleSubmit p st) = index st /\ answers (handleSubmit p st) = answers st.
Proof.
  unfold handleSubmit. destruct (scoring p (answers st)); cbn; auto.
Qed.

Lemma timerEffect_frame p st :
  index (timerEffect p st) = index st /\ answers (timerEffect p st) = answers st.
Proof.
  unfold timerEffect, tick.
  destruct (phase st); cbn; auto;
    destruct (remaining st <=? 0); cbn; auto;
    destruct (autoSubmitOnTime p); cbn; auto;
    apply (handleSubmit_frame p (toast _ st)).
Qed.

Lemma goNext_index p st :
  goNext p st = st
  \/ (goNext p st = setIndex (index st + 1) st
      /\ index st < total p - 1 /\ canGoNext p st = true).
Proof.
  unfold goNext.
  destruct (Z.ltb_spec (index st) (total p - 1)); cbn [andb]; [|now left].
  destruct (canGoNext p st) eqn:E; [right; auto|now left].
Qed.

Lemma goPrev_index st :
  goPrev st = st \/ (goPrev st = setIndex (index st - 1) st /\ 0 < index st).
Proof.
  unfold goPrev. destruct (Z.ltb_spec 0 (index st)); [right; auto|now left].
Qed.

Lemma onKeyDown_cases p key st :
  onKeyDown p key st = st \/ onKeyDown p key st = goNext p st
  \/ onKeyDown p key st = goPrev st.
Proof.
  unfold onKeyDown. destruct (questionAt p (index st)); [|now left].
  destruct (bool_decide _); [now right; left|].
  destruct (bool_decide _); [now right; right|now left].
Qed.

Lemma step_cursor p st e :
  offered p e -> cursorInRange p st -> cursorInRange p (step p st e).
Proof.
  unfold cursorInRange. intros He [H0 H1].
  assert (Hn : 0 <= index (goNext p st) /\ index (goNext p st) < Z.max 1 (total p)).
  { destruct (goNext_index p st) as [-> | (-> & Hlt & _)]; cbn; lia. }
  assert (Hp : 0 <= index (goPrev st) /\ index (goPrev st) < Z.max 1 (total p)).
  { destruct (goPrev_index st) as [-> | (-> & Hlt)]; cbn; lia. }
  destruct e; cbn [step offered] in *.
  - cbn. lia.
  - exact Hn.
  - exact Hp.
  - cbn. lia.
  - destruct (onKeyDown_cases p key st) as [-> | [-> | ->]]; auto.
  - cbn. lia.
  - cbn. lia.
  - rewrite (proj1 (handleSubmit_frame p st)). lia.
  - cbn. lia.
  - rewrite (proj1 (timerEffect_frame p st)). lia.
Qed.

(** X5. Whatever the user and the clock do, with the jump buttons
    numbered by the questions, the cursor stays on a question: it is
    never negative and never past the last question, so that a quiz
    with at least one question always has a current question. *)
Theorem cursor_stays_in_range (p : Props) (es : list Event) (st : State) :
  cursorInRange p st -> List.Forall (offered p) es ->
  cursorInRange p (run p es st)
  /\ (questions p <> [] -> exists q, questionAt p (index (run p es st)) = Some q).
Proof.
  intros Hst Hes.
  assert (Hrun : cursorInRange p (run p es st)).
  { unfold run. revert st Hst. induction Hes as [|e es He _ IH]; intros st Hst; [exact Hst|].
    cbn [List.fold_left]. apply IH, step_cursor; assumption. }
  split; [exact Hrun|].
  intros Hq. destruct Hrun as [H0 H1]. unfold questionAt.
  destruct (Z.ltb_spec (index (run p es st)) 0); [lia|].
  assert (Hlen : (0 < length (questions p))%nat) by (destruct (questions p); [congruence|cbn; lia]).
  unfold total in H1.
  destruct (List.nth_error (questions p) (Z.to_nat (index (run p es st)))) as [q|] eqn:E; [eauto|].
  apply List.nth_error_None in E. lia.
Qed.

Lemma initialState_cursor p : cursorInRange p (initialState p).
Proof. unfold cursorInRange. cbn. lia. Qed.








End QuizNavigation.

Lemma timer_counts_down_witness :
  AptitudeQuiz.remaining
    (AptitudeQuiz.runTimer (H := ExampleHost.host) 2 twoQuestions
       (AptitudeQuiz.initialState twoQuestions)) = 0.
Proof.
  destruct (timer_counts_down (H := ExampleHost.host) twoQuestions
              (AptitudeQuiz.initialState twoQuestions) 2) as (Hr & _).
  - left. reflexivity.
  - cbn. lia.
  - exact Hr.
Defined.

Lemma timer_expiry_witness :
  AptitudeQuiz.phase
    (AptitudeQuiz.runTimer (H := ExampleHost.host) 3 twoQuestions
       (AptitudeQuiz.initialState twoQuestions)) = AptitudeQuiz.PhaseResult.
Proof.
  destruct (timer_expiry (H := ExampleHost.host) twoQuestions
              (AptitudeQuiz.initialState twoQuestions)) as (_ & _ & _ & _ & Hres & _).
  - left. reflexivity.
  - cbn. lia.
  - apply Hres; reflexivity.
Defined.

Lemma timer_retry_loop_witness :
  AptitudeQuiz.phase
    (AptitudeQuiz.runTimer (H := ExampleHost.host) 5 twoQuestionsFailing
       (timeUp twoQuestionsFailing)) = AptitudeQuiz.PhaseReview
  /\ length (AptitudeQuiz.toasts
               (AptitudeQuiz.runTimer (H := ExampleHost.host) 5 twoQuestionsFailing
                  (timeUp twoQuestionsFailing))) = 15%nat.
Proof.
  destruct (timer_retry_loop (H := ExampleHost.host) twoQuestionsFailing
              (timeUp twoQuestionsFailing) OtherError 4) as (Hph & _ & _ & _ & Hlen).
  - left. reflexivity.
  - cbn. lia.
  - reflexivity.
  - reflexivity.
  - split; [exact Hph|exact Hlen].
Defined.

Lemma selectOption_records_witness :
  AptitudeQuiz.lookupAnswer (js "q2")
    (AptitudeQuiz.answers
       (AptitudeQuiz.selectOption (js "q1") (js "Physics") sampleState))
  = Some (js "Painting").
Proof.
  destruct (selectOption_records (js "q1") (js "Physics") sampleState)
    as (_ & Hother & _).
  rewrite (Hother (js "q2")); [reflexivity|discriminate].
Defined.

Lemma cursor_stays_in_range_witness :
  cursorInRange twoQuestions
    (AptitudeQuiz.run (H := ExampleHost.host) twoQuestions
       [ AptitudeQuiz.Select (js "q1") (js "Physics"); AptitudeQuiz.Next;
         AptitudeQuiz.Next; AptitudeQuiz.Jump 1; AptitudeQuiz.Key (js "ArrowRight");
         AptitudeQuiz.Timer; AptitudeQuiz.Prev; AptitudeQuiz.Prev ]
       (AptitudeQuiz.initialState twoQuestions)).
Proof.
  apply (cursor_stays_in_range (H := ExampleHost.host) twoQuestions).
  - apply initialState_cursor.
  - repeat constructor. cbn. lia.
Defined.


(** ** The quiz of the landing section *)

Section SectionNavigation.
Import AptitudeQuizSection.

Lemma currentQuestion_none_empty (st : State) : currentQuestion [] st = None.
Proof.
  unfold currentQuestion. destruct (current st <? 0); [reflexivity|].
  now destruct (Z.to_nat (current st)).
Qed.

Lemma step_cursorOk questions st e :
  cursorOk questions st -> cursorOk questions (step questions st e).
Proof.
  unfold cursorOk. intros (H0 & H1 & He). destruct e; cbn [step].
  - unfold handleSelect. destruct (currentQuestion questions st) as [q|] eqn:Eq; cbn; [|auto].
    repeat split; try assumption. intros ->.
    rewrite currentQuestion_none_empty in Eq. discriminate.
  - cbn. repeat split; try lia. exact He.
  - unfold handleNext. destruct (selected questions st) eqn:Es; cbn [negb current answers].
    + split; [|split; [|exact He]].
      * destruct questions as [|q0 qs].
        -- exfalso. unfold selected in Es.
           rewrite currentQuestion_none_empty, (He eq_refl) in Es. discriminate.
        -- unfold total in *. cbn [length] in *. lia.
      * unfold total in *. lia.
    + auto.
  - cbn. repeat split; try lia.
Qed.

(** X8. In the quiz of the landing section the cursor starts at 0 and,
    whatever is selected and however Back, Next and Reset are pressed,
    stays on a question: never negative, never past the last one, also
    when the list of questions is empty. *)
Theorem section_cursor_in_range (questions : list QuizQuestion) (es : list Event) :
  let st := run questions es initialState in
  0 <= current st /\ current st < Z.max 1 (total questions)
  /\ (questions <> [] -> exists q, currentQuestion questions st = Some q).
Proof.
  assert (Hrun : forall st, cursorOk questions st -> cursorOk questions (run questions es st)).
  { unfold run. induction es as [|e es IH]; intros st Hst; [exact Hst|].
    cbn [List.fold_left]. apply IH, step_cursorOk, Hst. }
  destruct (Hrun initialState) as (H0 & H1 & _).
  { unfold cursorOk. cbn. repeat split; lia. }
  cbv zeta. split; [exact H0|]. split; [exact H1|].
  intros Hq. unfold currentQuestion.
  destruct (Z.ltb_spec (current (run questions es initialState)) 0); [lia|].
  assert (Hlen : (0 < length questions)%nat) by (destruct questions; [congruence|cbn; lia]).
  unfold total in H1.
  destruct (List.nth_error questions _) as [q|] eqn:E; [eauto|].
  apply List.nth_error_None in E. lia.
Qed.


End SectionNavigation.


(** ** The recommendation cards *)

(** ** Sets of strings *)

Lemma filter_twice {A} (p r : A -> bool) (l : list A) :
  List.filter p (List.filter r l) = List.filter (fun x => r x && p x) l.
Proof.
  induction l as [|x l IH]; [reflexivity|]. cbn [List.filter].
  destruct (r x); cbn [List.filter andb]; [destruct (p x)|]; now rewrite IH.
Qed.

Lemma setHas_true x (set : StringSet) : setHas x set = true <-> In x set.
Proof.
  unfold setHas. rewrite List.existsb_exists. split.
  - intros (y & Hy & E). apply bool_decide_eq_true in E. now subst.
  - intros Hx. exists x. split; [exact Hx|]. now apply bool_decide_eq_true.
Qed.

Lemma setHas_false x (set : StringSet) : setHas x set = false <-> ~ In x set.
Proof.
  rewrite <- setHas_true. destruct (setHas x set); split; congruence.
Qed.

Lemma In_setAdd x y (set : StringSet) : In y (setAdd x set) <-> y = x \/ In y set.
Proof.
  unfold setAdd. destruct (setHas x set) eqn:E.
  - apply setHas_true in E. split; [auto|]. intros [-> | Hy]; assumption.
  - rewrite List.in_app_iff. cbn. intuition.
Qed.

Lemma In_setDelete x y (set : StringSet) : In y (setDelete x set) <-> y <> x /\ In y set.
Proof.
  unfold setDelete. rewrite List.filter_In, negb_true_iff, bool_decide_eq_false. tauto.
Qed.

Lemma NoDup_setAdd x (set : StringSet) : List.NoDup set -> List.NoDup (setAdd x set).
Proof.
  intros Hs. unfold setAdd. destruct (setHas x set) eqn:E; [exact Hs|].
  apply setHas_false in E.
  apply List.NoDup_app; [exact Hs|repeat constructor; intros []|].
  intros y Hy [<- | []]. contradiction.
Qed.

Lemma NoDup_setDelete x (set : StringSet) : List.NoDup set -> List.NoDup (setDelete x set).
Proof. apply List.NoDup_filter. Qed.

Lemma setDelete_length x (set : StringSet) : (length (setDelete x set) <= length set)%nat.
Proof. apply List.filter_length_le. Qed.

Lemma setAdd_length x (set : StringSet) : (length (setAdd x set) <= S (length set))%nat.
Proof.
  unfold setAdd. destruct (setHas x set); [lia|]. rewrite List.length_app. cbn. lia.
Qed.

Lemma setOf_from (xs : list jsstring) (acc : StringSet) :
  List.fold_left (fun set x => setAdd x set) xs acc
  = acc ++ List.filter (fun y => negb (setHas y acc)) (setOf xs).
Proof.
  unfold setOf. revert acc. induction xs as [|x xs IH]; intros acc.
  - cbn. now rewrite List.app_nil_r.
  - cbn [List.fold_left]. rewrite (IH (setAdd x acc)), (IH (setAdd x [])).
    change (setAdd x []) with [x]. cbn [app List.filter].
    assert (Hx : setHas x [x] = true) by (apply setHas_true; now left).
    unfold setAdd. destruct (setHas x acc) eqn:E.
    + cbn [negb]. f_equal.
      rewrite filter_twice. apply List.filter_ext. intros y.
      destruct (setHas y acc) eqn:Ey; cbn [negb]; [symmetry; apply andb_false_r|].
      rewrite andb_true_r. symmetry.
      apply negb_true_iff, setHas_false. intros [<- | []]. congruence.
    + cbn [negb]. rewrite <- List.app_assoc. cbn [app]. do 2 f_equal.
      rewrite filter_twice. apply List.filter_ext. intros y.
      destruct (setHas y (acc ++ [x])) eqn:Ey.
      * apply setHas_true, List.in_app_iff in Ey. symmetry. apply andb_false_iff.
        destruct Ey as [Ey | [<- | []]].
        -- right. apply negb_false_iff. now apply setHas_true.
        -- left. apply negb_false_iff. exact Hx.
      * apply setHas_false in Ey. symmetry. apply andb_true_iff.
        split; apply negb_true_iff, setHas_false; intros Hy; apply Ey, List.in_app_iff.
        -- right. exact Hy.
        -- now left.
Qed.

Lemma setOf_cons x (xs : list jsstring) :
  setOf (x :: xs) = x :: List.filter (fun y => negb (bool_decide (y = x))) (setOf xs).
Proof.
  unfold setOf at 1. cbn [List.fold_left]. rewrite setOf_from.
  unfold setAdd. cbn [setHas List.existsb app]. f_equal.
  apply List.filter_ext. intros y. unfold setHas. cbn [List.existsb].
  rewrite orb_false_r. f_equal.
  destruct (decide (x = y)) as [->|Hne].
  - now rewrite !bool_decide_eq_true_2.
  - rewrite !bool_decide_eq_false_2; congruence.
Qed.

Lemma In_setOf x (xs : list jsstring) : In x (setOf xs) <-> In x xs.
Proof.
  induction xs as [|y xs IH]; [reflexivity|].
  rewrite setOf_cons. cbn [In]. rewrite List.filter_In, IH, negb_true_iff, bool_decide_eq_false.
  destruct (decide (y = x)) as [->|Hne]; [tauto|]. split; [tauto|].
  intros [E | Hx]; [tauto|]. right. split; [exact Hx|congruence].
Qed.

Lemma NoDup_setOf (xs : list jsstring) : List.NoDup (setOf xs).
Proof.
  induction xs as [|y xs IH]; [constructor|].
  rewrite setOf_cons. constructor; [|now apply List.NoDup_filter].
  rewrite List.filter_In, negb_true_iff, bool_decide_eq_false. tauto.
Qed.

Section Cards.
Import CareerRecommendations.
Context `{Host}.

(** X12. The stream menu lists every stream of the items once, and no
    other: the stream of the first item comes first, followed by the
    menu of the remaining items without that stream. *)
Theorem allStreamsFromItems_distinct (items : list CareerRecommendation) :
  List.NoDup (allStreamsFromItems items)
  /\ (forall s, In s (allStreamsFromItems items) <-> exists i, In i items /\ stream i = s)
  /\ (forall i rest,
        items = i :: rest ->
        allStreamsFromItems items
        = stream i :: List.filter (fun s => negb (bool_decide (s = stream i)))
                        (allStreamsFromItems rest)).
Proof.
  unfold allStreamsFromItems. split; [apply NoDup_setOf|]. split.
  - intros s. rewrite In_setOf, List.in_map_iff. split; intros (i & A & B); eauto.
  - intros i rest ->. cbn [List.map]. apply setOf_cons.
Qed.

Lemma toggleCompare_set id title st :
  compareSet (toggleCompare id title st)
  = if setHas id (compareSet st) then setDelete id (compareSet st)
    else if 3 <=? Z.of_nat (length (compareSet st)) then compareSet st
    else setAdd id (compareSet st).
Proof.
  unfold toggleCompare. destruct (setHas id (compareSet st)); [reflexivity|].
  destruct (3 <=? Z.of_nat (length (compareSet st))); reflexivity.
Qed.

(** X10. The comparison set never holds more than three cards and
    never the same card twice, whatever cards are toggled in whatever
    order; toggling does not touch the bookmarks; and a card that is in
    the set is always taken out by its toggle, also when the set is
    full. *)
Theorem compare_at_most_three (picks : list (jsstring * jsstring)) (st : State) :
  List.NoDup (compareSet st) -> (length (compareSet st) <= 3)%nat ->
  let st' := List.fold_left (fun s '(id, title) => toggleCompare id title s) picks st in
  List.NoDup (compareSet st') /\ (length (compareSet st') <= 3)%nat
  /\ bookmarked st' = bookmarked st
  /\ forall id title,
       In id (compareSet st') ->
       ~ In id (compareSet (toggleCompare id title st')).
Proof.
  revert st. induction picks as [|[id title] picks IH]; intros st Hnd Hlen; cbn [List.fold_left].
  - cbv zeta. split; [exact Hnd|]. split; [exact Hlen|]. split; [reflexivity|].
    intros id title Hin. rewrite toggleCompare_set.
    apply setHas_true in Hin. rewrite Hin. rewrite In_setDelete. tauto.
  - specialize (IH (toggleCompare id title st)).
    assert (Hb : bookmarked (toggleCompare id title st) = bookmarked st).
    { unfold toggleCompare. destruct (setHas id (compareSet st)); [reflexivity|].
      destruct (3 <=? Z.of_nat (length (compareSet st))); reflexivity. }
    rewrite Hb in IH. apply IH; rewrite toggleCompare_set.
    + destruct (setHas id (compareSet st)); [now apply NoDup_setDelete|].
      destruct (3 <=? _); [exact Hnd|now apply NoDup_setAdd].
    + destruct (setHas id (compareSet st)).
      * pose proof (setDelete_length id (compareSet st)). lia.
      * destruct (Z.leb_spec 3 (Z.of_nat (length (compareSet st)))); [exact Hlen|].
        pose proof (setAdd_length id (compareSet st)). lia.
Qed.

(** X11. Toggling a bookmark flips the membership of that id and of no
    other; the bookmarks stay free of repetitions; [onBookmarkChange]
    is told the new bookmarks; the comparison set is untouched; and a
    second toggle gives back the bookmarks there were. *)
Theorem toggleBookmark_flips (id title : jsstring) (st : State) :
  let st' := toggleBookmark id title st in
  (In id (bookmarked st') <-> ~ In id (bookmarked st))
  /\ (forall x, x <> id -> (In x (bookmarked st') <-> In x (bookmarked st)))
  /\ (List.NoDup (bookmarked st) -> List.NoDup (bookmarked st'))
  /\ reported st' = reported st ++ [bookmarked st']
  /\ compareSet st' = compareSet st
  /\ (forall x, In x (bookmarked (toggleBookmark id title st')) <-> In x (bookmarked st)).
Proof.
  assert (Hflip : forall s : State,
            (In id (bookmarked (toggleBookmark id title s)) <-> ~ In id (bookmarked s))
            /\ (forall x, x <> id ->
                  (In x (bookmarked (toggleBookmark id title s)) <-> In x (bookmarked s)))).
  { intros s. unfold toggleBookmark.
    destruct (setHas id (bookmarked s)) eqn:E; cbn [bookmarked].
    - apply setHas_true in E. split.
      + rewrite In_setDelete. tauto.
      + intros x Hx. rewrite In_setDelete. tauto.
    - apply setHas_false in E. split.
      + rewrite In_setAdd. tauto.
      + intros x Hx. rewrite In_setAdd. tauto. }
  cbv zeta. destruct (Hflip st) as [H1 H2].
  split; [exact H1|]. split; [exact H2|]. split; [|split; [|split]].
  - intros Hnd. unfold toggleBookmark.
    destruct (setHas id (bookmarked st)); cbn [bookmarked];
      [now apply NoDup_setDelete|now apply NoDup_setAdd].
  - unfold toggleBookmark. destruct (setHas id (bookmarked st)); reflexivity.
  - unfold toggleBookmark. destruct (setHas id (bookmarked st)); reflexivity.
  - intros x. destruct (Hflip (toggleBookmark id title st)) as [H3 H4].
    destruct (decide (x = id)) as [->|Hne].
    + rewrite H3, H1. destruct (List.in_dec (fun a b : jsstring => decide (a = b)) id (bookmarked st)); tauto.
    + rewrite H4, H2 by exact Hne. reflexivity.
Qed.

Lemma shown_In (items : list CareerRecommendation) (query : jsstring)
    (selectedStreams : list jsstring) (minFit : option number)
    (showBookmarksOnly : bool) (bookmarked : gset jsstring)
    (i : CareerRecommendation) :
  In i (shown items query selectedStreams minFit showBookmarksOnly bookmarked)
  <-> In i items
      /\ (trim query = [] \/ matchesText query i = true)
      /\ (selectedStreams = [] \/ In (stream i) selectedStreams)
      /\ (forall m, minFit = Some m -> nge (fitScore i) m = true)
      /\ (showBookmarksOnly = true -> recId i ∈ bookmarked).
Proof.
  unfold shown, matchesText.
  assert (Hs : forall l : list jsstring,
            List.existsb (fun s => bool_decide (s = stream i)) l = true <-> In (stream i) l).
  { intros l. rewrite List.existsb_exists. split.
    - intros (s & Hs & E). apply bool_decide_eq_true in E. now subst.
    - intros Hi. exists (stream i). split; [exact Hi|now apply bool_decide_eq_true]. }
  destruct showBookmarksOnly; [rewrite List.filter_In, bool_decide_eq_true|];
    (destruct minFit as [m|]; [rewrite List.filter_In|]);
    (destruct selectedStreams as [|s0 ss]; [|rewrite List.filter_In, Hs]);
    (destruct (trim query) as [|c0 cs]; [|rewrite List.filter_In]);
    split; intros Hyp; repeat split;
    try (intros ? [= <-]); try (intros [=]); try tauto; try (now left); try (now right);
    try (destruct Hyp as (? & ? & ? & Hm & ?); try apply (Hm _ eq_refl); intuition congruence).
Qed.

(** X13. A card is shown exactly when it is an item that passes every
    control in use: the text query unless it is blank, the selected
    streams unless none is selected, the minimum fit if one is set (a
    fit score of NaN fails it), and the bookmarks when only bookmarks
    are asked for. The comparison panel holds three cards at most, each
    of them shown and in the comparison set: a card that the controls
    hide is not compared. *)
Theorem filtered_membership (items : list CareerRecommendation) (st : State)
    (i : CareerRecommendation) :
  (In i (filteredOf items st)
   <-> In i items
       /\ (trim (query st) = [] \/ matchesText (query st) i = true)
       /\ (selectedStreams st = [] \/ In (stream i) (selectedStreams st))
       /\ (forall m, minFit st = Some m -> nge (fitScore i) m = true)
       /\ (showBookmarksOnly st = true -> In (recId i) (bookmarked st)))
  /\ (In i (compareItems items st) ->
      In i (filteredOf items st) /\ In (recId i) (compareSet st))
  /\ (length (compareItems items st) <= 3)%nat.
Proof.
  split; [|split].
  - unfold filteredOf, filtered. rewrite sortBy_In, shown_In.
    rewrite elem_of_list_to_set, list_elem_of_In. reflexivity.
  - unfold compareItems. intros Hi.
    assert (Hin : In i (List.filter (fun c => setHas (recId c) (compareSet st))
                          (filteredOf items st))).
    { rewrite <- (List.firstn_skipn 3 (List.filter _ _)). apply List.in_app_iff. now left. }
    apply List.filter_In in Hin as [Hshown Hset]. split; [exact Hshown|].
    now apply setHas_true.
  - unfold compareItems. rewrite List.length_firstn. lia.
Qed.

(** X14. After "clear filters" every item is shown again, highest fit
    first, items of equal fit in the order of the catalog, as long as
    no fit score is NaN; bookmarks and comparison set are kept. *)
Theorem clearFilters_shows_all (items : list CareerRecommendation) (st : State) :
  (forall i, In i items -> isNaN (fitScore i) = false) ->
  let out := filteredOf items (clearFilters st) in
  Permutation out items
  /\ StronglySorted (fun a b => nle (fitScore b) (fitScore a)) out
  /\ (forall c, In c items ->
        List.filter (tiedWith (recComparator fit_desc) c) out
        = List.filter (tiedWith (recComparator fit_desc) c) items)
  /\ bookmarked (clearFilters st) = bookmarked st
  /\ compareSet (clearFilters st) = compareSet st.
Proof.
  intros Hfit. cbv zeta.
  assert (E : filteredOf items (clearFilters st)
              = sortBy (fun a b => nsub (fitScore b) (fitScore a)) items) by reflexivity.
  rewrite E.
  destruct (sortBy_descending fitScore items Hfit) as (Hp & Hs & Ht).
  repeat split; assumption.
Qed.
End Cards.
Lemma norElse_ofZ z y : norElse (ofZ z) y = if z =? 0 then y else ofZ z.
Proof.
  unfold norElse, ofZ, Qeq_bool, inject_Z. cbn [Qnum Qden].
  rewrite Z.mul_1_r. cbn [Z.mul].
  destruct (Z.eqb_spec z 0) as [->|Hz]; [reflexivity|].
  destruct z; [contradiction|reflexivity..].
Qed.

Section StreamKey.
Import CareerRecommendations.
Context `{Host}.
Hypothesis Hcoll : consistentCollation H.

Lemma collation_zero_sym a b : localeCompare a b = 0 -> localeCompare b a = 0.
Proof. intros E. pose proof (proj1 Hcoll a b) as Hs. rewrite E in Hs. cbn in Hs. lia. Qed.

Lemma collation_neg_pos a b : localeCompare a b < 0 -> 0 < localeCompare b a.
Proof. intros E. pose proof (proj1 Hcoll a b) as Hs. lia. Qed.

Lemma precedes_stream_asc x y :
  isNaN (fitScore x) = false -> isNaN (fitScore y) = false ->
  precedes (recComparator stream_asc) x y <-> streamThenFit x y.
Proof.
  intros Hx Hy. unfold precedes, streamThenFit, nle. cbn [recComparator].
  rewrite norElse_ofZ.
  destruct (Z.eqb_spec (localeCompare (stream x) (stream y)) 0) as [E|E].
  - rewrite nsign_nsub by assumption. rewrite E. split; [right; auto|].
    intros [Hlt | [_ Hle]]; [lia|exact Hle].
  - rewrite nsign_ofZ, Z.compare_gt_iff. split; [left; lia|].
    intros [Hlt | [E0 _]]; [lia|contradiction].
Qed.

Lemma streamThenFit_trans x y z :
  isNaN (fitScore x) = false -> isNaN (fitScore y) = false -> isNaN (fitScore z) = false ->
  streamThenFit x y -> streamThenFit y z -> streamThenFit x z.
Proof.
  intros Hx Hy Hz Hxy Hyz. unfold streamThenFit in *.
  assert (Lxy : localeCompare (stream x) (stream y) <= 0) by (destruct Hxy as [?|[? _]]; lia).
  assert (Lyz : localeCompare (stream y) (stream z) <= 0) by (destruct Hyz as [?|[? _]]; lia).
  pose proof (proj2 Hcoll _ _ _ Lxy Lyz) as Lxz.
  destruct (Z.eq_dec (localeCompare (stream x) (stream z)) 0) as [E|E]; [right|left; lia].
  split; [exact E|].
  pose proof (collation_zero_sym _ _ E) as Ezx.
  destruct Hxy as [Hlt | [Exy Fxy]].
  { pose proof (collation_neg_pos _ _ Hlt).
    pose proof (proj2 Hcoll (stream y) (stream z) (stream x) Lyz ltac:(lia)). lia. }
  destruct Hyz as [Hlt | [Eyz Fyz]].
  { pose proof (collation_neg_pos _ _ Hlt).
    pose proof (proj2 Hcoll (stream z) (stream x) (stream y) ltac:(lia) Lxy). lia. }
  exact (ncompare_le_trans (fitScore z) (fitScore y) (fitScore x) Hz Hy Hx Fyz Fxy).
Qed.

Lemma stream_asc_consistent :
  consistentOn (recComparator stream_asc) (fun i => isNaN (fitScore i) = false).
Proof.
  split.
  - intros x y Hx Hy. cbn [recComparator]. rewrite !norElse_ofZ.
    pose proof (proj1 Hcoll (stream x) (stream y)) as Hs.
    destruct (Z.eqb_spec (localeCompare (stream x) (stream y)) 0) as [E|E];
      destruct (Z.eqb_spec (localeCompare (stream y) (stream x)) 0) as [E'|E']; try lia.
    + rewrite !nsign_nsub by assumption. apply ncompare_antisym.
    + rewrite !nsign_ofZ.
      destruct (Z.compare_spec (localeCompare (stream y) (stream x)) 0),
               (Z.compare_spec (localeCompare (stream x) (stream y)) 0);
        cbn; try reflexivity; lia.
  - intros x y z Hx Hy Hz. rewrite !precedes_stream_asc by assumption.
    now apply streamThenFit_trans.
Qed.

(** X15. On a host whose collation is a consistent comparator, the
    stream key orders the shown cards by stream, and the cards of one
    stream by fit, highest first; cards that tie on both keep their
    order. No fit score may be NaN. *)
Theorem stream_key_orders (items : list CareerRecommendation) (st : State) :
  sort st = stream_asc ->
  (forall i, In i items -> isNaN (fitScore i) = false) ->
  let out := filteredOf items st in
  StronglySorted streamThenFit out
  /\ Permutation out
       (shown items (query st) (selectedStreams st) (minFit st)
          (showBookmarksOnly st) (list_to_set (bookmarked st)))
  /\ forall c, In c items ->
       List.filter (tiedWith (recComparator stream_asc) c) out
       = List.filter (tiedWith (recComparator stream_asc) c)
           (shown items (query st) (selectedStreams st) (minFit st)
              (showBookmarksOnly st) (list_to_set (bookmarked st))).
Proof.
  intros Hsort Hfit. cbv zeta. unfold filteredOf, filtered. rewrite Hsort.
  set (l := shown _ _ _ _ _ _).
  assert (Hl : forall i, In i l -> isNaN (fitScore i) = false).
  { intros i Hi. apply Hfit. subst l. unfold shown in Hi.
    repeat match type of Hi with
           | In _ (if ?b then _ else _) => destruct b
           | In _ (match ?x with _ => _ end) => destruct x
           | In _ (List.filter _ _) => apply List.filter_In in Hi as [Hi _]
           end; exact Hi. }
  destruct (sortBy_spec (recComparator stream_asc) _ l stream_asc_consistent)
    as (Hperm & Hsorted & Hstable).
  { apply List.Forall_forall. exact Hl. }
  split; [|split; [exact Hperm|intros c Hc; apply Hstable, Hfit, Hc]].
  assert (Hout : forall i, In i (sortBy (recComparator stream_asc) l) ->
                           isNaN (fitScore i) = false).
  { intros i Hi. apply Hl. now apply (sortBy_In (recComparator stream_asc) l i). }
  revert Hout. generalize (sortBy (recComparator stream_asc) l) Hsorted. clear -Hcoll.
  intros l0 Hsorted. induction Hsorted as [|x rest Hs IH Hx]; intros Hout; constructor.
  - apply IH. intros i Hi. apply Hout. now right.
  - rewrite List.Forall_forall in Hx |- *. intros y Hy.
    apply precedes_stream_asc; [apply Hout; now left|apply Hout; now right|].
    now apply Hx.
Qed.
End StreamKey.

Lemma compare_at_most_three_witness :
  (length
     (CareerRecommendations.compareSet
        (List.fold_left
           (fun s '(id, title) => CareerRecommendations.toggleCompare id title s)
           [ (js "a", js "A"); (js "b", js "B"); (js "c", js "C");
             (js "d", js "D"); (js "a", js "A"); (js "e", js "E") ]
           (CareerRecommendations.initialState []))) <= 3)%nat.
Proof.
  destruct (compare_at_most_three
              [ (js "a", js "A"); (js "b", js "B"); (js "c", js "C");
                (js "d", js "D"); (js "a", js "A"); (js "e", js "E") ]
              (CareerRecommendations.initialState [])) as (_ & Hlen & _).
  - constructor.
  - cbn. lia.
  - exact Hlen.
Defined.

Lemma toggleBookmark_flips_witness :
  List.NoDup
    (CareerRecommendations.bookmarked
       (CareerRecommendations.toggleBookmark (js "eng-ai") (js "Computer Science")
          (CareerRecommendations.initialState [js "design-ux"; js "design-ux"]))).
Proof.
  destruct (toggleBookmark_flips (js "eng-ai") (js "Computer Science")
              (CareerRecommendations.initialState [js "design-ux"; js "design-ux"]))
    as (_ & _ & Hnd & _).
  apply Hnd. apply NoDup_setOf.
Defined.

Lemma allStreamsFromItems_distinct_witness :
  CareerRecommendations.allStreamsFromItems sampleCards
  = [js "Engineering"; js "Design"; js "Commerce"].
Proof.
  destruct (allStreamsFromItems_distinct sampleCards) as (_ & _ & Hcons).
  rewrite (Hcons _ _ eq_refl). reflexivity.
Defined.

Lemma filtered_membership_witness :
  forallb
    (fun i => bool_decide (CareerRecommendations.recId i = js "eng-ai"))
    (CareerRecommendations.filteredOf (H := ExampleHost.host) sampleCards narrowed)
  = true.
Proof.
  apply List.forallb_forall. intros i Hi.
  apply (proj1 (filtered_membership (H := ExampleHost.host) sampleCards narrowed i)) in Hi
    as (Hin & _ & _ & Hfit & Hb).
  specialize (Hb eq_refl). specialize (Hfit _ eq_refl).
  apply bool_decide_eq_true.
  cbn in Hin. destruct Hin as [<- | [<- | [<- | [<- | []]]]]; try reflexivity.
  - cbn in Hfit. discriminate.
  - cbn in Hfit. discriminate.
  - cbn in Hb. destruct Hb as [Hb | [Hb | []]]; discriminate.
Defined.

Lemma clearFilters_shows_all_witness :
  List.map CareerRecommendations.recId
    (CareerRecommendations.filteredOf (H := ExampleHost.host) sampleCards
       (CareerRecommendations.clearFilters narrowed))
  = [js "eng-civil"; js "eng-ai"; js "design-ux"; js "commerce-fin"]
  /\ Permutation
       (CareerRecommendations.filteredOf (H := ExampleHost.host) sampleCards
          (CareerRecommendations.clearFilters narrowed))
       sampleCards.
Proof.
  split; [reflexivity|].
  destruct (clearFilters_shows_all (H := ExampleHost.host) sampleCards narrowed)
    as (Hperm & _).
  - intros i Hi. cbn in Hi. destruct Hi as [<- | [<- | [<- | [<- | []]]]]; reflexivity.
  - exact Hperm.
Defined.

Lemma stream_key_orders_witness :
  List.map CareerRecommendations.recId
    (CareerRecommendations.filteredOf (H := ExampleHost.host) sampleCards byStream)
  = [js "commerce-fin"; js "design-ux"; js "eng-civil"; js "eng-ai"]
  /\ StronglySorted (streamThenFit (H := ExampleHost.host))
       (CareerRecommendations.filteredOf (H := ExampleHost.host) sampleCards byStream).
Proof.
  split; [reflexivity|].
  destruct (stream_key_orders (H := ExampleHost.host) exampleHost_consistentCollation
              sampleCards byStream) as (Hsorted & _).
  - reflexivity.
  - intros i Hi. cbn in Hi. destruct Hi as [<- | [<- | [<- | [<- | []]]]]; reflexivity.
  - exact Hsorted.
Defined.

(** ** The scholarship list: badges, relevance, tabs and order *)

Lemma ceilDays_le ms k : ceilDays ms <= k <-> ms <= k * msPerDay.
Proof.
  unfold ceilDays, msPerDay. Z.to_euclidean_division_equations. lia.
Qed.

Lemma consistentOn_swap {A} (cmp : A -> A -> number) (dom : A -> Prop) :
  consistentOn cmp dom -> consistentOn (fun a b => cmp b a) dom.
Proof.
  intros [Hanti Htrans]. split.
  - intros x y Hx Hy. apply (Hanti y x Hy Hx).
  - intros x y z Hx Hy Hz Hxy Hyz. exact (Htrans z y x Hz Hy Hx Hyz Hxy).
Qed.

Section TrackerList.
Import ScholarshipTracker.
Context `{Host}.

(** X16. The deadline badge goes by the whole days left, rounded up. A
    deadline that does not parse gets the outline badge "Due in NaNd",
    never "Closed". For a deadline that parses, the badge reads
    "Closed" exactly when the deadline is a full day or more in the
    past; it is destructive up to three days ahead, secondary from
    there up to ten days, outline beyond; and from less than a day ago
    up to three days ahead it reads "Closing in", the days, "d". *)
Theorem getDeadlineBadge_thresholds (now : Z) (deadlineISO : jsstring) :
  (parseDate deadlineISO = None ->
   getDeadlineBadge now deadlineISO = {| label := js "Due in NaNd"; variant := outline |})
  /\ (forall t, parseDate deadlineISO = Some t ->
        let b := getDeadlineBadge now deadlineISO in
        (label b = js "Closed" <-> t - now <= - msPerDay)
        /\ (variant b = destructive <-> t - now <= 3 * msPerDay)
        /\ (variant b = secondary <-> 3 * msPerDay < t - now <= 10 * msPerDay)
        /\ (variant b = outline <-> 10 * msPerDay < t - now)
        /\ (- msPerDay < t - now <= 3 * msPerDay ->
            label b = js "Closing in " ++ decimal (ceilDays (t - now)) ++ js "d")).
Proof.
  unfold getDeadlineBadge, daysUntil. split.
  - intros ->. reflexivity.
  - intros t ->. cbn [mbind option_bind below atMost daysText]. cbv zeta.
    pose proof (ceilDays_le (t - now) (-1)) as H1.
    pose proof (ceilDays_le (t - now) 3) as H3.
    pose proof (ceilDays_le (t - now) 10) as H10.
    destruct (Z.ltb_spec (ceilDays (t - now)) 0) as [L0|L0]; cbn [label variant].
    { repeat split; intros; try discriminate; try lia. }
    destruct (Z.leb_spec (ceilDays (t - now)) 3) as [L3|L3]; cbn [label variant].
    { repeat split; intros; try discriminate; try lia.
      unfold intToString.
      destruct (Z.ltb_spec (Z.abs (ceilDays (t - now))) (10 ^ 21)); [|lia].
      destruct (Z.ltb_spec (ceilDays (t - now)) 0); [lia|reflexivity]. }
    destruct (Z.leb_spec (ceilDays (t - now)) 10) as [L10|L10]; cbn [label variant].
    { repeat split; intros; try discriminate; try lia. }
    repeat split; intros; try discriminate; try lia.
Qed.

Lemma ngt_zero_zero : ngt (ofZ 0) (ofZ 0) = false.
Proof. reflexivity. Qed.

Lemma byTab_recommended_In trackedIds profile l s :
  In s (byTab TabRecommended trackedIds profile l)
  <-> In s l /\ ngt (relevanceScore s profile) (ofZ 0) = true.
Proof.
  unfold byTab. rewrite List.in_map_iff. split.
  - intros ([s' n] & <- & Hin). apply sortBy_In, List.filter_In in Hin as [Hin Hn].
    apply List.in_map_iff in Hin as (s0 & [= -> <-] & Hs0). cbn in *. auto.
  - intros [Hin Hn]. exists (s, relevanceScore s profile). split; [reflexivity|].
    apply sortBy_In, List.filter_In. split; [|exact Hn].
    apply List.in_map_iff. eauto.
Qed.

(** X17. The Recommended tab shows exactly the scholarships left by the
    filter controls whose relevance score is above 0; without a
    profile it is empty, whatever [recommendedScore] the scholarships
    carry. *)
Theorem recommended_tab_needs_score (scholarships : list Scholarship)
    (filters : FilterState) (trackedIds : list jsstring)
    (profile : option UserProfile) (now : Z) :
  (forall s,
     In s (filtered scholarships filters trackedIds TabRecommended profile now)
     <-> In s (byControls scholarships filters trackedIds now)
         /\ ngt (relevanceScore s profile) (ofZ 0) = true)
  /\ (profile = None ->
      filtered scholarships filters trackedIds TabRecommended profile now = []).
Proof.
  split.
  - intros s. unfold filtered. rewrite sortBy_In. apply byTab_recommended_In.
  - intros ->. unfold filtered.
    assert (E : byTab TabRecommended trackedIds None
                  (byControls scholarships filters trackedIds now) = []).
    { destruct (byTab TabRecommended trackedIds None _) as [|s l] eqn:E; [reflexivity|].
      assert (Hs : In s (s :: l)) by now left.
      rewrite <- E in Hs. apply byTab_recommended_In in Hs as [_ Hs].
      cbn [relevanceScore] in Hs. rewrite ngt_zero_zero in Hs. discriminate. }
    rewrite E. reflexivity.
Qed.

Lemma byControls_incl scholarships filters trackedIds now s :
  In s (byControls scholarships filters trackedIds now) -> In s scholarships.
Proof.
  unfold byControls.
  destruct (onlyTracked filters), (deadlineFilter filters), (eligibilityFilter filters),
    (typeFilter filters), (trim (q filters));
    repeat (rewrite List.filter_In; intros [? _]); auto;
    repeat match goal with H : In _ (List.filter _ _) |- _ => apply List.filter_In in H as [H _] end;
    auto.
Qed.

Lemma byTab_incl tab trackedIds profile l s :
  In s (byTab tab trackedIds profile l) -> In s l.
Proof.
  destruct tab.
  - auto.
  - rewrite byTab_recommended_In. tauto.
  - cbn. rewrite List.filter_In. tauto.
Qed.

Lemma byDeadline_consistent :
  consistentOn byDeadline (fun s => is_Some (parseDate (deadline s))).
Proof.
  unfold byDeadline. split.
  - intros x y [a Ha] [b Hb]. rewrite Ha, Hb. cbn [timeDiff].
    rewrite !nsign_ofZ.
    destruct (Z.compare_spec (b - a) 0), (Z.compare_spec (a - b) 0); cbn; try reflexivity; lia.
  - intros x y z [a Ha] [b Hb] [c Hc]. unfold precedes. rewrite Ha, Hb, Hc. cbn [timeDiff].
    rewrite !nsign_ofZ, !Z.compare_gt_iff. lia.
Qed.

Lemma sorted_by_deadline (l : list Scholarship) :
  (forall s, In s l -> is_Some (parseDate (deadline s))) ->
  StronglySorted (precedes byDeadline) l -> StronglySorted closesNoLater l.
Proof.
  intros Hd Hsorted. induction Hsorted as [|x rest Hs IH Hx]; constructor.
  - apply IH. intros s Hs'. apply Hd. now right.
  - rewrite List.Forall_forall in Hx |- *. intros y Hy. specialize (Hx y Hy).
    destruct (Hd x) as [a Ha]; [now left|].
    destruct (Hd y) as [b Hb]; [now right|].
    exists a, b. split; [exact Ha|]. split; [exact Hb|].
    unfold precedes, byDeadline in Hx. rewrite Ha, Hb in Hx. cbn [timeDiff] in Hx.
    rewrite nsign_ofZ, Z.compare_gt_iff in Hx. lia.
Qed.

(** X18. When every deadline parses, the list is in the order of the
    deadlines, closing sooner first, under every tab: the Recommended
    tab too ends up ordered by deadline, its order by relevance only
    deciding between equal deadlines. The list is a rearrangement of
    the scoped list and holds only scholarships it was given. *)
Theorem filtered_closing_sooner_first (scholarships : list Scholarship)
    (filters : FilterState) (trackedIds : list jsstring) (tab : Tab)
    (profile : option UserProfile) (now : Z) :
  (forall s, In s scholarships -> is_Some (parseDate (deadline s))) ->
  let scoped := byTab tab trackedIds profile
                  (byControls scholarships filters trackedIds now) in
  let out := filtered scholarships filters trackedIds tab profile now in
  Permutation out scoped
  /\ StronglySorted closesNoLater out
  /\ (forall s, In s out -> In s scholarships)
  /\ (forall s, In s scholarships ->
        List.filter (sameDeadline s) out = List.filter (sameDeadline s) scoped).
Proof.
  intros Hd scoped out.
  assert (Hin : forall s, In s scoped -> In s scholarships).
  { intros s Hs. eapply byControls_incl, byTab_incl, Hs. }
  destruct (sortBy_spec byDeadline _ scoped byDeadline_consistent)
    as (Hperm & Hsorted & Hstable).
  { apply List.Forall_forall. intros s Hs. apply Hd, Hin, Hs. }
  fold (filtered scholarships filters trackedIds tab profile now) in Hperm, Hsorted, Hstable.
  fold out in Hperm, Hsorted, Hstable.
  assert (Hout : forall s, In s out -> In s scholarships).
  { intros s Hs. apply Hin. eapply Permutation_in; eassumption. }
  split; [exact Hperm|]. split; [|split; [exact Hout|]].
  - apply sorted_by_deadline; [|exact Hsorted]. intros s Hs. apply Hd, Hout, Hs.
  - intros s Hs. specialize (Hstable s (Hd s Hs)).
    assert (E : forall x, In x scholarships ->
                  sameDeadline s x = tiedWith byDeadline s x).
    { intros x Hx. unfold sameDeadline, tiedWith, byDeadline.
      destruct (Hd s Hs) as [a ->]. destruct (Hd x Hx) as [b ->]. cbn [timeDiff].
      rewrite nsign_ofZ.
      destruct (Z.compare_spec (a - b) 0), (Z.eqb_spec a b); try reflexivity; lia. }
    rewrite (List.filter_ext_in _ _ out (fun x Hx => E x (Hout x Hx))).
    rewrite (List.filter_ext_in _ _ scoped (fun x Hx => E x (Hin x Hx))).
    exact Hstable.
Qed.

Lemma filter_idem {A} (p : A -> bool) (l : list A) :
  List.filter p (List.filter p l) = List.filter p l.
Proof.
  induction l as [|x l IH]; [reflexivity|]. cbn [List.filter].
  destruct (p x) eqn:E; cbn [List.filter]; rewrite ?E, IH; reflexivity.
Qed.

(** X19. The Tracked tab shows what the "only tracked" switch shows
    under the All tab, and every scholarship in it is tracked. *)
Theorem tracked_tab_is_only_tracked (scholarships : list Scholarship)
    (filters : FilterState) (trackedIds : list jsstring)
    (profile : option UserProfile) (now : Z) :
  filtered scholarships filters trackedIds TabTracked profile now
  = filtered scholarships
      {| q := q filters; typeFilter := typeFilter filters;
         deadlineFilter := deadlineFilter filters;
         eligibilityFilter := eligibilityFilter filters; onlyTracked := true |}
      trackedIds TabAll profile now
  /\ forall s, In s (filtered scholarships filters trackedIds TabTracked profile now) ->
               In (id s) trackedIds.
Proof.
  assert (E : byTab TabTracked trackedIds profile
                (byControls scholarships filters trackedIds now)
              = byControls scholarships
                  {| q := q filters; typeFilter := typeFilter filters;
                     deadlineFilter := deadlineFilter filters;
                     eligibilityFilter := eligibilityFilter filters; onlyTracked := true |}
                  trackedIds now).
  { unfold byTab, byControls. cbn [q typeFilter deadlineFilter eligibilityFilter onlyTracked].
    destruct (onlyTracked filters); [apply filter_idem|reflexivity]. }
  split.
  - unfold filtered. rewrite E. reflexivity.
  - intros s Hs. unfold filtered in Hs. apply sortBy_In in Hs. cbn [byTab] in Hs.
    apply List.filter_In in Hs as [_ Hs]. unfold isTracked in Hs.
    apply List.existsb_exists in Hs as (t & Ht & Et).
    apply bool_decide_eq_true in Et. now subst.
Qed.

Lemma scoreLine_bounds s p el score e :
  score <= scoreLine s p el score e <= score + 8.
Proof.
  unfold scoreLine.
  repeat match goal with
         | |- context [match ?x with _ => _ end] => destruct x
         end; lia.
Qed.

Lemma scoreLine_stateOnly s p score e st loc :
  stateOnly p -> given (state p) = Some st -> given (location s) = Some loc ->
  scoreLine s p [] score e
  = if bool_decide (toLowerCase loc = toLowerCase st) then score + 2 else score.
Proof.
  intros (He & Hc & Hg & Hf) Hst Hloc. unfold scoreLine.
  rewrite Hc, Hg, Hf, Hst, Hloc. reflexivity.
Qed.

(** X20. With a profile and no [recommendedScore], the relevance score
    is a whole number from 0 to 8 per eligibility line. The bonus for
    the state is counted once per eligibility line: for a profile that
    gives only the state, the score is twice the number of lines if the
    location is that state (whatever the case), and 0 if not. *)
Theorem relevanceScore_lines (s : Scholarship) (p : UserProfile) :
  recommendedScore s = None ->
  exists n,
    relevanceScore s (Some p) = ofZ n
    /\ 0 <= n <= 8 * Z.of_nat (length (eligibility s))
    /\ (lowersBasicLatin H -> stateOnly p ->
        forall st loc,
          given (state p) = Some st -> given (location s) = Some loc ->
          n = if bool_decide (toLowerCase loc = toLowerCase st)
              then 2 * Z.of_nat (length (eligibility s)) else 0).
Proof.
  intros Hrec. unfold relevanceScore. rewrite Hrec.
  eexists. split; [reflexivity|]. split.
  - assert (Hb : forall el l acc,
              acc <= List.fold_left (scoreLine s p el) l acc
                  <= acc + 8 * Z.of_nat (length l)).
    { intros el l. induction l as [|e l IH]; intros acc; cbn [List.fold_left length]; [lia|].
      specialize (IH (scoreLine s p el acc e)).
      pose proof (scoreLine_bounds s p el acc e). lia. }
    specialize (Hb (toLowerCase (default [] (given (educationLevel p)))) (eligibility s) 0).
    lia.
  - intros Hlow Hso st loc Hst Hloc.
    assert (Hel : toLowerCase (default [] (given (educationLevel p))) = []).
    { destruct Hso as (-> & _). cbn. apply (Hlow []). constructor. }
    rewrite Hel.
    assert (Hf : forall l acc,
              List.fold_left (scoreLine s p []) l acc
              = acc + (if bool_decide (toLowerCase loc = toLowerCase st)
                       then 2 * Z.of_nat (length l) else 0)).
    { induction l as [|e l IH]; intros acc; cbn [List.fold_left length].
      - destruct (bool_decide _); lia.
      - rewrite IH, (scoreLine_stateOnly s p acc e st loc Hso Hst Hloc).
        destruct (bool_decide _); lia. }
    rewrite Hf. destruct (bool_decide _); lia.
Qed.
End TrackerList.

Lemma getDeadlineBadge_thresholds_witness :
  ScholarshipTracker.variant
    (ScholarshipTracker.getDeadlineBadge (H := ExampleHost.host) sampleNow (js "2024-05-12"))
  = ScholarshipTracker.destructive
  /\ ScholarshipTracker.getDeadlineBadge (H := ExampleHost.host) sampleNow (js "soon")
     = {| ScholarshipTracker.label := js "Due in NaNd";
          ScholarshipTracker.variant := ScholarshipTracker.outline |}.
Proof.
  destruct (getDeadlineBadge_thresholds (H := ExampleHost.host) sampleNow (js "2024-05-12"))
    as (_ & Hdate).
  destruct (getDeadlineBadge_thresholds (H := ExampleHost.host) sampleNow (js "soon"))
    as (Hnone & _).
  split; [|apply Hnone; reflexivity].
  destruct (Hdate 1715472000000 eq_refl) as (_ & Hdes & _).
  apply Hdes. unfold sampleNow, msPerDay. lia.
Defined.

Lemma recommended_tab_needs_score_witness :
  ScholarshipTracker.filtered (H := ExampleHost.host) sampleGrants
    ScholarshipTracker.defaultFilters [] ScholarshipTracker.TabRecommended None sampleNow
  = [].
Proof.
  destruct (recommended_tab_needs_score (H := ExampleHost.host) sampleGrants
              ScholarshipTracker.defaultFilters [] None sampleNow) as (_ & Hnone).
  apply Hnone. reflexivity.
Defined.

Lemma sampleGrants_dated :
  forall s, In s sampleGrants ->
            is_Some (parseDate (H := ExampleHost.host) (ScholarshipTracker.deadline s)).
Proof.
  intros s Hs. cbn in Hs. destruct Hs as [<- | [<- | [<- | []]]]; eexists; reflexivity.
Qed.

Lemma filtered_closing_sooner_first_witness :
  List.map ScholarshipTracker.id
    (ScholarshipTracker.filtered (H := ExampleHost.host) sampleGrants
       ScholarshipTracker.defaultFilters [] ScholarshipTracker.TabRecommended
       (Some keralaProfile) sampleNow)
  = [js "g2"; js "g3"; js "g1"]
  /\ StronglySorted (closesNoLater (H := ExampleHost.host))
       (ScholarshipTracker.filtered (H := ExampleHost.host) sampleGrants
          ScholarshipTracker.defaultFilters [] ScholarshipTracker.TabRecommended
          (Some keralaProfile) sampleNow).
Proof.
  split; [reflexivity|].
  destruct (filtered_closing_sooner_first (H := ExampleHost.host) sampleGrants
              ScholarshipTracker.defaultFilters [] ScholarshipTracker.TabRecommended
              (Some keralaProfile) sampleNow sampleGrants_dated) as (_ & Hsorted & _).
  exact Hsorted.
Defined.

Lemma tracked_tab_is_only_tracked_witness :
  List.map ScholarshipTracker.id
    (ScholarshipTracker.filtered (H := ExampleHost.host) sampleGrants
       ScholarshipTracker.defaultFilters [js "g3"; js "g1"]
       ScholarshipTracker.TabTracked None sampleNow)
  = [js "g3"; js "g1"]
  /\ List.Forall (fun s => In (ScholarshipTracker.id s) [js "g3"; js "g1"])
       (ScholarshipTracker.filtered (H := ExampleHost.host) sampleGrants
          ScholarshipTracker.defaultFilters [js "g3"; js "g1"]
          ScholarshipTracker.TabTracked None sampleNow).
Proof.
  split; [reflexivity|].
  destruct (tracked_tab_is_only_tracked (H := ExampleHost.host) sampleGrants
              ScholarshipTracker.defaultFilters [js "g3"; js "g1"] None sampleNow)
    as (_ & Htracked).
  apply List.Forall_forall. exact Htracked.
Defined.

Lemma relevanceScore_lines_witness :
  List.map
    (fun s => ScholarshipTracker.relevanceScore (H := ExampleHost.host) s (Some keralaProfile))
    sampleGrants
  = [ofZ 9; ofZ 2; ofZ 4]
  /\ exists n,
       ScholarshipTracker.relevanceScore (H := ExampleHost.host)
         (grant "g3" "2024-05-20" ["Undergraduate"; "Female"]%string None)
         (Some keralaProfile) = ofZ n
       /\ 0 <= n <= 16.
Proof.
  split; [reflexivity|].
  destruct (relevanceScore_lines (H := ExampleHost.host)
              (grant "g3" "2024-05-20" ["Undergraduate"; "Female"]%string None)
              keralaProfile eq_refl) as (n & Hn & Hb & _).
  exists n. split; [exact Hn|exact Hb].
Defined.

(** ** The tracker: status, checklist, reminder and the amount sort *)

Lemma insertByE_pure_on {A} (cmpE : A -> A -> result number) (cmp : A -> A -> number)
    (x : A) (l : list A) :
  (forall y, In y l -> cmpE x y = Ok (cmp x y)) ->
  insertByE cmpE x l = Ok (insertBy cmp x l).
Proof.
  induction l as [|y l IH]; intros Hc; [reflexivity|].
  cbn [insertByE insertBy]. rewrite (Hc y) by now left.
  cbn [mbind result_bind].
  destruct (nsign (cmp x y)); try reflexivity.
  rewrite IH; [reflexivity|]. intros z Hz. apply Hc. now right.
Qed.

Lemma sortByE_pure_on {A} (cmpE : A -> A -> result number) (cmp : A -> A -> number)
    (l : list A) :
  (forall x y, In x l -> In y l -> cmpE x y = Ok (cmp x y)) ->
  sortByE cmpE l = Ok (sortBy cmp l).
Proof.
  induction l as [|x l IH]; intros Hc; [reflexivity|].
  cbn [sortByE]. rewrite IH by (intros a b Ha Hb; apply Hc; now right).
  cbn [mbind result_bind].
  change (sortBy cmp (x :: l)) with (insertBy cmp x (sortBy cmp l)).
  apply insertByE_pure_on. intros y Hy. apply Hc; [now left|].
  right. now apply (sortBy_In cmp l y).
Qed.

Section TrackerHandlers.
Import ScholarshipsTrackerSection.
Context `{Host}.

(** X21. Ticking a document of a tracked scholarship records the tick
    and nothing else: the checklist has the document at the value
    given (a document not listed before is added), the other documents,
    the status, the reminder and the date of saving are as before, and
    so is every other tracked scholarship; unticking and ticking again
    ends in the same state. On a scholarship that is not tracked the
    handler changes nothing. (Ids that name a member of
    [Object.prototype] are left aside.) *)
Theorem handleChecklistToggle_ticks (id doc : jsstring) (checked : bool)
    (prev : gmap jsstring TrackedItem) :
  id ∉ inheritedKeys ->
  (prev !! id = None -> handleChecklistToggle id doc checked prev = Some prev)
  /\ (forall current, prev !! id = Some current ->
        exists next item,
          handleChecklistToggle id doc checked prev = Some next
          /\ next !! id = Some item
          /\ checklist item !! doc = Some checked
          /\ (forall d, d <> doc -> checklist item !! d = checklist current !! d)
          /\ status item = status current
          /\ reminderDate item = reminderDate current
          /\ savedAt item = savedAt current
          /\ (forall k, k <> id -> next !! k = prev !! k)
          /\ handleChecklistToggle id doc (negb checked) next
             ≫= handleChecklistToggle id doc checked = Some next).
Proof.
  intros Hid. unfold handleChecklistToggle.
  rewrite (bool_decide_eq_false_2 _ Hid). split.
  - intros ->. reflexivity.
  - intros current ->. eexists _, _. split; [reflexivity|].
    split; [apply lookup_insert_eq|]. cbn [checklist status reminderDate savedAt].
    split; [apply lookup_insert_eq|].
    split; [intros d Hd; now apply lookup_insert_ne|].
    do 3 (split; [reflexivity|]).
    split; [intros k Hk; now apply lookup_insert_ne|].
    rewrite lookup_insert_eq. cbn [mbind option_bind].
    rewrite lookup_insert_eq.
    cbn [itemId checklist status reminderDate savedAt].
    rewrite !insert_insert_eq. reflexivity.
Qed.

(** X22. A change of status always leaves a record with that status
    under the id, and touches no other record. A record that existed
    keeps its checklist, reminder and date of saving; for an id with no
    record one is created on the spot, with an empty checklist and no
    reminder, even though the scholarship was never saved. (Ids that
    name a member of [Object.prototype] are left aside.) *)
Theorem handleStatusChange_sets (now : Z) (id : jsstring) (s : Status)
    (prev : gmap jsstring TrackedItem) :
  id ∉ inheritedKeys ->
  exists next item,
    handleStatusChange now id s prev = Some next
    /\ next !! id = Some item /\ status item = s
    /\ (forall k, k <> id -> next !! k = prev !! k)
    /\ (forall current, prev !! id = Some current ->
          itemId item = itemId current /\ checklist item = checklist current
          /\ reminderDate item = reminderDate current
          /\ savedAt item = savedAt current)
    /\ (prev !! id = None ->
          itemId item = VStr id /\ checklist item = ∅
          /\ reminderDate item = None /\ savedAt item = now).
Proof.
  intros Hid. unfold handleStatusChange.
  rewrite (bool_decide_eq_false_2 _ Hid). eexists _, _.
  split; [reflexivity|]. split; [apply lookup_insert_eq|].
  cbn [itemId checklist status reminderDate savedAt].
  split; [reflexivity|]. split; [intros k Hk; now apply lookup_insert_ne|].
  split.
  - intros current ->. cbn. auto.
  - intros ->. cbn. auto.
Qed.

(** X23. Asking for a reminder on a scholarship with no record creates
    the very record a first save creates; on a scholarship with a
    record it replaces the reminder by the current suggestion and keeps
    the rest; and when the suggestion raises, the handler raises before
    anything is written. (Ids that name a member of [Object.prototype]
    are left aside.) *)
Theorem handleReminder_agrees_with_save (now : Z) (s : Scholarship)
    (prev : gmap jsstring TrackedItem) :
  ToString (id s) ∉ inheritedKeys ->
  (prev !! ToString (id s) = None ->
   handleReminder now s prev = (next ← seedTracked now s prev; Ok (Some next)))
  /\ (forall current, prev !! ToString (id s) = Some current ->
      forall r, suggestReminder now (deadline s) = Ok r ->
        handleReminder now s prev
        = Ok (Some (<[ToString (id s) :=
                       {| itemId := itemId current; status := status current;
                          reminderDate := Some r; checklist := checklist current;
                          savedAt := savedAt current |}]> prev)))
  /\ (forall e, suggestReminder now (deadline s) = Throw e ->
        handleReminder now s prev = Throw e).
Proof.
  intros Hid. unfold handleReminder, seedTracked.
  rewrite !(bool_decide_eq_false_2 _ Hid). split; [|split].
  - intros Hnone. rewrite Hnone.
    rewrite bool_decide_eq_false_2 by (intros [x Hx]; congruence).
    cbn [orb default]. destruct (suggestReminder now (deadline s)); reflexivity.
  - intros current -> r ->. reflexivity.
  - intros e ->. reflexivity.
Qed.

Lemma parseAmount_priced s :
  pricedEntry s -> parseAmount (amount s) = Ok (amountOf s) /\ isNaN (amountOf s) = false.
Proof.
  unfold amountOf. intros [(n & -> & Hn) | (t & ->)]; [cbn; auto|].
  unfold parseAmount.
  destruct (endsWith _ (js "k")).
  - split; [reflexivity|]. destruct (isNaN (parseFloat _)) eqn:E; [reflexivity|].
    now apply nmul_1000_not_NaN.
  - split; [reflexivity|]. destruct (isNaN (parseFloat _)) eqn:E; [reflexivity|exact E].
Qed.

Lemma amountComparator_priced o a b :
  pricedEntry a -> pricedEntry b -> amountComparator o a b = Ok (byAmount o a b).
Proof.
  intros Ha Hb. unfold amountComparator, byAmount.
  rewrite (proj1 (parseAmount_priced a Ha)), (proj1 (parseAmount_priced b Hb)).
  destruct o; reflexivity.
Qed.

(** X24. With the amount sort on, and amounts that are strings or
    numbers other than NaN, the list comes out in the order of the
    amounts read by [parseAmount], ascending or descending as chosen;
    it is a rearrangement of what the same controls show without the
    sort, and records that read as the same amount keep their order. *)
Theorem amount_sort_orders (c : Criteria) (now : Z) (l out : list Scholarship)
    (o : AmountOrder) :
  (forall s, In s l -> pricedEntry s) ->
  amountOrder c = Some o ->
  filtered c now l = Ok out ->
  StronglySorted
    (fun a b => match o with
                | asc => nle (amountOf a) (amountOf b)
                | desc => nle (amountOf b) (amountOf a)
                end) out
  /\ exists unsorted,
       filtered {| query := query c; categoryFilter := categoryFilter c;
                   eligibilityFilter := eligibilityFilter c; amountOrder := None;
                   deadlineWindow := deadlineWindow c |} now l = Ok unsorted
       /\ Permutation out unsorted
       /\ forall s, In s l ->
            List.filter (tiedWith (byAmount o) s) out
            = List.filter (tiedWith (byAmount o) s) unsorted.
Proof.
  intros Hl Ho Hf.
  assert (Hincl := filtered_incl c now l out Hf).
  unfold filtered in Hf |- *. cbn [query categoryFilter eligibilityFilter amountOrder deadlineWindow].
  rewrite Ho in Hf.
  apply bind_Ok in Hf as (list1 & E1 & Hf). rewrite E1. cbn [mbind result_bind].
  apply bind_Ok in Hf as (list3 & E3 & Hf). rewrite E3. cbn [mbind result_bind].
  apply bind_Ok in Hf as (list4 & E4 & Hf). rewrite E4. cbn [mbind result_bind].
  assert (H4 : forall s, In s list4 -> In s l).
  { intros s Hs.
    assert (Hp : Permutation out list4) by (eapply sortByE_perm; exact Hf).
    apply Hincl. eapply Permutation_in; [symmetry; exact Hp|exact Hs]. }
  rewrite (sortByE_pure_on (amountComparator o) (byAmount o) list4) in Hf.
  2:{ intros x y Hx Hy. apply amountComparator_priced; apply Hl, H4; assumption. }
  injection Hf as <-.
  assert (Hcons : consistentOn (byAmount o) (fun s => isNaN (amountOf s) = false)).
  { destruct o; cbn [byAmount].
    - apply (consistentOn_swap (fun a b => nsub (amountOf b) (amountOf a))),
        (consistent_descending amountOf).
    - apply (consistent_descending amountOf). }
  destruct (sortBy_spec (byAmount o) _ list4 Hcons) as (Hperm & Hsorted & Hstable).
  { apply List.Forall_forall. intros s Hs. apply parseAmount_priced, Hl, H4, Hs. }
  split.
  - assert (Hout : forall s, In s (sortBy (byAmount o) list4) -> isNaN (amountOf s) = false).
    { intros s Hs. apply parseAmount_priced, Hl, H4. now apply (sortBy_In (byAmount o) list4 s). }
    revert Hout. generalize (sortBy (byAmount o) list4) Hsorted. clear.
    intros l0 Hsorted. induction Hsorted as [|x rest Hs IH Hx]; intros Hout; constructor.
    + apply IH. intros s Hs'. apply Hout. now right.
    + rewrite List.Forall_forall in Hx |- *. intros y Hy. specialize (Hx y Hy).
      unfold precedes in Hx. unfold nle.
      destruct o; cbn [byAmount] in Hx;
        rewrite nsign_nsub in Hx by (apply Hout; (now left) || (now right)); exact Hx.
  - exists list4. split; [reflexivity|]. split; [exact Hperm|].
    intros s Hs. apply Hstable, parseAmount_priced, Hl, Hs.
Qed.
End TrackerHandlers.

Lemma handleChecklistToggle_ticks_witness :
  (ScholarshipsTrackerSection.handleChecklistToggle (js "s1") (js "Bank Passbook") true
     (ScholarshipsTrackerSection.tracked trackerSample)
   ≫= fun next => next !! js "s1"
   ≫= fun item => ScholarshipsTrackerSection.checklist item !! js "Bank Passbook")
  = Some true
  /\ ScholarshipsTrackerSection.handleChecklistToggle (js "s2") (js "Bank Passbook") true
       (ScholarshipsTrackerSection.tracked trackerSample)
     = Some (ScholarshipsTrackerSection.tracked trackerSample).
Proof.
  assert (Hs1 : js "s1" ∉ ScholarshipsTrackerSection.inheritedKeys).
  { intros Hin. apply list_elem_of_In in Hin. cbn in Hin.
    repeat (destruct Hin as [Hin | Hin]; [discriminate|]). exact Hin. }
  assert (Hs2 : js "s2" ∉ ScholarshipsTrackerSection.inheritedKeys).
  { intros Hin. apply list_elem_of_In in Hin. cbn in Hin.
    repeat (destruct Hin as [Hin | Hin]; [discriminate|]). exact Hin. }
  destruct (handleChecklistToggle_ticks (js "s1") (js "Bank Passbook") true
              (ScholarshipsTrackerSection.tracked trackerSample) Hs1) as (_ & Hsome).
  destruct (handleChecklistToggle_ticks (js "s2") (js "Bank Passbook") true
              (ScholarshipsTrackerSection.tracked trackerSample) Hs2) as (Hnone & _).
  split; [|apply Hnone; reflexivity].
  destruct (Hsome meritGrantItem) as (next & item & -> & Hitem & Hdoc & _).
  - change (({[ js "s1" := meritGrantItem ]} : gmap jsstring _) !! js "s1" = Some meritGrantItem).
    apply lookup_singleton_eq.
  - cbn [mbind option_bind]. rewrite Hitem. cbn [mbind option_bind]. exact Hdoc.
Defined.

Lemma handleStatusChange_sets_witness :
  (ScholarshipsTrackerSection.handleStatusChange sampleNow (js "s9")
     ScholarshipsTrackerSection.submitted
     (ScholarshipsTrackerSection.tracked trackerSample)
   ≫= fun next => ScholarshipsTrackerSection.status <$> next !! js "s9")
  = Some ScholarshipsTrackerSection.submitted.
Proof.
  destruct (handleStatusChange_sets sampleNow (js "s9")
              ScholarshipsTrackerSection.submitted
              (ScholarshipsTrackerSection.tracked trackerSample))
    as (next & item & -> & Hitem & Hst & _).
  - intros Hin. apply list_elem_of_In in Hin. cbn in Hin.
    repeat (destruct Hin as [Hin | Hin]; [discriminate|]). exact Hin.
  - cbn [mbind option_bind]. rewrite Hitem. cbn. now rewrite Hst.
Defined.

Lemma handleReminder_agrees_with_save_witness :
  ScholarshipsTrackerSection.handleReminder (H := ExampleHost.host) sampleNow meritGrant ∅
  = (next ← ScholarshipsTrackerSection.seedTracked (H := ExampleHost.host)
              sampleNow meritGrant ∅;
     Ok (Some next)).
Proof.
  destruct (handleReminder_agrees_with_save (H := ExampleHost.host) sampleNow meritGrant ∅)
    as (Hnew & _).
  - intros Hin. apply list_elem_of_In in Hin. cbn in Hin.
    repeat (destruct Hin as [Hin | Hin]; [discriminate|]). exact Hin.
  - apply Hnew. apply lookup_empty.
Defined.

Lemma sampleCatalog_priced :
  forall s, In s sampleCatalog -> pricedEntry s.
Proof.
  intros s Hs. cbn in Hs.
  destruct Hs as [<- | [<- | [<- | [<- | [<- | []]]]]];
    first [ right; eexists; reflexivity
          | left; eexists; split; reflexivity ].
Qed.

Lemma amount_sort_orders_witness :
  idsOf (ScholarshipsTrackerSection.filtered (H := ExampleHost.host)
           cheapestFirst sampleNow sampleCatalog)
  = Ok [VStr (js "s4"); VStr (js "s5"); VStr (js "s1"); VStr (js "s2"); VStr (js "s3")]
  /\ exists out,
       ScholarshipsTrackerSection.filtered (H := ExampleHost.host)
         cheapestFirst sampleNow sampleCatalog = Ok out
       /\ StronglySorted
            (fun a b => nle (amountOf (H := ExampleHost.host) a)
                            (amountOf (H := ExampleHost.host) b)) out.
Proof.
  split; [vm_compute; reflexivity|].
  destruct (ScholarshipsTrackerSection.filtered (H := ExampleHost.host)
              cheapestFirst sampleNow sampleCatalog) as [out|e] eqn:E;
    [|vm_compute in E; discriminate].
  exists out. split; [reflexivity|].
  destruct (amount_sort_orders (H := ExampleHost.host) cheapestFirst sampleNow
              sampleCatalog out ScholarshipsTrackerSection.asc
              sampleCatalog_priced eq_refl E) as (Hsorted & _).
  exact Hsorted.
Defined.

(** ** Courses: salary ranges, the level menu, and the map zoom *)

(** ** Salary ranges *)

Lemma parseSalary_integer s : exists z, CareerRecommendationsSection.parseSalary s = ofZ z.
Proof.
  unfold CareerRecommendationsSection.parseSalary.
  destruct s as [[|c s]|]; [eexists; reflexivity| |eexists; reflexivity].
  destruct (splitOn _ _) as [|p1 [|p2 rest]]; cbn [List.map].
  - eexists; reflexivity.
  - rewrite norElse_ofZ. destruct (_ =? 0); eexists; reflexivity.
  - rewrite (norElse_ofZ (digitsValue p2)).
    destruct (digitsValue p2 =? 0); rewrite norElse_ofZ;
      match goal with |- context [?z =? 0] => destruct (z =? 0) end;
      eexists; reflexivity.
Qed.

Lemma parseSalary_not_NaN s : isNaN (CareerRecommendationsSection.parseSalary s) = false.
Proof. destruct (parseSalary_integer s) as [z ->]. reflexivity. Qed.

Lemma digit_not_dash c : isDigit c = true -> isDash c = false.
Proof.
  unfold isDigit, isDash. intros Hc. apply andb_prop in Hc as [H1 H2].
  apply N.leb_le in H1, H2. apply orb_false_iff. split; apply N.eqb_neq; lia.
Qed.

Lemma filter_kept_plain s :
  List.forallb (fun c => negb (isDash c)) s = true ->
  List.filter (fun c => isDigit c || ((c =? 45) || (c =? 8211))%N) s = List.filter isDigit s.
Proof.
  intros Hs. apply List.filter_ext_in. intros c Hc.
  assert (Hd := proj1 (List.forallb_forall _ _) Hs c Hc).
  apply negb_true_iff in Hd. unfold isDash in Hd. rewrite Hd. apply orb_false_r.
Qed.

Lemma digits_plain s :
  List.forallb (fun c => negb (isDash c)) (List.filter isDigit s) = true.
Proof.
  apply List.forallb_forall. intros c Hc. apply List.filter_In in Hc as [_ Hc].
  apply negb_true_iff, digit_not_dash, Hc.
Qed.

(** X25. The salary read from a range is its upper bound: of a text
    with one dash (hyphen or en dash), the number spelled by the digits
    after the dash, or the one before the dash when the former is 0; of
    a text without a dash, the number spelled by its digits; and 0 for
    a missing or empty text. *)
Theorem parseSalary_upper_bound :
  CareerRecommendationsSection.parseSalary None = ofZ 0
  /\ CareerRecommendationsSection.parseSalary (Some []) = ofZ 0
  /\ (forall s, s <> [] -> List.forallb (fun c => negb (isDash c)) s = true ->
        CareerRecommendationsSection.parseSalary (Some s) = ofZ (digitsIn s))
  /\ (forall a dash b,
        isDash dash = true ->
        List.forallb (fun c => negb (isDash c)) a = true ->
        List.forallb (fun c => negb (isDash c)) b = true ->
        CareerRecommendationsSection.parseSalary (Some (a ++ dash :: b))
        = ofZ (if digitsIn b =? 0 then digitsIn a else digitsIn b)).
Proof.
  split; [reflexivity|]. split; [reflexivity|]. split.
  - intros s Hne Hs. unfold CareerRecommendationsSection.parseSalary, digitsIn.
    destruct s as [|c s]; [congruence|]. cbv beta zeta.
    change (fun c : N => ((c =? 45) || (c =? 8211))%N) with isDash.
    rewrite (filter_kept_plain (c :: s) Hs).
    rewrite (splitOn_plain _ _ (digits_plain (c :: s))). cbn [List.map].
    rewrite norElse_ofZ. destruct (Z.eqb_spec (digitsValue (List.filter isDigit (c :: s))) 0) as [->|]; reflexivity.
  - intros a dash b Hdash Ha Hb.
    unfold CareerRecommendationsSection.parseSalary, digitsIn.
    destruct (a ++ dash :: b) as [|c0 s0] eqn:E; [now destruct a|]. rewrite <- E. clear E c0 s0.
    cbv beta zeta. change (fun c : N => ((c =? 45) || (c =? 8211))%N) with isDash.
    rewrite List.filter_app. cbn [List.filter].
    assert (Hk : (isDigit dash || ((dash =? 45) || (dash =? 8211))%N) = true).
    { unfold isDash in Hdash. rewrite Hdash. apply orb_true_r. }
    rewrite Hk, (filter_kept_plain a Ha), (filter_kept_plain b Hb).
    rewrite (splitOn_at _ _ dash _ (digits_plain a) Hdash).
    rewrite (splitOn_plain _ _ (digits_plain b)). cbn [List.map].
    rewrite (norElse_ofZ (digitsValue (List.filter isDigit b))).
    destruct (Z.eqb_spec (digitsValue (List.filter isDigit b)) 0) as [Eb|Eb];
      rewrite norElse_ofZ.
    + destruct (Z.eqb_spec (digitsValue (List.filter isDigit a)) 0) as [->|]; reflexivity.
    + destruct (Z.eqb_spec (digitsValue (List.filter isDigit b)) 0); [contradiction|reflexivity].
Qed.

Section Courses.
Import CareerRecommendationsSection.
Context `{Host}.

(** X26. The salary key orders the courses by the upper bound of their
    salary range, highest first, courses with the same bound in the
    order of the catalog; the result is a rearrangement of the courses
    left by the level and search filters. This holds for every
    catalog: the bound read is never NaN. *)
Theorem salary_sort_orders (courses : list Course) (lvl : FilterLevel) (search : jsstring) :
  let shownCourses := bySearch courses lvl search in
  let out := filteredCourses courses lvl search salary in
  Permutation out shownCourses
  /\ StronglySorted
       (fun a b => nle (parseSalary (salaryRange b)) (parseSalary (salaryRange a))) out
  /\ (forall c,
        List.filter (tiedWith withSalarySort c) out
        = List.filter (tiedWith withSalarySort c) shownCourses).
Proof.
  cbv zeta.
  destruct (sortBy_descending (fun c => parseSalary (salaryRange c))
              (bySearch courses lvl search)
              (fun c _ => parseSalary_not_NaN (salaryRange c)))
    as (Hperm & Hsorted & Hstable).
  change (sortBy _ (bySearch courses lvl search))
    with (filteredCourses courses lvl search salary) in Hperm, Hsorted, Hstable.
  split; [exact Hperm|]. split; [exact Hsorted|].
  intros c.
  destruct (sortBy_spec withSalarySort (fun a => isNaN (parseSalary (salaryRange a)) = false)
              (bySearch courses lvl search)
              (consistent_descending (fun c => parseSalary (salaryRange c))))
    as (_ & _ & Hst).
  { apply List.Forall_forall. intros x _. apply parseSalary_not_NaN. }
  apply Hst, parseSalary_not_NaN.
Qed.

Lemma bySearch_In courses lvl search c :
  In c (bySearch courses lvl search)
  <-> In c courses /\ levelAdmits lvl c
      /\ (search = [] \/ courseMatches search c = true).
Proof.
  unfold bySearch.
  set (byLevel := match lvl with
                  | LevelAll => courses
                  | LevelOf l => _
                  | Level10plus2 => _
                  end).
  assert (Hl : In c byLevel <-> In c courses /\ levelAdmits lvl c).
  { subst byLevel. destruct lvl as [|l|]; cbn [levelAdmits].
    - tauto.
    - rewrite List.filter_In, orb_true_iff, andb_true_iff, !bool_decide_eq_true.
      split; [intros [? [? | [? ?]]]; split; congruence|tauto].
    - rewrite List.filter_In. split; [intros [_ [=]]|tauto]. }
  destruct search as [|c0 cs].
  - rewrite Hl. split; [intros [? ?]; auto|tauto].
  - rewrite List.filter_In, Hl. fold (courseMatches (c0 :: cs) c).
    split; [intros [[? ?] ?]; auto|].
    intros (? & ? & [[=] | ?]). auto.
Qed.

(** X27. A course is listed exactly when it is in the catalog, the
    level menu admits it and the search text, if any, occurs in its
    title, stream or description; the sort key only rearranges the
    list; and the level "10+2" lists no course at all. *)
Theorem filteredCourses_membership (courses : list Course) (lvl : FilterLevel)
    (search : jsstring) (sort : SortKey) (c : Course) :
  (In c (filteredCourses courses lvl search sort)
   <-> In c courses /\ levelAdmits lvl c
       /\ (search = [] \/ courseMatches search c = true))
  /\ Permutation (filteredCourses courses lvl search sort) (bySearch courses lvl search)
  /\ filteredCourses courses Level10plus2 search sort = [].
Proof.
  split; [|split].
  - unfold filteredCourses. rewrite sortBy_In. apply bySearch_In.
  - apply sortBy_perm.
  - destruct (filteredCourses courses Level10plus2 search sort) as [|x l] eqn:E; [reflexivity|].
    assert (Hx : In x (filteredCourses courses Level10plus2 search sort))
      by (rewrite E; now left).
    unfold filteredCourses in Hx. apply sortBy_In, bySearch_In in Hx as (_ & [] & _).
Qed.
End Courses.

(** ** The map zoom *)

Lemma nleb_iff a b :
  isNaN a = false -> isNaN b = false -> (nleb a b = true <-> nle a b).
Proof.
  intros Ha Hb. unfold nleb, nge, nle.
  destruct a as [| | |x], b as [| | |y]; try discriminate; cbn;
    try (split; [intros _; discriminate|reflexivity]);
    try (split; [discriminate|intros Hc; now contradiction Hc]).
  rewrite Qcompare_sub_0, <- (Qcompare_antisym x y).
  destruct (Qcompare x y); cbn; split; congruence.
Qed.

Lemma nle_trans a b c :
  isNaN a = false -> isNaN b = false -> isNaN c = false ->
  nle a b -> nle b c -> nle a c.
Proof. apply ncompare_le_trans. Qed.

(** X28. The zoom level of the map is between 9 and 14 and never grows
    with the radius: 14 up to 7 km, 9 beyond 70 km, and 9 for a radius
    that is NaN. *)
Theorem zoomForRadius_monotone :
  (forall r, 9 <= CollegesMapSection.zoomForRadius r <= 14)
  /\ CollegesMapSection.zoomForRadius NaN = 9
  /\ (forall r1 r2,
        isNaN r1 = false -> isNaN r2 = false -> nle r1 r2 ->
        CollegesMapSection.zoomForRadius r2 <= CollegesMapSection.zoomForRadius r1)
  /\ (forall r, nle r (ofZ 7) -> isNaN r = false -> CollegesMapSection.zoomForRadius r = 14)
  /\ (forall r, ~ nle r (ofZ 70) -> CollegesMapSection.zoomForRadius r = 9).
Proof.
  assert (Hcase : forall r k, isNaN r = false ->
            (nleb r (ofZ k) = true /\ nle r (ofZ k))
            \/ (nleb r (ofZ k) = false /\ ~ nle r (ofZ k))).
  { intros r k Hr. destruct (nleb r (ofZ k)) eqn:E; [left|right]; split; try reflexivity.
    - now apply nleb_iff.
    - intros Hc. apply (nleb_iff r (ofZ k) Hr eq_refl) in Hc. congruence. }
  assert (Hk : forall j k, j <= k -> nle (ofZ j) (ofZ k)).
  { intros j k Hjk. unfold nle. rewrite ncompare_ofZ, Z.compare_gt_iff. lia. }
  split; [|split; [reflexivity|split; [|split]]].
  - intros r. unfold CollegesMapSection.zoomForRadius.
    repeat match goal with |- context [if ?b then _ else _] => destruct b end; lia.
  - intros r1 r2 H1 H2 H12. unfold CollegesMapSection.zoomForRadius.
    assert (Hup : forall k k', k <= k' -> nle r2 (ofZ k) -> nle r1 (ofZ k')).
    { intros k k' Hkk Hk2.
      apply (nle_trans r1 r2 (ofZ k') H1 H2 eq_refl H12).
      exact (nle_trans r2 (ofZ k) (ofZ k') H2 eq_refl eq_refl Hk2 (Hk k k' Hkk)). }
    repeat match goal with
           | |- context [nleb r2 (ofZ ?k)] =>
               destruct (Hcase r2 k H2) as [[-> ?] | [-> ?]]
           end;
    repeat match goal with
           | |- context [nleb r1 (ofZ ?k)] =>
               destruct (Hcase r1 k H1) as [[-> ?] | [-> ?]]
           end;
    try lia; exfalso;
    match goal with
    | Hn : ~ nle r1 (ofZ ?k'), Hp : nle r2 (ofZ ?k) |- _ =>
        apply Hn, (Hup k k'); [lia|exact Hp]
    end.
  - intros r Hr Hn. unfold CollegesMapSection.zoomForRadius.
    now rewrite (proj2 (nleb_iff r (ofZ 7) Hn eq_refl) Hr).
  - intros r Hr. unfold CollegesMapSection.zoomForRadius.
    destruct r as [| | |x]; [reflexivity|reflexivity|now contradiction Hr|].
    assert (Hn : isNaN (Fin x) = false) by reflexivity.
    assert (Hup : forall k, k <= 70 -> nleb (Fin x) (ofZ k) = false).
    { intros k Hk70. destruct (Hcase (Fin x) k Hn) as [[_ A] | [A _]]; [|exact A].
      contradiction Hr. exact (nle_trans (Fin x) (ofZ k) (ofZ 70) Hn eq_refl eq_refl A (Hk k 70 Hk70)). }
    rewrite !Hup by lia. reflexivity.
Qed.

Lemma parseSalary_upper_bound_witness :
  CareerRecommendationsSection.parseSalary
    (Some ((rupee :: js "4L") ++ 8211%N :: rupee :: js "10L")) = ofZ 10.
Proof.
  destruct parseSalary_upper_bound as (_ & _ & _ & Hrange).
  rewrite (Hrange (rupee :: js "4L") 8211%N (rupee :: js "10L")); reflexivity.
Defined.

Lemma zoomForRadius_monotone_witness :
  CollegesMapSection.zoomForRadius (ofZ 50) <= CollegesMapSection.zoomForRadius (ofZ 10).
Proof.
  destruct zoomForRadius_monotone as (_ & _ & Hmono & _).
  apply Hmono; [reflexivity|reflexivity|]. unfold nle. cbn. discriminate.
Defined.


(** ** The eligibility menu *)

Lemma unitsOrder_sign a b : nsign (unitsOrder a b) = compareUnits a b.
Proof. unfold unitsOrder. destruct (compareUnits a b); reflexivity. Qed.

Lemma unitsOrder_consistent : consistentOn unitsOrder (fun _ => True).
Proof.
  split.
  - intros x y _ _. rewrite !unitsOrder_sign. apply compareUnits_antisym.
  - intros x y z _ _ _. unfold precedes. rewrite !unitsOrder_sign.
    apply compareUnits_le_trans.
Qed.

Section EligibilityMenu.
Import ScholarshipsTrackerSection.

Lemma collectClauses_spec l :
  (forall s, In s l -> isText (eligibility s)) ->
  forall set, List.NoDup set ->
    exists out,
      collectClauses l set = Ok out /\ List.NoDup out
      /\ forall x, In x out ->
           In x set \/ exists s, In s l /\ clauseOf s = Some x.
Proof.
  induction l as [|s l IH]; intros Hl set Hnd; cbn [collectClauses].
  - exists set. auto.
  - assert (Hl' : forall s0, In s0 l -> isText (eligibility s0))
      by (intros s0 Hs0; apply Hl; now right).
    destruct (Hl s) as [e He]; [now left|].
    rewrite He. cbn [firstClause mbind result_bind].
    destruct (truthy (VStr e)).
    + destruct (IH Hl' (setAdd (trim (hd [] (splitOn clauseEnd e))) set))
        as (out & Hout & Hnd' & Hin); [now apply NoDup_setAdd|].
      exists out. split; [exact Hout|]. split; [exact Hnd'|].
      intros x Hx. destruct (Hin x Hx) as [Hset | (s0 & Hs0 & Hc)].
      * apply In_setAdd in Hset as [-> | Hset]; [|now left].
        right. exists s. split; [now left|]. unfold clauseOf. now rewrite He.
      * right. exists s0. split; [now right|exact Hc].
    + destruct (IH Hl' set Hnd) as (out & Hout & Hnd' & Hin).
      exists out. split; [exact Hout|]. split; [exact Hnd'|].
      intros x Hx. destruct (Hin x Hx) as [Hset | (s0 & Hs0 & Hc)]; [now left|].
      right. exists s0. split; [now right|exact Hc].
Qed.

(** X29. The eligibility menu, for a catalog whose eligibility texts
    are strings: it is computed without raising and offers at most
    twelve options, no option twice, in ascending order of their code
    units; every option is the first clause of the eligibility text of
    some record, trimmed. *)
Theorem eligibilities_menu (scholarships : list Scholarship) :
  (forall s, In s scholarships -> isText (eligibility s)) ->
  exists out,
    eligibilities scholarships = Ok out
    /\ (length out <= 12)%nat
    /\ List.NoDup out
    /\ StronglySorted (fun a b => compareUnits a b <> Gt) out
    /\ forall x, In x out -> exists s, In s scholarships /\ clauseOf s = Some x.
Proof.
  intros Hl. destruct (collectClauses_spec scholarships Hl [] (List.NoDup_nil _))
    as (set & Hset & Hnd & Hin).
  unfold eligibilities. rewrite Hset. cbn [mbind result_bind].
  eexists. split; [reflexivity|].
  pose proof (sortBy_perm unitsOrder (List.firstn 12 set)) as Hperm.
  split; [|split; [|split]].
  - rewrite (Permutation_length Hperm), List.length_firstn. lia.
  - apply (Permutation_NoDup (Permutation_sym Hperm)).
    rewrite <- (List.firstn_skipn 12 set) in Hnd. now apply List.NoDup_app_remove_r in Hnd.
  - eapply StronglySorted_weaken;
      [|apply (sortBy_sorted unitsOrder (fun _ => True) unitsOrder_consistent)].
    + intros a b. unfold precedes. now rewrite unitsOrder_sign.
    + apply List.Forall_forall. trivial.
  - intros x Hx. apply (Permutation_in _ Hperm) in Hx.
    assert (Hx' : In x set).
    { rewrite <- (List.firstn_skipn 12 set). apply List.in_app_iff. now left. }
    destruct (Hin x Hx') as [[] | Hs]. exact Hs.
Qed.
End EligibilityMenu.

Lemma eligibilities_menu_witness :
  ScholarshipsTrackerSection.eligibilities threeClauses
  = Ok [js "Eligibility details not provided"; js "Girls only"; js "Undergraduate"].
Proof.
  destruct (eligibilities_menu threeClauses) as (out & Hout & _).
  - intros s Hs. cbn in Hs.
    destruct Hs as [<- | [<- | [<- | [<- | []]]]]; eexists; reflexivity.
  - rewrite Hout. vm_compute in Hout. injection Hout as <-. reflexivity.
Defined.

(** ** Conversation titles *)

Section ChatTitles.
Import ChatbotInterface.

Lemma collapse_spaced s :
  forall inRun,
    singleSpaced (collapse inRun s) = true
    /\ (inRun = true ->
        match collapse inRun s with d :: _ => isWhiteSpace d = false | [] => True end).
Proof.
  induction s as [|c s IH]; intros inRun; cbn [collapse]; [now split|].
  destruct (isWhiteSpace c) eqn:Ec.
  - destruct (IH true) as [Hs Hh]. specialize (Hh eq_refl).
    destruct inRun.
    + split; [exact Hs|intros _; exact Hh].
    + split; [|discriminate]. cbn [singleSpaced].
      change (isWhiteSpace 32) with true. cbn [N.eqb Pos.eqb andb].
      rewrite Hs, andb_true_r.
      destruct (collapse true s); [reflexivity|]. now rewrite Hh.
  - destruct (IH false) as [Hs _]. split.
    + cbn [singleSpaced]. now rewrite Ec, Hs.
    + intros _. exact Ec.
Qed.

Lemma collapse_length s inRun : (length (collapse inRun s) <= length s)%nat.
Proof.
  revert inRun. induction s as [|c s IH]; intros inRun; cbn [collapse length]; [lia|].
  destruct (isWhiteSpace c); [destruct inRun|]; cbn [length];
    first [specialize (IH true); lia | specialize (IH false); lia].
Qed.

Lemma singleSpaced_firstn n s : singleSpaced s = true -> singleSpaced (List.firstn n s) = true.
Proof.
  revert s. induction n as [|n IH]; intros [|c s]; cbn [List.firstn singleSpaced]; try reflexivity.
  intros Hs. apply andb_prop in Hs as [Hc Hs]. rewrite (IH s Hs), andb_true_r.
  destruct (isWhiteSpace c); [|reflexivity].
  apply andb_prop in Hc as [H32 Hd]. rewrite H32. cbn [andb].
  destruct n; [reflexivity|]. destruct s; [reflexivity|exact Hd].
Qed.

Lemma singleSpaced_snoc s c :
  singleSpaced s = true -> isWhiteSpace c = false -> singleSpaced (s ++ [c]) = true.
Proof.
  intros Hs Hc. induction s as [|x s IH]; cbn [app singleSpaced].
  - now rewrite Hc.
  - cbn [singleSpaced] in Hs. apply andb_prop in Hs as [Hx Hs].
    rewrite (IH Hs), andb_true_r.
    destruct (isWhiteSpace x); [|reflexivity].
    apply andb_prop in Hx as [H32 Hd]. rewrite H32. cbn [andb].
    destruct s; cbn [app]; [now rewrite Hc|exact Hd].
Qed.

Lemma collapse_ink s inRun : hasInk s -> collapse inRun s <> [].
Proof.
  intros (c & Hc & Hw). revert inRun. induction s as [|x s IH]; intros inRun; [destruct Hc|].
  cbn [collapse]. destruct (isWhiteSpace x) eqn:Ex; [|discriminate].
  destruct Hc as [-> | Hc]; [congruence|].
  destruct inRun; [apply IH, Hc|discriminate].
Qed.

Lemma trimStart_ink s : hasInk s -> hasInk (trimStart s).
Proof.
  intros (c & Hc & Hw). induction s as [|x s IH]; [destruct Hc|].
  cbn [trimStart]. destruct (isWhiteSpace x) eqn:Ex.
  - destruct Hc as [-> | Hc]; [congruence|]. now apply IH.
  - exists c. auto.
Qed.

Lemma trim_ink s : hasInk s -> hasInk (trim s).
Proof.
  intros Hs. unfold trim.
  assert (Hrev : forall t, hasInk t -> hasInk (List.rev t)).
  { intros t (c & Hc & Hw). exists c. split; [now apply List.in_rev in Hc|exact Hw].
  }
  apply Hrev, trimStart_ink, Hrev, trimStart_ink, Hs.
Qed.

Lemma trimStart_blank s : ~ hasInk s -> trimStart s = [].
Proof.
  intros Hs. induction s as [|x s IH]; [reflexivity|]. cbn [trimStart].
  destruct (isWhiteSpace x) eqn:Ex.
  - apply IH. intros (c & Hc & Hw). apply Hs. exists c. split; [now right|exact Hw].
  - exfalso. apply Hs. exists x. split; [now left|exact Ex].
Qed.

Lemma trimStart_length s : (length (trimStart s) <= length s)%nat.
Proof.
  induction s as [|x s IH]; cbn [trimStart length]; [lia|].
  destruct (isWhiteSpace x); cbn [length]; lia.
Qed.

Lemma trim_length s : (length (trim s) <= length s)%nat.
Proof.
  unfold trim. rewrite List.length_rev.
  pose proof (trimStart_length (List.rev (trimStart s))).
  pose proof (trimStart_length s). rewrite List.length_rev in *. lia.
Qed.

(** X30. The title of a conversation is never empty and never longer
    than 51 code units; its only white space is single spaces; it is
    "New conversation" when no message of the user has a character
    other than white space; and when the first message is the user's,
    with such a character and at most 50 code units, the title is that
    message, trimmed, its runs of white space turned into one space
    each. *)
Theorem summarizeTitle_tidy (messages : list Message) :
  let t := summarizeTitle messages in
  t <> [] /\ (length t <= 51)%nat /\ singleSpaced t = true
  /\ ((forall m, In m messages -> role m = user -> ~ hasInk (content m)) ->
      t = js "New conversation")
  /\ (forall m rest,
        messages = m :: rest -> role m = user -> hasInk (content m) ->
        (length (content m) <= 50)%nat ->
        t = collapse false (trim (content m))).
Proof.
  cbv zeta. unfold summarizeTitle.
  destruct (List.find (fun m => bool_decide (role m = user)) messages) as [m|] eqn:Ef.
  - destruct (List.find_some _ _ Ef) as [Hin Hu]. apply bool_decide_eq_true in Hu.
    pose proof (proj1 (collapse_spaced (trim (content m)) false)) as Hsp.
    pose proof (collapse_length (trim (content m)) false) as Hcl.
    pose proof (trim_length (content m)) as Htl.
    assert (Hblank : (forall m0, In m0 messages -> role m0 = user -> ~ hasInk (content m0)) ->
                     collapse false (trim (content m)) = []).
    { intros Hb. unfold trim. rewrite (trimStart_blank (content m)) by now apply Hb.
      reflexivity. }
    assert (Hfirst : forall m0 rest, messages = m0 :: rest -> role m0 = user -> m = m0).
    { intros m0 rest -> Hu0. cbn [List.find] in Ef.
      rewrite (bool_decide_eq_true_2 _ Hu0) in Ef. congruence. }
    remember (collapse false (trim (content m))) as text eqn:Et.
    destruct (Z.ltb_spec 50 (Z.of_nat (length text))) as [Hlong|Hshort].
    + split; [now destruct (List.firstn 50 text)|].
      split; [rewrite List.length_app, List.length_firstn; cbn [length]; lia|].
      split; [apply singleSpaced_snoc; [now apply singleSpaced_firstn|reflexivity]|].
      split.
      * intros Hb. rewrite (Hblank Hb) in Hlong. cbn in Hlong. lia.
      * intros m0 rest E Hu0 _ Hlen. rewrite <- (Hfirst m0 rest E Hu0) in Hlen. lia.
    + destruct text as [|c text'].
      * split; [discriminate|]. split; [cbn; lia|]. split; [reflexivity|].
        split; [reflexivity|].
        intros m0 rest E Hu0 Hink _. rewrite <- (Hfirst m0 rest E Hu0) in Hink.
        exfalso. apply (collapse_ink (trim (content m)) false (trim_ink _ Hink)).
        now symmetry.
      * split; [discriminate|]. split; [lia|]. split; [exact Hsp|]. split.
        -- intros Hb. specialize (Hblank Hb). discriminate.
        -- intros m0 rest E Hu0 _ _. rewrite <- (Hfirst m0 rest E Hu0). exact Et.
  - split; [discriminate|]. split; [cbn; lia|]. split; [reflexivity|].
    split; [reflexivity|].
    intros m0 rest -> Hu0. cbn [List.find] in Ef.
    rewrite (bool_decide_eq_true_2 _ Hu0) in Ef. discriminate.
Qed.
End ChatTitles.

Lemma summarizeTitle_tidy_witness :
  ChatbotInterface.summarizeTitle sampleChat
  = js "Which colleges near Kochi offer marine engineering" ++ [ChatbotInterface.ellipsis]
  /\ ChatbotInterface.summarizeTitle
       [ {| ChatbotInterface.role := ChatbotInterface.user;
            ChatbotInterface.content := js "  Hi   there " |} ]
     = js "Hi there"
  /\ ChatbotInterface.summarizeTitle
       [ {| ChatbotInterface.role := ChatbotInterface.user;
            ChatbotInterface.content := js "   " |} ]
     = js "New conversation".
Proof.
  split; [reflexivity|]. split.
  - destruct (summarizeTitle_tidy
                [ {| ChatbotInterface.role := ChatbotInterface.user;
                     ChatbotInterface.content := js "  Hi   there " |} ])
      as (_ & _ & _ & _ & Hshort).
    rewrite (Hshort _ _ eq_refl eq_refl); [reflexivity| |cbn; lia].
    exists 72%N. split; [cbn; tauto|reflexivity].
  - destruct (summarizeTitle_tidy
                [ {| ChatbotInterface.role := ChatbotInterface.user;
                     ChatbotInterface.content := js "   " |} ])
      as (_ & _ & _ & Hblank & _).
    apply Hblank. intros m [<- | []] _ (c & Hc & Hw).
    cbn in Hc. destruct Hc as [<- | [<- | [<- | []]]]; discriminate.
Defined.
